(** * Attempt lifecycle and version-pinned grading of the testing backend

    A shallow embedding of the request handlers of [app/api] that create
    attempts, record answers, grade an attempt, edit the composition of a
    test and publish question versions, over a model of the relational
    store declared in [app/db/models.py].

    Conventions of the embedding.
    - A table is the list of its rows, in insertion order; a [where] clause
      is a [filter], [func.count] is [length], [func.max] is [sql_max].
    - Python [int] is [Z].  Columns declared [Integer] hold 32-bit values:
      a row carrying a value outside that range is refused by the statement
      that writes it.
    - A handler runs inside the session that [get_session] opens for the
      request: statements act on the transaction's view of the store,
      [commit] publishes the view, and leaving the handler without a commit
      (an exception) discards it.
    - The constraints declared on a table are not deferrable, so every
      statement that writes the table is checked against them at once and
      raises the driver's error when one fails.
    - Request parameters are taken inside the range of the column they are
      compared with; the users table and the token check of
      [get_current_user] are outside the model, the handler receives the
      identity that check produces. *)

From Stdlib Require Import ZArith Lia Ascii String.
From stdpp Require Import base tactics option list sorting strings pretty gmap.

Local Open Scope Z_scope.

(** ** Exceptions ([app/core/errors.py] and the ones SQLAlchemy raises) *)

Inductive exn : Type :=
| HTTPException (status_code : Z) (message : string) (details : list (string * string))
| MultipleResultsFound
| DBAPIError.

Inductive result (A : Type) : Type :=
| Ok (a : A)
| Raise (e : exn).

Arguments Ok {A} a.
Arguments Raise {A} e.

(** JSON values of the response bodies. *)
Inductive value : Type :=
| VInt (z : Z)
| VStr (s : string).

Definition response : Type := list (string * value).

(** ** Rows ([app/db/models.py]); columns no modelled handler reads are left out *)

Module Course.
Record row : Type := mk { id : Z; teacher_id : Z; is_deleted : bool }.
End Course.

Module Question.
Record row : Type := mk { id : Z; author_id : Z; is_deleted : bool }.
End Question.

Module QuestionVersion.
Record row : Type := mk {
  question_id : Z; version : Z; title : string; body : string;
  options : list string; correct_index : Z }.
Definition key (r : row) : Z * Z := (question_id r, version r).
End QuestionVersion.

Module Test.
Record row : Type := mk { id : Z; course_id : Z; is_active : bool; is_deleted : bool }.
End Test.

Module TestQuestion.
Record row : Type := mk { test_id : Z; question_id : Z; position : Z }.
Definition set_position (p : Z) (r : row) : row :=
  {| test_id := test_id r; question_id := question_id r; position := p |}.
End TestQuestion.

Module Attempt.
Record row : Type := mk { id : Z; test_id : Z; user_id : Z; status : string }.
Definition set_status (s : string) (r : row) : row :=
  {| id := id r; test_id := test_id r; user_id := user_id r; status := s |}.
End Attempt.

Module AttemptQuestion.
Record row : Type := mk {
  attempt_id : Z; question_id : Z; question_version : Z; position : Z }.
End AttemptQuestion.

Module Answer.
Record row : Type := mk {
  id : Z; attempt_id : Z; question_id : Z; question_version : Z; answer_index : Z }.
Definition set_answer_index (i : Z) (r : row) : row :=
  {| id := id r; attempt_id := attempt_id r; question_id := question_id r;
     question_version := question_version r; answer_index := i |}.
End Answer.

#[global] Instance course_eq_dec : EqDecision Course.row.
Proof. solve_decision. Defined.
#[global] Instance question_eq_dec : EqDecision Question.row.
Proof. solve_decision. Defined.
#[global] Instance question_version_eq_dec : EqDecision QuestionVersion.row.
Proof. solve_decision. Defined.
#[global] Instance test_eq_dec : EqDecision Test.row.
Proof. solve_decision. Defined.
#[global] Instance test_question_eq_dec : EqDecision TestQuestion.row.
Proof. solve_decision. Defined.
#[global] Instance attempt_eq_dec : EqDecision Attempt.row.
Proof. solve_decision. Defined.
#[global] Instance attempt_question_eq_dec : EqDecision AttemptQuestion.row.
Proof. solve_decision. Defined.
#[global] Instance answer_eq_dec : EqDecision Answer.row.
Proof. solve_decision. Defined.

(** ** The store *)

Record DB : Type := mkDB {
  courses : list Course.row;
  questions : list Question.row;
  question_versions : list QuestionVersion.row;
  tests : list Test.row;
  test_questions : list TestQuestion.row;
  attempts : list Attempt.row;
  attempt_questions : list AttemptQuestion.row;
  answers : list Answer.row }.

Definition with_question_versions (f : list QuestionVersion.row → list QuestionVersion.row) (db : DB) : DB :=
  mkDB (courses db) (questions db) (f (question_versions db)) (tests db)
       (test_questions db) (attempts db) (attempt_questions db) (answers db).

Definition with_test_questions (f : list TestQuestion.row → list TestQuestion.row) (db : DB) : DB :=
  mkDB (courses db) (questions db) (question_versions db) (tests db)
       (f (test_questions db)) (attempts db) (attempt_questions db) (answers db).

Definition with_attempts (f : list Attempt.row → list Attempt.row) (db : DB) : DB :=
  mkDB (courses db) (questions db) (question_versions db) (tests db)
       (test_questions db) (f (attempts db)) (attempt_questions db) (answers db).

Definition with_attempt_questions (f : list AttemptQuestion.row → list AttemptQuestion.row) (db : DB) : DB :=
  mkDB (courses db) (questions db) (question_versions db) (tests db)
       (test_questions db) (attempts db) (f (attempt_questions db)) (answers db).

Definition with_answers (f : list Answer.row → list Answer.row) (db : DB) : DB :=
  mkDB (courses db) (questions db) (question_versions db) (tests db)
       (test_questions db) (attempts db) (attempt_questions db) (f (answers db)).

(** ** Declared constraints *)

Definition int4 (z : Z) : Prop := -2147483648 ≤ z ≤ 2147483647.

(** Primary keys and [UniqueConstraint]s. *)
Definition unique_on {A K : Type} (key : A → K) (rows : list A) : Prop :=
  NoDup (key <$> rows).

(** [ForeignKey] and [ForeignKeyConstraint]. *)
Definition references {A B K : Type} (fk : A → K) (rows : list A)
    (pk : B → K) (target : list B) : Prop :=
  Forall (λ r, fk r ∈ pk <$> target) rows.

Definition courses_ok (db : DB) : Prop :=
  unique_on Course.id (courses db).

Definition questions_ok (db : DB) : Prop :=
  unique_on Question.id (questions db).

(** chk_qv_version, chk_qv_correct_ge0, chk_qv_opts_len, chk_qv_correct_lt_len *)
Definition question_version_checks (v : QuestionVersion.row) : Prop :=
  1 ≤ QuestionVersion.version v ∧ 0 ≤ QuestionVersion.correct_index v
  ∧ 2 ≤ Z.of_nat (length (QuestionVersion.options v))
  ∧ QuestionVersion.correct_index v < Z.of_nat (length (QuestionVersion.options v))
  ∧ int4 (QuestionVersion.version v) ∧ int4 (QuestionVersion.correct_index v).

Definition question_versions_ok (db : DB) : Prop :=
  unique_on QuestionVersion.key (question_versions db)
  ∧ references QuestionVersion.question_id (question_versions db) Question.id (questions db)
  ∧ Forall question_version_checks (question_versions db).

Definition tests_ok (db : DB) : Prop :=
  unique_on Test.id (tests db)
  ∧ references Test.course_id (tests db) Course.id (courses db).

(** uq_test_questions_position, chk_tq_pos *)
Definition test_questions_ok (db : DB) : Prop :=
  unique_on (λ r, (TestQuestion.test_id r, TestQuestion.question_id r)) (test_questions db)
  ∧ unique_on (λ r, (TestQuestion.test_id r, TestQuestion.position r)) (test_questions db)
  ∧ references TestQuestion.test_id (test_questions db) Test.id (tests db)
  ∧ references TestQuestion.question_id (test_questions db) Question.id (questions db)
  ∧ Forall (λ r, 0 ≤ TestQuestion.position r ∧ int4 (TestQuestion.position r)) (test_questions db).

(** uq_attempts_test_user, chk_attempts_status *)
Definition attempts_ok (db : DB) : Prop :=
  unique_on Attempt.id (attempts db)
  ∧ unique_on (λ r, (Attempt.test_id r, Attempt.user_id r)) (attempts db)
  ∧ references Attempt.test_id (attempts db) Test.id (tests db)
  ∧ Forall (λ r, Attempt.status r = "in_progress" ∨ Attempt.status r = "finished") (attempts db).

(** uq_attempt_questions_position, chk_aq_pos, fk_aq_question_version *)
Definition attempt_questions_ok (db : DB) : Prop :=
  unique_on (λ r, (AttemptQuestion.attempt_id r, AttemptQuestion.question_id r)) (attempt_questions db)
  ∧ unique_on (λ r, (AttemptQuestion.attempt_id r, AttemptQuestion.position r)) (attempt_questions db)
  ∧ references AttemptQuestion.attempt_id (attempt_questions db) Attempt.id (attempts db)
  ∧ references (λ r, (AttemptQuestion.question_id r, AttemptQuestion.question_version r))
      (attempt_questions db) QuestionVersion.key (question_versions db)
  ∧ Forall (λ r, 0 ≤ AttemptQuestion.position r ∧ int4 (AttemptQuestion.position r)
                 ∧ int4 (AttemptQuestion.question_version r)) (attempt_questions db).

(** uq_answers_attempt_question, chk_answers_idx, fk_answers_question_version *)
Definition answers_ok (db : DB) : Prop :=
  unique_on Answer.id (answers db)
  ∧ unique_on (λ r, (Answer.attempt_id r, Answer.question_id r)) (answers db)
  ∧ references Answer.attempt_id (answers db) Attempt.id (attempts db)
  ∧ references (λ r, (Answer.question_id r, Answer.question_version r))
      (answers db) QuestionVersion.key (question_versions db)
  ∧ Forall (λ r, -1 ≤ Answer.answer_index r ∧ int4 (Answer.answer_index r)
                 ∧ int4 (Answer.question_version r)) (answers db).

(** A store in which every declared constraint holds. *)
Definition db_ok (db : DB) : Prop :=
  courses_ok db ∧ questions_ok db ∧ question_versions_ok db ∧ tests_ok db
  ∧ test_questions_ok db ∧ attempts_ok db ∧ attempt_questions_ok db ∧ answers_ok db.

#[global] Instance int4_dec z : Decision (int4 z).
Proof. unfold int4. apply _. Defined.
#[global] Instance unique_on_dec {A K} `{EqDecision K} (key : A → K) rows : Decision (unique_on key rows).
Proof. unfold unique_on. apply _. Defined.
#[global] Instance references_dec {A B K} `{EqDecision K} (fk : A → K) rows (pk : B → K) target :
  Decision (references fk rows pk target).
Proof. unfold references. apply _. Defined.
#[global] Instance question_version_checks_dec v : Decision (question_version_checks v).
Proof. unfold question_version_checks. apply _. Defined.
#[global] Instance courses_ok_dec db : Decision (courses_ok db).
Proof. unfold courses_ok. apply _. Defined.
#[global] Instance questions_ok_dec db : Decision (questions_ok db).
Proof. unfold questions_ok. apply _. Defined.
#[global] Instance question_versions_ok_dec db : Decision (question_versions_ok db).
Proof. unfold question_versions_ok. apply _. Defined.
#[global] Instance tests_ok_dec db : Decision (tests_ok db).
Proof. unfold tests_ok. apply _. Defined.
#[global] Instance test_questions_ok_dec db : Decision (test_questions_ok db).
Proof. unfold test_questions_ok. apply _. Defined.
#[global] Instance attempts_ok_dec db : Decision (attempts_ok db).
Proof. unfold attempts_ok. apply _. Defined.
#[global] Instance attempt_questions_ok_dec db : Decision (attempt_questions_ok db).
Proof. unfold attempt_questions_ok. apply _. Defined.
#[global] Instance answers_ok_dec db : Decision (answers_ok db).
Proof. unfold answers_ok. apply _. Defined.
#[global] Instance db_ok_dec db : Decision (db_ok db).
Proof. unfold db_ok. apply _. Defined.

(** ** The session ([app/db/session.py]) *)

Record Session : Type := mkSession { committed : DB; view : DB }.

(** A handler body: it reads and writes the session and returns or raises. *)
Definition M (A : Type) : Type := Session → result A * Session.

Definition ret {A : Type} (a : A) : M A := λ s, (Ok a, s).

Definition bind {A B : Type} (m : M A) (k : A → M B) : M B :=
  λ s, match m s with
       | (Ok a, s') => k a s'
       | (Raise e, s') => (Raise e, s')
       end.

Definition raise {A : Type} (e : exn) : M A := λ s, (Raise e, s).

(** [try: m except Exception: handler] *)
Definition try_except {A : Type} (m : M A) (handler : M A) : M A :=
  λ s, match m s with
       | (Ok a, s') => (Ok a, s')
       | (Raise _, s') => handler s'
       end.

Declare Scope session_scope.
Delimit Scope session_scope with session.
Notation "'let*' x ':=' m 'in' k" := (bind m (λ x, k))
  (at level 10, x name, m at level 100, k at level 200) : session_scope.
Notation "'let*' ' p ':=' m 'in' k" := (bind m (λ x, match x with p => k end))
  (at level 10, p pattern, m at level 100, k at level 200) : session_scope.
Local Open Scope session_scope.

(** [http_error(status_code, message, details)] *)
Definition http_error {A : Type} (status_code : Z) (message : string)
    (details : list (string * string)) : M A :=
  raise (HTTPException status_code message details).

(** [await session.execute(select(...))]: a query over the transaction's view. *)
Definition execute {A : Type} (query : DB → A) : M A := λ s, (Ok (query (view s)), s).

(** An INSERT, UPDATE or DELETE on one table: the table's constraints are
    checked on the outcome of the statement. *)
Definition statement (table_ok : DB → Prop) `{!∀ db, Decision (table_ok db)}
    (write : DB → DB) : M unit :=
  λ s, let v := write (view s) in
       if decide (table_ok v) then (Ok (), mkSession (committed s) v)
       else (Raise DBAPIError, s).

Definition commit : M unit := λ s, (Ok (), mkSession (view s) (view s)).

Definition rollback : M unit := λ s, (Ok (), mkSession (committed s) (committed s)).

(** [async with SessionLocal() as session: yield session]: the request gets a
    fresh session on the store; what it did not commit is lost on close. *)
Definition get_session {A : Type} (handler : M A) (db : DB) : result A * DB :=
  let (r, s) := handler (mkSession db db) in (r, committed s).

(** [Result.scalar_one_or_none()] *)
Definition scalar_one_or_none {A : Type} (rows : list A) : M (option A) :=
  match rows with
  | [] => ret None
  | [r] => ret (Some r)
  | _ => raise MultipleResultsFound
  end.

(** [func.max(...)]: NULL on no row. *)
Definition sql_max (zs : list Z) : option Z :=
  match zs with
  | [] => None
  | z :: zs' => Some (foldr Z.max z zs')
  end.

(** The value an autoincrement [id] gets.  The sequence behind the column
    hands out a value above every value it handed out before, so one that no
    row carries; it is kept outside the transaction and may have run ahead
    of the rows, since an INSERT that is rolled back keeps the value it
    took.  The embedding takes the first candidate, one above the largest
    id in use, and the theorems say of a new id only that no row carried
    it. *)
Definition fresh_id (ids : list Z) : Z := 1 + foldr Z.max 0 ids.

(** ** The caller ([app/core/security.py], what [get_current_user] returns) *)

Record Current : Type := mkCurrent { user_id : Z; permissions : gset string }.

Definition has_perm (current : Current) (perm : string) : bool :=
  bool_decide (perm ∈ permissions current).

(** [app/core/perms.py] *)
Definition QUEST_UPDATE : string := "quest:update".

(** ** Python built-ins *)

(** [str.split(",")] *)
Fixpoint str_split_comma (s : string) : list string :=
  match s with
  | EmptyString => [EmptyString]
  | String c rest =>
      if decide (c = ","%char) then EmptyString :: str_split_comma rest
      else match str_split_comma rest with
           | [] => [String c EmptyString]
           | field :: fields => String c field :: fields
           end
  end.

(** [round(n / d)] of two integers, [n ≥ 0] and [d > 0]: the nearest integer,
    a tie going to the even one.  The quotient is a float in the source; it
    is exact at a tie and off a tie it stays on its side of it for every
    [d] below 2^45, so the rounding is the one of the exact quotient. *)
Definition py_round_div (n d : Z) : Z :=
  let q := n `div` d in
  let r := n `mod` d in
  if decide (2 * r < d) then q
  else if decide (d < 2 * r) then q + 1
  else if Z.even q then q else q + 1.

(** ** Queries

    The [select] statements of the handlers, as functions of the store. *)

(** [select(Test).where(Test.id == test_id, Test.is_deleted == False)] *)
Definition select_test (test_id : Z) (db : DB) : list Test.row :=
  filter (λ t, Test.id t = test_id ∧ Test.is_deleted t = false) (tests db).

(** [select(Course).where(Course.id == course_id, Course.is_deleted == False)] *)
Definition select_course (course_id : Z) (db : DB) : list Course.row :=
  filter (λ c, Course.id c = course_id ∧ Course.is_deleted c = false) (courses db).

(** [select(Question).where(Question.id == id, Question.is_deleted == False)] *)
Definition select_question (id : Z) (db : DB) : list Question.row :=
  filter (λ q, Question.id q = id ∧ Question.is_deleted q = false) (questions db).

(** [select(Attempt).where(Attempt.id == attempt_id)] *)
Definition select_attempt (attempt_id : Z) (db : DB) : list Attempt.row :=
  filter (λ a, Attempt.id a = attempt_id) (attempts db).

(** [select(Attempt).where(Attempt.test_id == test_id, Attempt.user_id == user_id)] *)
Definition select_attempt_of (test_id user_id : Z) (db : DB) : list Attempt.row :=
  filter (λ a, Attempt.test_id a = test_id ∧ Attempt.user_id a = user_id) (attempts db).

(** [select(Answer).where(Answer.id == answer_id)] *)
Definition select_answer (answer_id : Z) (db : DB) : list Answer.row :=
  filter (λ a, Answer.id a = answer_id) (answers db).

(** The rows of [test_questions] of one test. *)
Definition select_test_questions (test_id : Z) (db : DB) : list TestQuestion.row :=
  filter (λ r, TestQuestion.test_id r = test_id) (test_questions db).

(** [select(TestQuestion).where(TestQuestion.test_id == test_id,
      TestQuestion.question_id == question_id)] *)
Definition select_test_question (test_id question_id : Z) (db : DB) : list TestQuestion.row :=
  filter (λ r, TestQuestion.test_id r = test_id ∧ TestQuestion.question_id r = question_id)
         (test_questions db).

(** [select(Test, Course).join(Course, Course.id == Test.course_id)
      .where(Test.id == test_id, Test.is_deleted == False, Course.is_deleted == False)] *)
Definition select_test_course (test_id : Z) (db : DB) : list (Test.row * Course.row) :=
  filter (λ '(t, c), Course.id c = Test.course_id t ∧ Test.id t = test_id
                     ∧ Test.is_deleted t = false ∧ Course.is_deleted c = false)
         (list_prod (tests db) (courses db)).

(** ** [app/api/attempts.py] *)

(** [session.add(Attempt(...)); await session.flush()]: the row gets its id. *)
Definition add_attempt (test_id user_id : Z) (status : string) : M Attempt.row :=
  let* id := execute (λ db, fresh_id (Attempt.id <$> attempts db)) in
  let attempt := Attempt.mk id test_id user_id status in
  let* _ := statement attempts_ok (with_attempts (λ rows, rows ++ [attempt])) in
  ret attempt.

Definition add_attempt_question (aq : AttemptQuestion.row) : M unit :=
  statement attempt_questions_ok (with_attempt_questions (λ rows, rows ++ [aq])).

Definition add_answer (attempt_id question_id question_version answer_index : Z) : M unit :=
  let* id := execute (λ db, fresh_id (Answer.id <$> answers db)) in
  statement answers_ok
    (with_answers (λ rows, rows ++ [Answer.mk id attempt_id question_id question_version answer_index])).

(** [select(func.max(QuestionVersion.version)).where(QuestionVersion.question_id == question_id)] *)
Definition max_version (question_id : Z) (db : DB) : option Z :=
  sql_max (QuestionVersion.version <$>
           filter (λ v, QuestionVersion.question_id v = question_id) (question_versions db)).

(** The [for (question_id, position) in tq_rows] loop of [attempt_create]. *)
Fixpoint attempt_create_loop (attempt_id : Z) (tq_rows : list (Z * Z)) : M unit :=
  match tq_rows with
  | [] => ret ()
  | (question_id, position) :: rest =>
      let* last_ver := execute (max_version question_id) in
      match last_ver with
      | None =>
          http_error 400 "Bad Request"
            [("message", "Question " +:+ pretty question_id +:+ " has no versions")]
      | Some last_ver =>
          let* _ := add_attempt_question
                      (AttemptQuestion.mk attempt_id question_id last_ver position) in
          let* _ := add_answer attempt_id question_id last_ver (-1) in
          attempt_create_loop attempt_id rest
      end
  end.

(** The order of [order_by(TestQuestion.position)] on (question_id, position) rows. *)
Definition by_position (a b : Z * Z) : Prop := a.2 ≤ b.2.

#[global] Instance by_position_dec a b : Decision (by_position a b).
Proof. unfold by_position. apply _. Defined.

(** [select(TestQuestion.question_id, TestQuestion.position)
      .where(TestQuestion.test_id == test_id).order_by(TestQuestion.position)] *)
Definition ordered_test_questions (test_id : Z) (db : DB) : list (Z * Z) :=
  merge_sort by_position
    ((λ r, (TestQuestion.question_id r, TestQuestion.position r)) <$>
     select_test_questions test_id db).

Definition attempt_create (test_id : Z) (current : Current) : M response :=
  let* rows := execute (select_test test_id) in
  let* test := scalar_one_or_none rows in
  match test with
  | None => http_error 404 "Not found" []
  | Some test =>
      if negb (Test.is_active test)
      then http_error 400 "Bad Request" [("message", "Test is not active")]
      else
        let user_id := user_id current in
        let* rows := execute (select_attempt_of test_id user_id) in
        let* existing := scalar_one_or_none rows in
        match existing with
        | Some existing => ret [("id", VInt (Attempt.id existing))]
        | None =>
            let* attempt := add_attempt test_id user_id "in_progress" in
            let* tq_rows := execute (ordered_test_questions test_id) in
            match tq_rows with
            | [] => http_error 400 "Bad Request" [("message", "Test has no questions")]
            | _ :: _ =>
                let* _ := attempt_create_loop (Attempt.id attempt) tq_rows in
                let* _ := commit in
                ret [("id", VInt (Attempt.id attempt))]
            end
        end
  end.

(** The UPDATE the unit of work emits for a changed attribute of a loaded
    row; an attribute set to the value it has emits nothing. *)
Definition update_attempt_status (attempt : Attempt.row) (status : string) : M unit :=
  if decide (Attempt.status attempt = status) then ret ()
  else statement attempts_ok
         (with_attempts (fmap (λ r, if decide (Attempt.id r = Attempt.id attempt)
                                    then Attempt.set_status status r else r))).

Definition attempt_finish (attempt_id : Z) (current : Current) : M response :=
  let* rows := execute (select_attempt attempt_id) in
  let* attempt := scalar_one_or_none rows in
  match attempt with
  | None => http_error 404 "Not found" []
  | Some attempt =>
      if decide (Attempt.user_id attempt ≠ user_id current)
      then http_error 403 "Forbidden" []
      else if decide (Attempt.status attempt = "finished")
      then ret [("status", VStr "ok")]
      else
        let* _ := update_attempt_status attempt "finished" in
        let* _ := commit in
        ret [("status", VStr "ok")]
  end.

(** ** [app/api/answers.py] *)

Definition get_attempt_or_404 (attempt_id : Z) : M Attempt.row :=
  let* rows := execute (select_attempt attempt_id) in
  let* attempt := scalar_one_or_none rows in
  match attempt with
  | None => http_error 404 "Not found" []
  | Some attempt => ret attempt
  end.

(** [ans.answer_index = index] followed by the flush of [commit]. *)
Definition update_answer_index (ans : Answer.row) (index : Z) : M unit :=
  if decide (Answer.answer_index ans = index) then ret ()
  else statement answers_ok
         (with_answers (fmap (λ r, if decide (Answer.id r = Answer.id ans)
                                   then Answer.set_answer_index index r else r))).

Definition answer_update (answer_id index : Z) (current : Current) : M response :=
  if decide (index < 0)
  then http_error 400 "Bad Request"
         [("message", "index must be >= 0 (use answer_delete to reset to -1)")]
  else
    let* rows := execute (select_answer answer_id) in
    let* ans := scalar_one_or_none rows in
    match ans with
    | None => http_error 404 "Not found" []
    | Some ans =>
        let* attempt := get_attempt_or_404 (Answer.attempt_id ans) in
        if decide (Attempt.user_id attempt ≠ user_id current)
        then http_error 403 "Forbidden" []
        else if decide (Attempt.status attempt ≠ "in_progress")
        then http_error 400 "Bad Request" [("message", "Attempt already finished")]
        else
          let* _ := update_answer_index ans index in
          let* _ := commit in
          ret [("status", VStr "ok")]
    end.

Definition answer_delete (answer_id : Z) (current : Current) : M response :=
  let* rows := execute (select_answer answer_id) in
  let* ans := scalar_one_or_none rows in
  match ans with
  | None => http_error 404 "Not found" []
  | Some ans =>
      let* attempt := get_attempt_or_404 (Answer.attempt_id ans) in
      if decide (Attempt.user_id attempt ≠ user_id current)
      then http_error 403 "Forbidden" []
      else if decide (Attempt.status attempt ≠ "in_progress")
      then http_error 400 "Bad Request" [("message", "Attempt already finished")]
      else
        let* _ := update_answer_index ans (-1) in
        let* _ := commit in
        ret [("status", VStr "ok")]
  end.

(** ** [app/api/test_questions.py] *)

Definition get_test_or_404 (test_id : Z) : M Test.row :=
  let* rows := execute (select_test test_id) in
  let* test := scalar_one_or_none rows in
  match test with
  | None => http_error 404 "Not found" []
  | Some test => ret test
  end.

Definition get_course_or_404 (course_id : Z) : M Course.row :=
  let* rows := execute (select_course course_id) in
  let* course := scalar_one_or_none rows in
  match course with
  | None => http_error 404 "Not found" []
  | Some course => ret course
  end.

(** [select(func.count(Attempt.id)).where(Attempt.test_id == test.id)] *)
Definition attempts_cnt (test_id : Z) (db : DB) : Z :=
  Z.of_nat (length (filter (λ a, Attempt.test_id a = test_id) (attempts db))).

Definition ensure_can_edit_test (current : Current) (test : Test.row) : M unit :=
  let* course := get_course_or_404 (Test.course_id test) in
  let* attempts_cnt := execute (attempts_cnt (Test.id test)) in
  if decide (0 < attempts_cnt)
  then http_error 400 "Bad Request" [("message", "Test has attempts, modification forbidden")]
  else if decide (Course.teacher_id course = user_id current)
  then ret ()
  else http_error 403 "Forbidden" [("message", "Not allowed by default; need permission")].

Definition test_question_add (test_id question_id : Z) (current : Current) : M response :=
  let* test := get_test_or_404 test_id in
  let* _ := ensure_can_edit_test current test in
  let* course := get_course_or_404 (Test.course_id test) in
  if bool_decide (Course.teacher_id course ≠ user_id current)
     && negb (has_perm current "test:quest:add")
  then http_error 403 "Forbidden" [("required_permission", "test:quest:add")]
  else
    let* rows := execute (select_question question_id) in
    let* q := scalar_one_or_none rows in
    match q with
    | None => http_error 404 "Not found" [("message", "Question not found")]
    | Some _ =>
        let* max_pos := execute (λ db,
            sql_max (TestQuestion.position <$> select_test_questions test_id db)) in
        let next_pos := match max_pos with Some max_pos => max_pos + 1 | None => 0 end in
        let* _ := try_except
            (let* _ := statement test_questions_ok
                         (with_test_questions
                            (λ rows, rows ++ [TestQuestion.mk test_id question_id next_pos])) in
             commit)
            (let* _ := rollback in
             http_error 400 "Bad Request"
               [("message", "Question already in test or position conflict")]) in
        ret [("status", VStr "ok"); ("position", VInt next_pos)]
    end.

Definition test_question_del (test_id question_id : Z) (current : Current) : M response :=
  let* test := get_test_or_404 test_id in
  let* _ := ensure_can_edit_test current test in
  let* course := get_course_or_404 (Test.course_id test) in
  if bool_decide (Course.teacher_id course ≠ user_id current)
     && negb (has_perm current "test:quest:del")
  then http_error 403 "Forbidden" [("required_permission", "test:quest:del")]
  else
    let* rows := execute (select_test_question test_id question_id) in
    let* tq := scalar_one_or_none rows in
    match tq with
    | None => http_error 404 "Not found" []
    | Some tq =>
        let* _ := statement test_questions_ok
            (with_test_questions
               (filter (λ r, ¬ (TestQuestion.test_id r = TestQuestion.test_id tq
                                ∧ TestQuestion.question_id r = TestQuestion.question_id tq)))) in
        let* _ := commit in
        ret [("status", VStr "ok")]
    end.

(** [TestQuestion.__table__.update()
      .where(TestQuestion.test_id == test_id, TestQuestion.question_id == qid)
      .values(position=pos)] *)
Definition update_position (test_id qid pos : Z) : M unit :=
  statement test_questions_ok
    (with_test_questions
       (fmap (λ r, if decide (TestQuestion.test_id r = test_id ∧ TestQuestion.question_id r = qid)
                   then TestQuestion.set_position pos r else r))).

(** The [for pos, qid in enumerate(new_order)] loop of [test_question_order],
    entered with [pos = 0]. *)
Fixpoint test_question_order_loop (test_id pos : Z) (new_order : list Z) : M unit :=
  match new_order with
  | [] => ret ()
  | qid :: rest =>
      let* _ := update_position test_id qid pos in
      test_question_order_loop test_id (pos + 1) rest
  end.

Section python_str.

(** [str.strip()] and [int(str)] of the interpreter; [None] stands for the
    [ValueError] of [int]. *)
Variable str_strip : string → string.
Variable int_of_str : string → option Z.

(** The value of the [try] block of [parse_csv_ids], [None] when it raises. *)
Definition csv_ids (csv : string) : option (list Z) :=
  let parts := filter (λ p, p ≠ "") (str_strip <$> str_split_comma csv) in
  mapM int_of_str parts.

Definition parse_csv_ids (csv : string) : M (list Z) :=
  match csv_ids csv with
  | Some ids => ret ids
  | None => http_error 400 "Bad Request" [("message", "Invalid CSV of ids")]
  end.

(** [[r.question_id for r in res.all()]] of [test_question_order]. *)
Definition current_ids (test_id : Z) (db : DB) : list Z :=
  TestQuestion.question_id <$> select_test_questions test_id db.

Definition test_question_order (test_id : Z) (questionIdsCsv : string) (current : Current)
    : M response :=
  let* test := get_test_or_404 test_id in
  let* _ := ensure_can_edit_test current test in
  let* course := get_course_or_404 (Test.course_id test) in
  if bool_decide (Course.teacher_id course ≠ user_id current)
     && negb (has_perm current "test:quest:update")
  then http_error 403 "Forbidden" [("required_permission", "test:quest:update")]
  else
    let* new_order := parse_csv_ids questionIdsCsv in
    let* current_ids := execute (current_ids test_id) in
    if decide (merge_sort Z.le current_ids ≠ merge_sort Z.le new_order)
    then http_error 400 "Bad Request"
           [("message", "Order list must contain exactly the same question ids as in test")]
    else
      let* _ := test_question_order_loop test_id 0 new_order in
      let* _ := commit in
      ret [("status", VStr "ok")].

(** ** [app/api/questions.py] *)

Definition question_update (id : Z) (title text optionsCsv : string) (correctIndex : Z)
    (current : Current) : M response :=
  let* rows := execute (select_question id) in
  let* q := scalar_one_or_none rows in
  match q with
  | None => http_error 404 "Not found" []
  | Some q =>
      if bool_decide (Question.author_id q ≠ user_id current)
         && negb (has_perm current QUEST_UPDATE)
      then http_error 403 "Forbidden" [("required_permission", QUEST_UPDATE)]
      else
        let options := filter (λ o, o ≠ "") (str_strip <$> str_split_comma optionsCsv) in
        if decide (Z.of_nat (length options) < 2)
        then http_error 400 "Bad Request" [("message", "Need at least 2 options")]
        else if decide (correctIndex < 0 ∨ Z.of_nat (length options) ≤ correctIndex)
        then http_error 400 "Bad Request" [("message", "correctIndex out of range")]
        else
          let* current_max := execute (max_version id) in
          let next_version := default 0 current_max + 1 in
          let* _ := statement question_versions_ok
              (with_question_versions
                 (λ rows, rows ++ [QuestionVersion.mk id next_version title text options correctIndex])) in
          let* _ := commit in
          ret [("id", VInt id); ("version", VInt next_version)]
  end.

End python_str.

(** ** [app/api/teacher_tests.py] *)

(** [row = res.first()] *)
Definition get_test_course (test_id : Z) : M (Test.row * Course.row) :=
  let* rows := execute (select_test_course test_id) in
  match rows with
  | [] => http_error 404 "Not found" []
  | row :: _ => ret row
  end.

Definition ensure_teacher_or_perm (course : Course.row) (current : Current) (perm : string)
    : M unit :=
  if decide (Course.teacher_id course = user_id current) then ret ()
  else if negb (has_perm current perm)
  then http_error 403 "Forbidden" [("required_permission", perm)]
  else ret ().

(** [select(func.count(Answer.id)).where(Answer.attempt_id == attempt.id)] *)
Definition count_answers (attempt_id : Z) (db : DB) : Z :=
  Z.of_nat (length (filter (λ a, Answer.attempt_id a = attempt_id) (answers db))).

(** [select(func.count(Answer.id)).join(QuestionVersion, ...).where(...)]:
    the rows of the join that pass the filter. *)
Definition count_correct (attempt_id : Z) (db : DB) : Z :=
  Z.of_nat (length (filter
    (λ '(a, v), (QuestionVersion.question_id v = Answer.question_id a
                 ∧ QuestionVersion.version v = Answer.question_version a)
                ∧ Answer.attempt_id a = attempt_id
                ∧ Answer.answer_index a ≠ -1
                ∧ Answer.answer_index a = QuestionVersion.correct_index v)
    (list_prod (answers db) (question_versions db)))).

Definition grade_report (test_id user_id attempt_id correct total grade_percent : Z) : response :=
  [("test_id", VInt test_id); ("user_id", VInt user_id); ("attempt_id", VInt attempt_id);
   ("correct", VInt correct); ("total", VInt total); ("grade_percent", VInt grade_percent)].

Definition test_user_grade (test_id user_id : Z) (current : Current) : M response :=
  let* '(test, course) := get_test_course test_id in
  let* _ := ensure_teacher_or_perm course current "test:answer:read" in
  let* rows := execute (select_attempt_of (Test.id test) user_id) in
  let* attempt := scalar_one_or_none rows in
  match attempt with
  | None => http_error 404 "Not found" [("message", "User has no attempt for this test")]
  | Some attempt =>
      let* total := execute (count_answers (Attempt.id attempt)) in
      if decide (total = 0)
      then ret (grade_report (Test.id test) user_id (Attempt.id attempt) 0 0 0)
      else
        let* correct := execute (count_correct (Attempt.id attempt)) in
        let grade_percent := py_round_div (100 * correct) total in
        ret (grade_report (Test.id test) user_id (Attempt.id attempt) correct total grade_percent)
  end.

(** ** The grading rule in the words of the specification

    [total] is the number of answers of the attempt, [correct] the number of
    those that are answered and equal the correct index of the version they
    pin, and the grade is the rounded percentage, 0 for no answer at all. *)

Definition answers_of (attempt_id : Z) (db : DB) : list Answer.row :=
  filter (λ a, Answer.attempt_id a = attempt_id) (answers db).

(** The version an answer pins: the row under its (question_id, question_version). *)
Definition pinned_version (a : Answer.row) (db : DB) : option QuestionVersion.row :=
  head (filter (λ v, QuestionVersion.key v = (Answer.question_id a, Answer.question_version a))
               (question_versions db)).

Definition answered_correctly (db : DB) (a : Answer.row) : Prop :=
  Answer.answer_index a ≠ -1
  ∧ QuestionVersion.correct_index <$> pinned_version a db = Some (Answer.answer_index a).

#[global] Instance answered_correctly_dec db a : Decision (answered_correctly db a).
Proof. unfold answered_correctly. apply _. Defined.

Definition spec_total (attempt_id : Z) (db : DB) : Z :=
  Z.of_nat (length (answers_of attempt_id db)).

Definition spec_correct (attempt_id : Z) (db : DB) : Z :=
  Z.of_nat (length (filter (answered_correctly db) (answers_of attempt_id db))).

Definition spec_grade_percent (correct total : Z) : Z :=
  if decide (total = 0) then 0 else py_round_div (100 * correct) total.

(** [g] is [n / d] rounded, for [d > 0]: no integer is nearer to the
    quotient than [g] ([g] is within one half of it), and when the quotient
    lies halfway between two integers [g] is the even one, which is how
    [round] settles a tie. *)
Definition rounds_to (n d g : Z) : Prop :=
  2 * Z.abs (n - g * d) ≤ d ∧ (2 * Z.abs (n - g * d) = d → Z.even g = true).

(** ** A concrete course, used to run the handlers *)

Module Demo.

(** Readings of [str.strip] and [int] on plain ASCII text: blanks are the
    ASCII ones and a number is an optional sign followed by decimal digits. *)
Fixpoint lstrip (s : string) : string :=
  match s with
  | EmptyString => EmptyString
  | String c rest => if Ascii.is_space c then lstrip rest else s
  end.

Definition ascii_strip (s : string) : string :=
  String.rev (lstrip (String.rev (lstrip s))).

Fixpoint digits (acc : Z) (s : string) : option Z :=
  match s with
  | EmptyString => Some acc
  | String c rest =>
      match Ascii.is_nat c with
      | Some d => digits (10 * acc + Z.of_nat d) rest
      | None => None
      end
  end.

Definition decimal_int (s : string) : option Z :=
  match s with
  | EmptyString => None
  | String c rest =>
      if decide (c = "-"%char) then
        (if decide (rest = EmptyString) then None else Z.opp <$> digits 0 rest)
      else if decide (c = "+"%char) then
        (if decide (rest = EmptyString) then None else digits 0 rest)
      else digits 0 s
  end.

Definition teacher : Current := mkCurrent 10 ∅.
Definition student : Current := mkCurrent 20 ∅.
(** Not the teacher of the course, but holding the three composition permissions. *)
Definition assistant : Current :=
  mkCurrent 30 {[ "test:quest:add"; "test:quest:del"; "test:quest:update" ]}.

Definition abc : list string := ["a"; "b"; "c"].

(** Course 1 of teacher 10 with test 1 (active) of four questions whose
    correct indexes are 1, 0, 2, 1, and a fifth question that is in no test;
    nobody has started the test. *)
Definition db_fresh : DB :=
  mkDB [Course.mk 1 10 false]
       [Question.mk 1 10 false; Question.mk 2 10 false;
        Question.mk 3 10 false; Question.mk 4 10 false; Question.mk 5 10 false]
       [QuestionVersion.mk 1 1 "q1" "first" abc 1; QuestionVersion.mk 2 1 "q2" "second" abc 0;
        QuestionVersion.mk 3 1 "q3" "third" abc 2; QuestionVersion.mk 4 1 "q4" "fourth" abc 1;
        QuestionVersion.mk 5 1 "q5" "fifth" abc 0]
       [Test.mk 1 1 true false]
       [TestQuestion.mk 1 1 0; TestQuestion.mk 1 2 1; TestQuestion.mk 1 3 2; TestQuestion.mk 1 4 3]
       [] [] [].

(** The student has started the test ... *)
Definition db_started : DB :=
  Eval vm_compute in (get_session (attempt_create 1 student) db_fresh).2.

(** ... and answered 1, nothing, 2, 0. *)
Definition db_answered : DB :=
  Eval vm_compute in
    (get_session (answer_update 4 0 student)
       (get_session (answer_update 3 2 student)
          (get_session (answer_update 1 1 student) db_started).2).2).2.

(** The attempt is finished. *)
Definition db_finished : DB :=
  Eval vm_compute in (get_session (attempt_finish 1 student) db_answered).2.

(** The test is switched off after the student started it
    ([course_test_active] with [active = False]). *)
Definition db_deactivated : DB :=
  mkDB (courses db_started) (questions db_started) (question_versions db_started)
       [Test.mk 1 1 false false]
       (test_questions db_started) (attempts db_started)
       (attempt_questions db_started) (answers db_started).

(** The test is soft-deleted after the student started it ([course_test_del]). *)
Definition db_test_deleted : DB :=
  mkDB (courses db_started) (questions db_started) (question_versions db_started)
       [Test.mk 1 1 true true]
       (test_questions db_started) (attempts db_started)
       (attempt_questions db_started) (answers db_started).

(** The course is soft-deleted after the student started the test
    ([course_delete]); the test row itself is untouched. *)
Definition db_course_deleted : DB :=
  mkDB [Course.mk 1 10 true] (questions db_started) (question_versions db_started)
       (tests db_started) (test_questions db_started) (attempts db_started)
       (attempt_questions db_started) (answers db_started).

(** Question 1 has been taken out of the test: positions 1, 2, 3 remain. *)
Definition db_shortened : DB :=
  Eval vm_compute in (get_session (test_question_del 1 1 teacher) db_fresh).2.


Definition db_unversioned : DB :=
  mkDB (courses db_fresh) [Question.mk 1 10 false] []
       [Test.mk 1 1 true false] [TestQuestion.mk 1 1 0] [] [] [].

(** The teacher publishes version 2 of question 1, whose correct index is now
    0, after the student answered 1. *)
Definition db_revised : DB :=
  Eval vm_compute in
    (get_session (question_update ascii_strip 1 "q1" "first" "a, b, c" 0 teacher) db_answered).2.

End Demo.

(** ** What [attempt_create] writes, in closed form *)

(** The version [attempt_create] pins for a question: the largest one. *)
Definition pinned_now (question_id : Z) (db : DB) : Z :=
  default 0 (max_version question_id db).

(** One [AttemptQuestion] per (question_id, position) row. *)
Definition snapshot_rows (attempt_id : Z) (tq_rows : list (Z * Z)) (db : DB)
    : list AttemptQuestion.row :=
  (λ '(q, p), AttemptQuestion.mk attempt_id q (pinned_now q db) p) <$> tq_rows.

(** One unanswered [Answer] per row, with consecutive ids from [first_id]. *)
Definition blank_answers (attempt_id first_id : Z) (tq_rows : list (Z * Z)) (db : DB)
    : list Answer.row :=
  imap (λ k '(q, _), Answer.mk (first_id + Z.of_nat k) attempt_id q (pinned_now q db) (-1))
       tq_rows.

Definition with_snapshot (attempt_id : Z) (tq_rows : list (Z * Z)) (db : DB) : DB :=
  with_answers
    (λ rows, rows ++ blank_answers attempt_id (fresh_id (Answer.id <$> answers db)) tq_rows db)
    (with_attempt_questions (λ rows, rows ++ snapshot_rows attempt_id tq_rows db) db).

(** The store after a first [attempt_create] of [user_id] on [test_id]. *)
Definition with_new_attempt (test_id user_id : Z) (db : DB) : DB :=
  let attempt := Attempt.mk (fresh_id (Attempt.id <$> attempts db)) test_id user_id "in_progress" in
  with_snapshot (Attempt.id attempt) (ordered_test_questions test_id db)
    (with_attempts (λ rows, rows ++ [attempt]) db).

(** ** What the snapshot loop needs of the store

    The state of the transaction in which the rows of [tq_rows] can be
    written for attempt [attempt_id] without a statement being refused. *)
Definition loop_ready (attempt_id : Z) (tq_rows : list (Z * Z)) (db : DB) : Prop :=
  attempt_questions_ok db ∧ answers_ok db
  ∧ attempt_id ∈ Attempt.id <$> attempts db
  ∧ Forall question_version_checks (question_versions db)
  ∧ NoDup (tq_rows.*1) ∧ NoDup (tq_rows.*2)
  ∧ Forall (λ qp,
      ((attempt_id, qp.1) ∉ (λ r, (AttemptQuestion.attempt_id r, AttemptQuestion.question_id r))
                               <$> attempt_questions db)
      ∧ ((attempt_id, qp.2) ∉ (λ r, (AttemptQuestion.attempt_id r, AttemptQuestion.position r))
                                 <$> attempt_questions db)
      ∧ ((attempt_id, qp.1) ∉ (λ r, (Answer.attempt_id r, Answer.question_id r)) <$> answers db)
      ∧ is_Some (max_version qp.1 db) ∧ 0 ≤ qp.2 ∧ int4 qp.2) tq_rows.

(** The snapshot row and the blank answer [attempt_create] writes for one
    question of the test (the answer without its id). *)
Definition snapshot_of (attempt_id : Z) (db : DB) (tq : TestQuestion.row) : AttemptQuestion.row :=
  AttemptQuestion.mk attempt_id (TestQuestion.question_id tq)
    (pinned_now (TestQuestion.question_id tq) db) (TestQuestion.position tq).

Definition answer_content (a : Answer.row) : Z * Z * Z * Z :=
  (Answer.attempt_id a, Answer.question_id a, Answer.question_version a, Answer.answer_index a).

Definition blank_of (attempt_id : Z) (db : DB) (tq : TestQuestion.row) : Z * Z * Z * Z :=
  (attempt_id, TestQuestion.question_id tq, pinned_now (TestQuestion.question_id tq) db, -1).

(** ** More of the store: setters and JSON bodies with lists and nulls *)

Definition with_courses (f : list Course.row → list Course.row) (db : DB) : DB :=
  mkDB (f (courses db)) (questions db) (question_versions db) (tests db)
       (test_questions db) (attempts db) (attempt_questions db) (answers db).

Definition with_questions (f : list Question.row → list Question.row) (db : DB) : DB :=
  mkDB (courses db) (f (questions db)) (question_versions db) (tests db)
       (test_questions db) (attempts db) (attempt_questions db) (answers db).

Definition with_tests (f : list Test.row → list Test.row) (db : DB) : DB :=
  mkDB (courses db) (questions db) (question_versions db) (f (tests db))
       (test_questions db) (attempts db) (attempt_questions db) (answers db).

Definition course_set_is_deleted (b : bool) (c : Course.row) : Course.row :=
  Course.mk (Course.id c) (Course.teacher_id c) b.

Definition question_set_is_deleted (b : bool) (q : Question.row) : Question.row :=
  Question.mk (Question.id q) (Question.author_id q) b.

Definition test_set_is_active (b : bool) (t : Test.row) : Test.row :=
  Test.mk (Test.id t) (Test.course_id t) b (Test.is_deleted t).

Definition test_set_is_deleted (b : bool) (t : Test.row) : Test.row :=
  Test.mk (Test.id t) (Test.course_id t) (Test.is_active t) b.

(** Response bodies that nest lists and carry [None]. *)
#[warnings="-register-all"]
Inductive json : Type :=
| JNull
| JInt (z : Z)
| JStr (s : string)
| JList (items : list json)
| JObj (fields : list (string * json)).

(** ** [app/api/attempts.py], the read side *)

Definition aq_by_position (a b : AttemptQuestion.row) : Prop :=
  AttemptQuestion.position a ≤ AttemptQuestion.position b.

#[global] Instance aq_by_position_dec a b : Decision (aq_by_position a b).
Proof. unfold aq_by_position. apply _. Defined.

Definition answer_by_id (a b : Answer.row) : Prop := Answer.id a ≤ Answer.id b.

#[global] Instance answer_by_id_dec a b : Decision (answer_by_id a b).
Proof. unfold answer_by_id. apply _. Defined.

(** [select(...).where(AttemptQuestion.attempt_id == attempt_id)
      .order_by(AttemptQuestion.position)] *)
Definition select_snapshot (attempt_id : Z) (db : DB) : list AttemptQuestion.row :=
  merge_sort aq_by_position
    (filter (λ r, AttemptQuestion.attempt_id r = attempt_id) (attempt_questions db)).

(** [select(...).where(Answer.attempt_id == attempt_id).order_by(Answer.id)] *)
Definition select_answers (attempt_id : Z) (db : DB) : list Answer.row :=
  merge_sort answer_by_id (filter (λ a, Answer.attempt_id a = attempt_id) (answers db)).

Definition attempt_get (attempt_id : Z) (current : Current) : M json :=
  let* rows := execute (select_attempt attempt_id) in
  let* attempt := scalar_one_or_none rows in
  match attempt with
  | None => http_error 404 "Not found" []
  | Some attempt =>
      if decide (Attempt.user_id attempt ≠ user_id current)
      then http_error 403 "Forbidden" []
      else
        let* snapshot := execute (select_snapshot attempt_id) in
        let questions :=
          (λ r, JObj [("question_id", JInt (AttemptQuestion.question_id r));
                      ("version", JInt (AttemptQuestion.question_version r));
                      ("position", JInt (AttemptQuestion.position r))]) <$> snapshot in
        let* rows := execute (select_answers attempt_id) in
        let answers :=
          (λ r, JObj [("answer_id", JInt (Answer.id r));
                      ("question_id", JInt (Answer.question_id r));
                      ("answer_index", JInt (Answer.answer_index r))]) <$> rows in
        ret (JObj [("id", JInt (Attempt.id attempt));
                   ("test_id", JInt (Attempt.test_id attempt));
                   ("user_id", JInt (Attempt.user_id attempt));
                   ("status", JStr (Attempt.status attempt));
                   ("questions", JList questions);
                   ("answers", JList answers)])
  end.

(** ** [app/api/answers.py], the read side *)

(** [select(Course.teacher_id).join(Test, Test.course_id == Course.id)
      .where(Test.id == test_id, Test.is_deleted == False, Course.is_deleted == False)] *)
Definition select_teacher_of_test (test_id : Z) (db : DB) : list Z :=
  (λ ct, Course.teacher_id ct.1) <$>
  filter (λ '(c, t), Test.course_id t = Course.id c ∧ Test.id t = test_id
                     ∧ Test.is_deleted t = false ∧ Course.is_deleted c = false)
         (list_prod (courses db) (tests db)).

Definition answer_entry (r : Answer.row) : json :=
  JObj [("id", JInt (Answer.id r)); ("question_id", JInt (Answer.question_id r));
        ("answer_index", JInt (Answer.answer_index r))].

Definition answers_get (attempt_id : Z) (current : Current) : M json :=
  let* attempt := get_attempt_or_404 attempt_id in
  let* _ :=
    if decide (Attempt.user_id attempt ≠ user_id current)
    then
      let* rows := execute (select_teacher_of_test (Attempt.test_id attempt)) in
      let* teacher_id := scalar_one_or_none rows in
      if decide (teacher_id ≠ Some (user_id current))
      then http_error 403 "Forbidden" []
      else ret ()
    else ret () in
  let* rows := execute (select_answers attempt_id) in
  ret (JList (answer_entry <$> rows)).

(** ** [app/api/teacher_tests.py], the other reports *)

Definition attempt_by_id (a b : Attempt.row) : Prop := Attempt.id a ≤ Attempt.id b.

#[global] Instance attempt_by_id_dec a b : Decision (attempt_by_id a b).
Proof. unfold attempt_by_id. apply _. Defined.

Definition test_attempts (test_id : Z) (current : Current) : M json :=
  let* '(test, course) := get_test_course test_id in
  let* _ := ensure_teacher_or_perm course current "test:answer:read" in
  let* rows := execute (λ db,
      merge_sort attempt_by_id
        (filter (λ a, Attempt.test_id a = Test.id test) (attempts db))) in
  ret (JList ((λ r, JObj [("attempt_id", JInt (Attempt.id r));
                          ("user_id", JInt (Attempt.user_id r));
                          ("status", JStr (Attempt.status r))]) <$> rows)).

Definition joined_by_answer_id (a b : Answer.row * QuestionVersion.row) : Prop :=
  Answer.id a.1 ≤ Answer.id b.1.

#[global] Instance joined_by_answer_id_dec a b : Decision (joined_by_answer_id a b).
Proof. unfold joined_by_answer_id. apply _. Defined.

(** The join of [test_user_answers], ordered by [Answer.id]. *)
Definition select_answers_with_versions (attempt_id : Z) (db : DB)
    : list (Answer.row * QuestionVersion.row) :=
  merge_sort joined_by_answer_id
    (filter (λ '(a, v), (QuestionVersion.question_id v = Answer.question_id a
                         ∧ QuestionVersion.version v = Answer.question_version a)
                        ∧ Answer.attempt_id a = attempt_id)
            (list_prod (answers db) (question_versions db))).

(** [chosen_text]: the option under the index, [None] for -1 and for an
    index past the options. *)
Definition chosen_text (answer_index : Z) (options : list string) : option string :=
  if decide (0 ≤ answer_index ∧ answer_index < Z.of_nat (length options))
  then options !! Z.to_nat answer_index
  else None.

Definition review_entry (r : Answer.row * QuestionVersion.row) : json :=
  JObj [("question_id", JInt (Answer.question_id r.1));
        ("version", JInt (Answer.question_version r.1));
        ("question_title", JStr (QuestionVersion.title r.2));
        ("question_text", JStr (QuestionVersion.body r.2));
        ("answer_index", JInt (Answer.answer_index r.1));
        ("answer_text",
         match chosen_text (Answer.answer_index r.1) (QuestionVersion.options r.2) with
         | Some text => JStr text
         | None => JNull
         end);
        ("correct_index", JInt (QuestionVersion.correct_index r.2))].

Definition test_user_answers (test_id uid : Z) (current : Current) : M json :=
  let* '(test, course) := get_test_course test_id in
  let* _ := ensure_teacher_or_perm course current "test:answer:read" in
  let* rows := execute (select_attempt_of (Test.id test) uid) in
  let* attempt := scalar_one_or_none rows in
  match attempt with
  | None => http_error 404 "Not found" [("message", "User has no attempt for this test")]
  | Some attempt =>
      let* rows := execute (select_answers_with_versions (Attempt.id attempt)) in
      ret (JObj [("test_id", JInt (Test.id test)); ("user_id", JInt uid);
                 ("attempt_id", JInt (Attempt.id attempt));
                 ("answers", JList (review_entry <$> rows))])
  end.

(** ** [app/api/questions.py], the other handlers *)

Definition QUEST_CREATE : string := "quest:create".
Definition QUEST_DEL : string := "quest:del".

(** [select(func.count(Attempt.id)).join(AttemptQuestion, ...)
      .where(Attempt.user_id == user_id, AttemptQuestion.question_id == id,
             AttemptQuestion.question_version == version)] *)
Definition count_pinning_attempts (uid id version : Z) (db : DB) : Z :=
  Z.of_nat (length (filter
    (λ '(a, aq), AttemptQuestion.attempt_id aq = Attempt.id a
                 ∧ Attempt.user_id a = uid
                 ∧ AttemptQuestion.question_id aq = id
                 ∧ AttemptQuestion.question_version aq = version)
    (list_prod (attempts db) (attempt_questions db)))).

(** [select(QuestionVersion).where(QuestionVersion.question_id == id,
      QuestionVersion.version == version)] *)
Definition select_version (id version : Z) (db : DB) : list QuestionVersion.row :=
  filter (λ v, QuestionVersion.question_id v = id ∧ QuestionVersion.version v = version)
         (question_versions db).

Definition question_get (id version : Z) (current : Current) : M json :=
  let* rows := execute (select_question id) in
  let* q := scalar_one_or_none rows in
  match q with
  | None => http_error 404 "Not found" []
  | Some q =>
      let* _ :=
        if bool_decide (Question.author_id q ≠ user_id current)
           && negb (has_perm current "quest:read")
        then
          let* cnt := execute (count_pinning_attempts (user_id current) id version) in
          if decide (cnt = 0)
          then http_error 403 "Forbidden" [("required_permission", "quest:read")]
          else ret ()
        else ret () in
      let* rows := execute (select_version id version) in
      let* v := scalar_one_or_none rows in
      match v with
      | None => http_error 404 "Not found" []
      | Some v =>
          ret (JObj [("id", JInt id); ("version", JInt version);
                     ("title", JStr (QuestionVersion.title v));
                     ("text", JStr (QuestionVersion.body v));
                     ("options", JList (JStr <$> QuestionVersion.options v));
                     ("correctIndex", JInt (QuestionVersion.correct_index v));
                     ("author_id", JInt (Question.author_id q))])
      end
  end.

(** [q.is_deleted = True] followed by the flush of [commit]. *)
Definition update_question_is_deleted (q : Question.row) (b : bool) : M unit :=
  if decide (Question.is_deleted q = b) then ret ()
  else statement questions_ok
         (with_questions (fmap (λ r, if decide (Question.id r = Question.id q)
                                     then question_set_is_deleted b r else r))).

Definition question_delete (id : Z) (current : Current) : M response :=
  let* rows := execute (select_question id) in
  let* q := scalar_one_or_none rows in
  match q with
  | None => http_error 404 "Not found" []
  | Some q =>
      if bool_decide (Question.author_id q ≠ user_id current)
         && negb (has_perm current QUEST_DEL)
      then http_error 403 "Forbidden" [("required_permission", QUEST_DEL)]
      else
        let* _ := update_question_is_deleted q true in
        let* _ := commit in
        ret [("status", VStr "ok")]
  end.

Section python_str_create.

Variable str_strip : string → string.

Definition question_create (title text optionsCsv : string) (correctIndex : Z)
    (current : Current) : M response :=
  if negb (has_perm current QUEST_CREATE)
  then http_error 403 "Forbidden" [("required_permission", QUEST_CREATE)]
  else
    let options := filter (λ o, o ≠ "") (str_strip <$> str_split_comma optionsCsv) in
    if decide (Z.of_nat (length options) < 2)
    then http_error 400 "Bad Request" [("message", "Need at least 2 options")]
    else if decide (correctIndex < 0 ∨ Z.of_nat (length options) ≤ correctIndex)
    then http_error 400 "Bad Request" [("message", "correctIndex out of range")]
    else
      let* id := execute (λ db, fresh_id (Question.id <$> questions db)) in
      let* _ := statement questions_ok
          (with_questions (λ rows, rows ++ [Question.mk id (user_id current) false])) in
      let* _ := statement question_versions_ok
          (with_question_versions
             (λ rows, rows ++ [QuestionVersion.mk id 1 title text options correctIndex])) in
      let* _ := commit in
      ret [("id", VInt id); ("version", VInt 1)].

End python_str_create.

(** ** [app/api/tests_in_course.py] and [app/api/courses.py]: the switches
    the lifecycle depends on *)

Definition is_teacher (course : Course.row) (uid : Z) : bool :=
  bool_decide (Course.teacher_id course = uid).

(** [select(Test).where(Test.id == test_id, Test.course_id == course_id,
      Test.is_deleted == False)] *)
Definition select_test_in_course (course_id test_id : Z) (db : DB) : list Test.row :=
  filter (λ t, Test.id t = test_id ∧ Test.course_id t = course_id ∧ Test.is_deleted t = false)
         (tests db).

Definition update_test (test : Test.row) (changed : Test.row) : M unit :=
  if decide (changed = test) then ret ()
  else statement tests_ok
         (with_tests (fmap (λ r, if decide (Test.id r = Test.id test) then changed else r))).

Definition course_test_active (course_id test_id : Z) (active : bool) (current : Current)
    : M response :=
  let* course := get_course_or_404 course_id in
  if negb (is_teacher course (user_id current)) && negb (has_perm current "course:test:write")
  then http_error 403 "Forbidden" [("required_permission", "course:test:write")]
  else
    let* rows := execute (select_test_in_course course_id test_id) in
    let* test := scalar_one_or_none rows in
    match test with
    | None => http_error 404 "Not found" []
    | Some test =>
        let* _ := update_test test (test_set_is_active active test) in
        let* _ := commit in
        ret [("status", VStr "ok")]
    end.

Definition course_test_del (course_id test_id : Z) (current : Current) : M response :=
  let* course := get_course_or_404 course_id in
  if negb (is_teacher course (user_id current)) && negb (has_perm current "course:test:del")
  then http_error 403 "Forbidden" [("required_permission", "course:test:del")]
  else
    let* rows := execute (select_test_in_course course_id test_id) in
    let* test := scalar_one_or_none rows in
    match test with
    | None => http_error 404 "Not found" []
    | Some test =>
        let* _ := update_test test (test_set_is_deleted true test) in
        let* _ := commit in
        ret [("status", VStr "ok")]
    end.

(** [is_teacher_of] of [app/api/courses.py] *)
Definition is_teacher_of (course : Course.row) (uid : Z) : bool :=
  bool_decide (Course.teacher_id course = uid).

Definition course_delete (course_id : Z) (current : Current) : M response :=
  let* rows := execute (select_course course_id) in
  let* course := scalar_one_or_none rows in
  match course with
  | None => http_error 404 "Not found" []
  | Some course =>
      if negb (is_teacher_of course (user_id current)) && negb (has_perm current "course:del")
      then http_error 403 "Forbidden" [("required_permission", "course:del")]
      else
        let* _ := statement courses_ok
            (with_courses (fmap (λ r, if decide (Course.id r = Course.id course)
                                      then course_set_is_deleted true r else r))) in
        let* _ := commit in
        ret [("status", VStr "ok")]
  end.

(** ** Steps that only read *)

(** A step that leaves the session, committed store and view, as it found it. *)
Definition reads_only {A : Type} (m : M A) : Prop :=
  ∀ s r s', m s = (r, s') → s' = s.


(** ** More callers for the concrete course *)

Module Staff.

(** Not the teacher, but allowed to read the answers of any test. *)
Definition reader : Current := mkCurrent 40 {[ "test:answer:read" ]}.

Definition dean : Current := mkCurrent 70 {[ "course:test:write"; "course:test:del"; "course:del" ]}.

End Staff.


(** ** Handlers that do not look at part of the store *)

(** The store with its courses, questions, tests and test compositions
    replaced; the attempts, their snapshots and answers, and the question
    versions stay. *)
Definition elsewhere (f : list Course.row → list Course.row)
    (g : list Question.row → list Question.row)
    (h : list Test.row → list Test.row)
    (k : list TestQuestion.row → list TestQuestion.row) (db : DB) : DB :=
  mkDB (f (courses db)) (g (questions db)) (question_versions db) (h (tests db))
       (k (test_questions db)) (attempts db) (attempt_questions db) (answers db).

Definition lift_session (t : DB → DB) (s : Session) : Session :=
  mkSession (t (committed s)) (t (view s)).

(** [m] runs on a store changed by [t] as it runs otherwise: it gives the
    same result, and leaves the session it leaves otherwise, changed by [t]. *)
Definition ignores {A : Type} (t : DB → DB) (m : M A) : Prop :=
  ∀ s, m (lift_session t s) = ((m s).1, lift_session t (m s).2).


(** ** Steps that keep the constraints *)

(** From a session whose committed store and view satisfy every declared
    constraint, [m] leaves one that does. *)
Definition keeps_ok {A : Type} (m : M A) : Prop :=
  ∀ s r s', m s = (r, s') →
            db_ok (committed s) → db_ok (view s) →
            db_ok (committed s') ∧ db_ok (view s').


(** ** One answer per snapshot row *)

(** The answers of every attempt are, question by question and version by
    version, the rows of its snapshot. *)
Definition answers_match_snapshot (db : DB) : Prop :=
  ∀ attempt_id,
    (λ a, (Answer.question_id a, Answer.question_version a))
      <$> filter (λ a, Answer.attempt_id a = attempt_id) (answers db)
    ≡ₚ (λ r, (AttemptQuestion.question_id r, AttemptQuestion.question_version r))
         <$> filter (λ r, AttemptQuestion.attempt_id r = attempt_id) (attempt_questions db).

(** From a session whose committed store and view satisfy [I], [m] leaves
    one that does. *)
Definition keeps_inv {A : Type} (I : DB → Prop) (m : M A) : Prop :=
  ∀ s r s', m s = (r, s') → I (committed s) → I (view s) → I (committed s') ∧ I (view s').


(** ** Transaction discipline *)

(** A computation that never commits (nor rolls the committed store back). *)
Definition keeps_committed {A : Type} (m : M A) : Prop :=
  ∀ s r s', m s = (r, s') → committed s' = committed s.

(** A computation that has not committed whenever it raises. *)
Definition raises_uncommitted {A : Type} (m : M A) : Prop :=
  ∀ s e s', m s = (Raise e, s') → committed s' = committed s.

Create HintDb session discriminated.

(** * Properties *)

(** ** Stepping through a handler *)

Lemma bind_Ok {A B : Type} (m : M A) (k : A → M B) s a s' :
  m s = (Ok a, s') → bind m k s = k a s'.
Proof. intros H. unfold bind. by rewrite H. Qed.

Lemma bind_Raise {A B : Type} (m : M A) (k : A → M B) s e s' :
  m s = (Raise e, s') → bind m k s = (Raise e, s').
Proof. intros H. unfold bind. by rewrite H. Qed.

Lemma bind_inv_Ok {A B : Type} (m : M A) (k : A → M B) s b s2 :
  bind m k s = (Ok b, s2) → ∃ a s1, m s = (Ok a, s1) ∧ k a s1 = (Ok b, s2).
Proof.
  unfold bind. destruct (m s) as [[a|e] s1] eqn:E; intros H.
  - eauto.
  - discriminate.
Qed.

Lemma scalar_one_or_none_single {A : Type} (r : A) s :
  scalar_one_or_none [r] s = (Ok (Some r), s).
Proof. reflexivity. Qed.

Lemma scalar_one_or_none_inv {A : Type} (rows : list A) s o s' :
  scalar_one_or_none rows s = (Ok o, s') →
  s' = s ∧ (rows = [] ∧ o = None ∨ ∃ r, rows = [r] ∧ o = Some r).
Proof.
  destruct rows as [|r [|r' rows]]; unfold scalar_one_or_none, ret, raise;
    intros H; inversion H; subst; split; eauto.
Qed.

(** ** Nothing is committed before the final [commit] *)

Lemma keeps_ret {A : Type} (a : A) : keeps_committed (ret a).
Proof. intros s r s' H. unfold ret in H. by simplify_eq. Qed.

Lemma keeps_raise {A : Type} e : keeps_committed (@raise A e).
Proof. intros s r s' H. unfold raise in H. by simplify_eq. Qed.

Lemma keeps_http_error {A : Type} c m d : keeps_committed (@http_error A c m d).
Proof. apply keeps_raise. Qed.

Lemma keeps_execute {A : Type} (q : DB → A) : keeps_committed (execute q).
Proof. intros s r s' H. unfold execute in H. by simplify_eq. Qed.

Lemma keeps_statement (ok : DB → Prop) `{!∀ db, Decision (ok db)} write :
  keeps_committed (statement ok write).
Proof. intros s r s' Hs. unfold statement in Hs. case_decide; by simplify_eq. Qed.

Lemma keeps_scalar_one_or_none {A : Type} (rows : list A) :
  keeps_committed (scalar_one_or_none rows).
Proof.
  intros s r s' H. unfold scalar_one_or_none, ret, raise in H.
  destruct rows as [|? [|? ?]]; by simplify_eq.
Qed.

Lemma keeps_bind {A B : Type} (m : M A) (k : A → M B) :
  keeps_committed m → (∀ a, keeps_committed (k a)) → keeps_committed (bind m k).
Proof.
  intros Hm Hk s r s' H. unfold bind in H.
  destruct (m s) as [[a|e] s1] eqn:E.
  - apply Hk in H. apply Hm in E. congruence.
  - simplify_eq. eapply Hm; eauto.
Qed.

#[global] Hint Resolve keeps_ret keeps_raise keeps_http_error keeps_execute
  keeps_statement keeps_scalar_one_or_none : session.

Lemma uncommitted_of_keeps {A : Type} (m : M A) :
  keeps_committed m → raises_uncommitted m.
Proof. intros H s e s' E. eapply H; eauto. Qed.

Lemma uncommitted_bind {A B : Type} (m : M A) (k : A → M B) :
  keeps_committed m → (∀ a, raises_uncommitted (k a)) → raises_uncommitted (bind m k).
Proof.
  intros Hm Hk s e s' H. unfold bind in H.
  destruct (m s) as [[a|e1] s1] eqn:E.
  - apply Hk in H. apply Hm in E. congruence.
  - simplify_eq. eapply Hm; eauto.
Qed.

Lemma uncommitted_commit_ret {A : Type} (a : A) :
  raises_uncommitted (bind commit (λ _, ret a)).
Proof. intros s e s' H. unfold bind, commit, ret in H. discriminate. Qed.

Lemma get_session_raise {A : Type} (h : M A) db e db' :
  raises_uncommitted h → get_session h db = (Raise e, db') → db' = db.
Proof.
  intros Hh H. unfold get_session in H.
  destruct (h (mkSession db db)) as [r s] eqn:E. simplify_eq.
  by apply Hh in E.
Qed.

(** Case analysis over the body of a handler. *)
Ltac keeps_step :=
  match goal with
  | |- keeps_committed (bind _ _) => apply keeps_bind; [|intros ?]
  | |- keeps_committed (match ?x with _ => _ end) => destruct x
  | |- keeps_committed _ => solve [auto with session]
  end.

Ltac uncommitted_step :=
  match goal with
  | |- raises_uncommitted (bind commit _) => apply uncommitted_commit_ret
  | |- raises_uncommitted (bind _ _) => apply uncommitted_bind; [repeat keeps_step|intros ?]
  | |- raises_uncommitted (match ?x with _ => _ end) => destruct x
  | |- raises_uncommitted _ => solve [apply uncommitted_of_keeps; repeat keeps_step]
  end.

Lemma keeps_add_attempt t u st : keeps_committed (add_attempt t u st).
Proof. unfold add_attempt. repeat keeps_step. Qed.

Lemma keeps_add_attempt_question aq : keeps_committed (add_attempt_question aq).
Proof. unfold add_attempt_question. repeat keeps_step. Qed.

Lemma keeps_add_answer a q v i : keeps_committed (add_answer a q v i).
Proof. unfold add_answer. repeat keeps_step. Qed.

#[global] Hint Resolve keeps_add_attempt keeps_add_attempt_question keeps_add_answer : session.

Lemma keeps_attempt_create_loop aid rows : keeps_committed (attempt_create_loop aid rows).
Proof.
  induction rows as [|[q p] rows IH]; cbn [attempt_create_loop]; repeat keeps_step.
Qed.

#[global] Hint Resolve keeps_attempt_create_loop : session.

Lemma uncommitted_attempt_create test_id current :
  raises_uncommitted (attempt_create test_id current).
Proof. unfold attempt_create. repeat uncommitted_step. Qed.

(** ** The snapshot loop *)

Lemma foldr_max_init (l : list Z) (b : Z) :
  0 ≤ b → foldr Z.max b l = Z.max b (foldr Z.max 0 l).
Proof. intros Hb. induction l as [|a l IH]; simpl; lia. Qed.

Lemma foldr_max_nonneg (l : list Z) : 0 ≤ foldr Z.max 0 l.
Proof. induction l; simpl; lia. Qed.

Lemma foldr_max_ge (l : list Z) (x : Z) : x ∈ l → x ≤ foldr Z.max 0 l.
Proof. induction 1; simpl; lia. Qed.

Lemma fresh_id_fresh (ids : list Z) : fresh_id ids ∉ ids.
Proof. intros H. apply foldr_max_ge in H. unfold fresh_id in H. lia. Qed.

Lemma fresh_id_snoc (ids : list Z) : fresh_id (ids ++ [fresh_id ids]) = fresh_id ids + 1.
Proof.
  unfold fresh_id. rewrite foldr_app. simpl.
  pose proof (foldr_max_nonneg ids).
  rewrite foldr_max_init by lia. lia.
Qed.

Lemma pinned_now_versions q db1 db2 :
  question_versions db1 = question_versions db2 → pinned_now q db1 = pinned_now q db2.
Proof. unfold pinned_now, max_version. by intros ->. Qed.

Lemma snapshot_rows_versions attempt_id rows db1 db2 :
  question_versions db1 = question_versions db2 →
  snapshot_rows attempt_id rows db1 = snapshot_rows attempt_id rows db2.
Proof.
  intros H. unfold snapshot_rows. apply list_fmap_ext. intros _ [q p] _.
  by rewrite (pinned_now_versions q db1 db2).
Qed.

Lemma blank_answers_versions attempt_id first rows db1 db2 :
  question_versions db1 = question_versions db2 →
  blank_answers attempt_id first rows db1 = blank_answers attempt_id first rows db2.
Proof.
  intros H. unfold blank_answers. apply imap_ext. intros k [q p] _.
  by rewrite (pinned_now_versions q db1 db2).
Qed.

Lemma with_snapshot_cons attempt_id q p v rest db :
  max_version q db = Some v →
  with_snapshot attempt_id rest
    (with_answers
       (λ rows, rows ++ [Answer.mk (fresh_id (Answer.id <$> answers db)) attempt_id q v (-1)])
       (with_attempt_questions (λ rows, rows ++ [AttemptQuestion.mk attempt_id q v p]) db))
  = with_snapshot attempt_id ((q, p) :: rest) db.
Proof.
  intros Hv. unfold with_snapshot.
  set (db2 := with_answers _ (with_attempt_questions _ db)).
  assert (question_versions db2 = question_versions db) as Hq by reflexivity.
  rewrite (snapshot_rows_versions _ _ db2 db Hq), (blank_answers_versions _ _ _ db2 db Hq).
  unfold db2, with_answers, with_attempt_questions. simpl. f_equal.
  - rewrite <- app_assoc. f_equal. unfold snapshot_rows. simpl.
    unfold pinned_now at 2. by rewrite Hv.
  - rewrite <- app_assoc. f_equal. rewrite fmap_app. simpl. rewrite fresh_id_snoc.
    unfold blank_answers. simpl. unfold pinned_now at 2. rewrite Hv. simpl. f_equal.
    + f_equal. lia.
    + apply imap_ext. intros k [q' p'] _. simpl. f_equal. lia.
Qed.

Lemma attempt_create_loop_Ok attempt_id tq_rows s u s' :
  attempt_create_loop attempt_id tq_rows s = (Ok u, s') →
  Forall (λ qp, is_Some (max_version qp.1 (view s))) tq_rows
  ∧ s' = mkSession (committed s) (with_snapshot attempt_id tq_rows (view s)).
Proof.
  revert s s'. induction tq_rows as [|[q p] rest IH]; intros s s' H.
  - cbn in H. unfold ret in H. simplify_eq. split; [constructor|].
    destruct s' as [c [? ? ? ? ? ? aqs ans]].
    unfold with_snapshot, with_answers, with_attempt_questions, snapshot_rows, blank_answers.
    simpl. by rewrite !app_nil_r.
  - cbn [attempt_create_loop] in H.
    unfold bind at 1, execute at 1 in H. simpl in H.
    destruct (max_version q (view s)) as [v|] eqn:Hv; [|discriminate].
    unfold bind at 1, add_attempt_question, statement in H.
    case_decide; [|discriminate].
    unfold bind at 1, add_answer, bind at 1, execute, statement in H. simpl in H.
    case_decide; [|discriminate].
    apply IH in H as [Hall ->]. simpl. split.
    + constructor; [simpl; rewrite Hv; eauto|]. exact Hall.
    + f_equal. by apply with_snapshot_cons.
Qed.

(** ** What a successful [attempt_create] did *)

Lemma execute_inv {A : Type} (q : DB → A) s a s' :
  execute q s = (Ok a, s') → a = q (view s) ∧ s' = s.
Proof. unfold execute. intros H. by simplify_eq. Qed.

Lemma attempt_create_inv test_id current db r db' :
  get_session (attempt_create test_id current) db = (Ok r, db') →
  ∃ test, select_test test_id db = [test] ∧ Test.is_active test = true
    ∧ ((∃ existing, select_attempt_of test_id (user_id current) db = [existing]
          ∧ r = [("id", VInt (Attempt.id existing))] ∧ db' = db)
       ∨ (select_attempt_of test_id (user_id current) db = []
          ∧ ordered_test_questions test_id db ≠ []
          ∧ Forall (λ qp, is_Some (max_version qp.1 db)) (ordered_test_questions test_id db)
          ∧ r = [("id", VInt (fresh_id (Attempt.id <$> attempts db)))]
          ∧ db' = with_new_attempt test_id (user_id current) db)).
Proof.
  unfold get_session. destruct (attempt_create _ _ _) as [r0 s] eqn:E.
  intros H. simplify_eq. unfold attempt_create in E.
  apply bind_inv_Ok in E as (rows & s1 & E1 & E).
  apply execute_inv in E1 as [-> ->]. simpl in E.
  apply bind_inv_Ok in E as (test & s1 & E1 & E).
  apply scalar_one_or_none_inv in E1 as [-> [[Hr ->]|(t & Hr & ->)]]; [discriminate|].
  exists t. split; [done|].
  destruct (Test.is_active t); [|discriminate]. split; [done|]. simpl in E.
  apply bind_inv_Ok in E as (rows & s1 & E1 & E).
  apply execute_inv in E1 as [-> ->]. simpl in E.
  apply bind_inv_Ok in E as (ex & s1 & E1 & E).
  apply scalar_one_or_none_inv in E1 as [-> [[Ha ->]|(a & Ha & ->)]].
  - right. split; [done|].
    apply bind_inv_Ok in E as (att & s1 & E1 & E).
    unfold add_attempt in E1.
    apply bind_inv_Ok in E1 as (id & s2 & E2 & E1).
    apply execute_inv in E2 as [-> ->]. simpl in E1.
    apply bind_inv_Ok in E1 as (u & s2 & E2 & E1).
    unfold statement in E2. simpl in E2. case_decide; [|discriminate].
    unfold ret in E1. simplify_eq.
    apply bind_inv_Ok in E as (tq & s1 & E1 & E).
    apply execute_inv in E1 as [-> ->]. simpl in E.
    change (ordered_test_questions test_id (with_attempts _ db))
      with (ordered_test_questions test_id db) in E.
    destruct (ordered_test_questions test_id db) as [|qp tq] eqn:Htq; [discriminate|].
    split; [done|].
    apply bind_inv_Ok in E as (u & s1 & E1 & E).
    apply attempt_create_loop_Ok in E1 as [Hall ->]. simpl in *.
    unfold bind, commit, ret in E. simplify_eq. simpl.
    split; [exact Hall|]. split; [done|].
    unfold with_new_attempt. simpl. by rewrite Htq.
  - left. unfold ret in E. simplify_eq. eauto.
Qed.

(** ** The guards of [attempt_create] *)

Lemma attempt_create_not_found test_id current db :
  select_test test_id db = [] →
  get_session (attempt_create test_id current) db
  = (Raise (HTTPException 404 "Not found" []), db).
Proof.
  intros H. unfold get_session, attempt_create, bind, execute. simpl. by rewrite H.
Qed.

Lemma attempt_create_inactive test_id current db test :
  select_test test_id db = [test] → Test.is_active test = false →
  get_session (attempt_create test_id current) db
  = (Raise (HTTPException 400 "Bad Request" [("message", "Test is not active")]), db).
Proof.
  intros H Ha. unfold get_session, attempt_create, bind, execute. simpl.
  rewrite H. simpl. by rewrite Ha.
Qed.

Lemma attempt_create_existing test_id current db test existing :
  select_test test_id db = [test] → Test.is_active test = true →
  select_attempt_of test_id (user_id current) db = [existing] →
  get_session (attempt_create test_id current) db
  = (Ok [("id", VInt (Attempt.id existing))], db).
Proof.
  intros H Ha He. unfold get_session, attempt_create, bind, execute. simpl.
  rewrite H. simpl. rewrite Ha. simpl. by rewrite He.
Qed.

(** C4, as the code has it.  When the caller already has an attempt on a
    test that is there, not soft-deleted and active, [attempt_create] returns
    the id of that attempt and writes nothing; and a call that succeeded,
    repeated at once, succeeds again with the same response and changes
    nothing. *)
Theorem attempt_create_idempotent test_id current db :
  (∀ test existing,
      select_test test_id db = [test] → Test.is_active test = true →
      select_attempt_of test_id (user_id current) db = [existing] →
      get_session (attempt_create test_id current) db
      = (Ok [("id", VInt (Attempt.id existing))], db))
  ∧ (∀ r db',
      get_session (attempt_create test_id current) db = (Ok r, db') →
      get_session (attempt_create test_id current) db' = (Ok r, db')).
Proof.
  split.
  - intros test existing. apply attempt_create_existing.
  - intros r db' H.
    destruct (attempt_create_inv _ _ _ _ _ H) as (test & Ht & Hact & Hcase).
    destruct Hcase as [(existing & He & -> & ->)|(He & _ & _ & -> & ->)].
    + exact H.
    + apply (attempt_create_existing test_id current _ test
               (Attempt.mk (fresh_id (Attempt.id <$> attempts db)) test_id
                  (user_id current) "in_progress")); [exact Ht|exact Hact|].
      unfold select_attempt_of in *. simpl. rewrite filter_app, He. simpl.
      rewrite filter_cons_True by done. reflexivity.
Qed.

(** C10. [attempt_create] answers only for a test that is there, not
    soft-deleted and active: without such a row it raises 404, on an inactive
    one it raises 400 'Test is not active', whether or not the caller already
    has an attempt, and the store is left as it was. *)
Theorem attempt_create_needs_live_test test_id current db :
  (select_test test_id db = [] →
     get_session (attempt_create test_id current) db
     = (Raise (HTTPException 404 "Not found" []), db))
  ∧ (∀ test, select_test test_id db = [test] → Test.is_active test = false →
     get_session (attempt_create test_id current) db
     = (Raise (HTTPException 400 "Bad Request" [("message", "Test is not active")]), db))
  ∧ (∀ r db', get_session (attempt_create test_id current) db = (Ok r, db') →
     ∃ test, select_test test_id db = [test] ∧ Test.is_active test = true).
Proof.
  split; [apply attempt_create_not_found|].
  split; [intros test; apply attempt_create_inactive|].
  intros r db' H.
  destruct (attempt_create_inv _ _ _ _ _ H) as (test & Ht & Hact & _). eauto.
Qed.

Lemma attempt_create_idempotent_witness :
  get_session (attempt_create 1 Demo.student) Demo.db_started
  = (Ok [("id", VInt 1)], Demo.db_started)
  ∧ (get_session (attempt_create 1 Demo.student) Demo.db_fresh
     = (Ok [("id", VInt 1)], Demo.db_started)
     ∧ get_session (attempt_create 1 Demo.student) Demo.db_started
       = (Ok [("id", VInt 1)], Demo.db_started)).
Proof.
  split.
  - apply (proj1 (attempt_create_idempotent 1 Demo.student Demo.db_started)
             (Test.mk 1 1 true false) (Attempt.mk 1 1 20 "in_progress"));
      reflexivity.
  - split; [vm_compute; reflexivity|].
    apply (proj2 (attempt_create_idempotent 1 Demo.student Demo.db_fresh)
             [("id", VInt 1)] Demo.db_started).
    vm_compute. reflexivity.
Defined.

(** C4 as stated fails: the student has an attempt on test 1, the test has
    been switched off since, and the call raises instead of returning it. *)
Lemma attempt_create_refused_despite_attempt :
  select_attempt_of 1 (user_id Demo.student) Demo.db_deactivated
  = [Attempt.mk 1 1 20 "in_progress"]
  ∧ get_session (attempt_create 1 Demo.student) Demo.db_deactivated
    = (Raise (HTTPException 400 "Bad Request" [("message", "Test is not active")]),
       Demo.db_deactivated).
Proof. vm_compute. done. Qed.

Lemma attempt_create_needs_live_test_witness :
  get_session (attempt_create 1 Demo.student) Demo.db_test_deleted
  = (Raise (HTTPException 404 "Not found" []), Demo.db_test_deleted)
  ∧ get_session (attempt_create 1 Demo.student) Demo.db_deactivated
    = (Raise (HTTPException 400 "Bad Request" [("message", "Test is not active")]),
       Demo.db_deactivated)
  ∧ ∃ test, select_test 1 Demo.db_started = [test] ∧ Test.is_active test = true.
Proof.
  split; [|split].
  - apply (proj1 (attempt_create_needs_live_test 1 Demo.student Demo.db_test_deleted)).
    reflexivity.
  - apply (proj1 (proj2 (attempt_create_needs_live_test 1 Demo.student Demo.db_deactivated))
             (Test.mk 1 1 false false)); reflexivity.
  - apply (proj2 (proj2 (attempt_create_needs_live_test 1 Demo.student Demo.db_started))
             [("id", VInt 1)] Demo.db_started).
    vm_compute. reflexivity.
Defined.

(** ** The guards of the composition handlers *)

Lemma select_test_id test_id db test : test ∈ select_test test_id db → Test.id test = test_id.
Proof. unfold select_test. rewrite list_elem_of_filter. by intros [[? _] _]. Qed.

Lemma get_test_or_404_found test_id test s :
  select_test test_id (view s) = [test] → get_test_or_404 test_id s = (Ok test, s).
Proof. intros H. unfold get_test_or_404, bind, execute. by rewrite H. Qed.

Lemma get_course_or_404_found course_id course s :
  select_course course_id (view s) = [course] → get_course_or_404 course_id s = (Ok course, s).
Proof. intros H. unfold get_course_or_404, bind, execute. by rewrite H. Qed.

Lemma ensure_can_edit_test_locked current test course s :
  select_course (Test.course_id test) (view s) = [course] →
  0 < attempts_cnt (Test.id test) (view s) →
  ensure_can_edit_test current test s
  = (Raise (HTTPException 400 "Bad Request"
              [("message", "Test has attempts, modification forbidden")]), s).
Proof.
  intros Hc Hn. unfold ensure_can_edit_test.
  rewrite (bind_Ok _ _ _ _ _ (get_course_or_404_found _ _ _ Hc)).
  unfold bind, execute. by rewrite decide_True.
Qed.

Lemma ensure_can_edit_test_denied current test course s :
  select_course (Test.course_id test) (view s) = [course] →
  attempts_cnt (Test.id test) (view s) = 0 →
  Course.teacher_id course ≠ user_id current →
  ensure_can_edit_test current test s
  = (Raise (HTTPException 403 "Forbidden"
              [("message", "Not allowed by default; need permission")]), s).
Proof.
  intros Hc Hn Ht. unfold ensure_can_edit_test.
  rewrite (bind_Ok _ _ _ _ _ (get_course_or_404_found _ _ _ Hc)).
  unfold bind, execute. rewrite Hn. rewrite decide_False by lia. by rewrite decide_False.
Qed.

Lemma ensure_can_edit_test_teacher current test course s :
  select_course (Test.course_id test) (view s) = [course] →
  attempts_cnt (Test.id test) (view s) = 0 →
  Course.teacher_id course = user_id current →
  ensure_can_edit_test current test s = (Ok (), s).
Proof.
  intros Hc Hn Ht. unfold ensure_can_edit_test.
  rewrite (bind_Ok _ _ _ _ _ (get_course_or_404_found _ _ _ Hc)).
  unfold bind, execute. rewrite Hn. rewrite decide_False by lia. by rewrite decide_True.
Qed.

Lemma get_test_or_404_cases test_id s :
  (∃ test, select_test test_id (view s) = [test] ∧ get_test_or_404 test_id s = (Ok test, s))
  ∨ (∃ e, get_test_or_404 test_id s = (Raise e, s)).
Proof.
  unfold get_test_or_404, bind, execute.
  destruct (select_test test_id (view s)) as [|test [|test' rows]]; simpl; eauto.
Qed.

Lemma get_course_or_404_cases course_id s :
  (∃ course, select_course course_id (view s) = [course]
             ∧ get_course_or_404 course_id s = (Ok course, s))
  ∨ (∃ e, get_course_or_404 course_id s = (Raise e, s)).
Proof.
  unfold get_course_or_404, bind, execute.
  destruct (select_course course_id (view s)) as [|course [|course' rows]]; simpl; eauto.
Qed.

(** Whatever the two lookups find, the edit guard of a test with attempts
    raises, and the session is as before. *)
Lemma edit_guard_raises test_id current s :
  0 < attempts_cnt test_id (view s) →
  ∃ e, (let* test := get_test_or_404 test_id in ensure_can_edit_test current test) s
       = (Raise e, s).
Proof.
  intros Hn.
  destruct (get_test_or_404_cases test_id s) as [(test & Ht & Hget)|[e Hget]].
  - rewrite (bind_Ok _ _ _ _ _ Hget).
    assert (Test.id test = test_id) as Hid.
    { apply (select_test_id _ (view s)). rewrite Ht. by apply list_elem_of_singleton. }
    destruct (get_course_or_404_cases (Test.course_id test) s) as [(course & Hc & _)|[e He]].
    + rewrite <- Hid in Hn. rewrite (ensure_can_edit_test_locked _ _ _ _ Hc Hn). eauto.
    + unfold ensure_can_edit_test. rewrite (bind_Raise _ _ _ _ _ He). eauto.
  - rewrite (bind_Raise _ _ _ _ _ Hget). eauto.
Qed.

(** A lookup by primary key and a flag finds no row or one. *)
Lemma select_at_most_one {A K : Type} (key : A → K) (k : K) (Q : A → Prop)
    `{!∀ x, Decision (key x = k ∧ Q x)} (l : list A) :
  NoDup (key <$> l) →
  filter (λ r, key r = k ∧ Q r) l = [] ∨ ∃ v, filter (λ r, key r = k ∧ Q r) l = [v].
Proof.
  induction l as [|a l IH]; intros Hnd; [by left|].
  rewrite fmap_cons in Hnd. apply NoDup_cons in Hnd as [Hnotin Hnd].
  rewrite filter_cons. destruct (decide (key a = k ∧ Q a)) as [[Hk Hq]|Hno].
  - right. exists a. destruct (IH Hnd) as [->|[v Hv]]; [done|].
    exfalso. apply Hnotin.
    assert (v ∈ filter (λ r, key r = k ∧ Q r) l) as Hin
      by (rewrite Hv; apply list_elem_of_here).
    apply list_elem_of_filter in Hin as [[Hvk _] Hin].
    rewrite Hk, <- Hvk. by apply list_elem_of_fmap_2.
  - exact (IH Hnd).
Qed.

(** C3, as the code has it.  On a test that has an attempt, adding,
    removing and reordering questions raise for any caller and any store, and
    the session is left exactly as it was: no statement has been issued, so a
    fortiori nothing is committed.  On a test that is not soft-deleted, in a
    course that is not soft-deleted, the error is 400 'Test has attempts,
    modification forbidden': the count of attempts is tested before the
    caller is.  In every other case (ids being the primary keys of tests and
    courses) the test is missing or soft-deleted, or its course is, and the
    error is 404 'Not found', raised by the lookup before the attempts are
    counted. *)
Theorem composition_locked_by_attempts str_strip int_of_str
    test_id question_id questionIdsCsv current s :
  0 < attempts_cnt test_id (view s) →
  ((∃ e, test_question_add test_id question_id current s = (Raise e, s))
   ∧ (∃ e, test_question_del test_id question_id current s = (Raise e, s))
   ∧ (∃ e, test_question_order str_strip int_of_str test_id questionIdsCsv current s
           = (Raise e, s)))
  ∧ (∀ test course,
       select_test test_id (view s) = [test] →
       select_course (Test.course_id test) (view s) = [course] →
       let locked := Raise (HTTPException 400 "Bad Request"
                              [("message", "Test has attempts, modification forbidden")]) in
       test_question_add test_id question_id current s = (locked, s)
       ∧ test_question_del test_id question_id current s = (locked, s)
       ∧ test_question_order str_strip int_of_str test_id questionIdsCsv current s
         = (locked, s))
  ∧ (unique_on Test.id (tests (view s)) → unique_on Course.id (courses (view s)) →
     (¬ ∃ test course, select_test test_id (view s) = [test]
                       ∧ select_course (Test.course_id test) (view s) = [course]) →
     let not_found := Raise (HTTPException 404 "Not found" []) in
     test_question_add test_id question_id current s = (not_found, s)
     ∧ test_question_del test_id question_id current s = (not_found, s)
     ∧ test_question_order str_strip int_of_str test_id questionIdsCsv current s
       = (not_found, s)).
Proof.
  intros Hn. split; [|split].
  - destruct (edit_guard_raises test_id current s Hn) as [e He].
    unfold test_question_add, test_question_del, test_question_order.
    unfold bind at 1 in He.
    split_and!; exists e; unfold bind at 1;
      (destruct (get_test_or_404 test_id s) as [[test|e'] s'] eqn:Hget;
       [|by simplify_eq]); by rewrite (bind_Raise _ _ _ _ _ He).
  - intros test course Ht Hc locked.
    assert (Test.id test = test_id) as Hid.
    { apply (select_test_id _ (view s)). rewrite Ht. by apply list_elem_of_singleton. }
    rewrite <- Hid in Hn.
    pose proof (get_test_or_404_found _ _ _ Ht) as Hget.
    pose proof (ensure_can_edit_test_locked current _ _ _ Hc Hn) as Hlock.
    unfold test_question_add, test_question_del, test_question_order.
    rewrite !(bind_Ok _ _ _ _ _ Hget).
    by rewrite !(bind_Raise _ _ _ _ _ Hlock).
  - intros Hut Huc Hnone not_found.
    destruct (select_at_most_one Test.id test_id (λ t, Test.is_deleted t = false)
                (tests (view s)) Hut) as [Ht|[test Ht]].
    + assert (get_test_or_404 test_id s = (Raise (HTTPException 404 "Not found" []), s))
        as Hget.
      { unfold get_test_or_404, bind, execute, select_test. by rewrite Ht. }
      unfold test_question_add, test_question_del, test_question_order.
      by rewrite !(bind_Raise _ _ _ _ _ Hget).
    + pose proof (get_test_or_404_found test_id test s Ht) as Hget.
      destruct (select_at_most_one Course.id (Test.course_id test)
                  (λ c, Course.is_deleted c = false) (courses (view s)) Huc)
        as [Hc|[course Hc]].
      * assert (ensure_can_edit_test current test s
                = (Raise (HTTPException 404 "Not found" []), s)) as Hedit.
        { unfold ensure_can_edit_test.
          unfold bind at 1. unfold get_course_or_404, bind, execute, select_course.
          by rewrite Hc. }
        unfold test_question_add, test_question_del, test_question_order.
        rewrite !(bind_Ok _ _ _ _ _ Hget).
        by rewrite !(bind_Raise _ _ _ _ _ Hedit).
      * exfalso. apply Hnone. by exists test, course.
Qed.

Lemma composition_locked_by_attempts_witness :
  let locked := Raise (HTTPException 400 "Bad Request"
                         [("message", "Test has attempts, modification forbidden")]) in
  let not_found := Raise (HTTPException 404 "Not found" []) in
  let s := mkSession Demo.db_started Demo.db_started in
  let s' := mkSession Demo.db_test_deleted Demo.db_test_deleted in
  (test_question_add 1 2 Demo.assistant s = (locked, s)
   ∧ test_question_del 1 2 Demo.assistant s = (locked, s)
   ∧ test_question_order Demo.ascii_strip Demo.decimal_int 1 "2,1,3,4" Demo.assistant s
     = (locked, s))
  ∧ (test_question_add 1 2 Demo.assistant s' = (not_found, s')
     ∧ test_question_del 1 2 Demo.assistant s' = (not_found, s')
     ∧ test_question_order Demo.ascii_strip Demo.decimal_int 1 "2,1,3,4" Demo.assistant s'
       = (not_found, s')).
Proof.
  split.
  - apply (proj1 (proj2 (composition_locked_by_attempts Demo.ascii_strip Demo.decimal_int
                           1 2 "2,1,3,4" Demo.assistant
                           (mkSession Demo.db_started Demo.db_started) eq_refl))
             (Test.mk 1 1 true false) (Course.mk 1 10 false)).
    + reflexivity.
    + reflexivity.
  - apply (proj2 (proj2 (composition_locked_by_attempts Demo.ascii_strip Demo.decimal_int
                           1 2 "2,1,3,4" Demo.assistant
                           (mkSession Demo.db_test_deleted Demo.db_test_deleted) eq_refl))).
    + apply (bool_decide_unpack _). vm_compute. exact I.
    + apply (bool_decide_unpack _). vm_compute. exact I.
    + intros (test & course & Ht & _). vm_compute in Ht. discriminate.
Defined.

(** C3 as stated fails: test 1 is there, not soft-deleted, and has an
    attempt, but its course has been soft-deleted, and the three handlers
    raise 404 from [get_course_or_404] before the attempts are counted. *)
Lemma composition_not_found_before_lock :
  let s := mkSession Demo.db_course_deleted Demo.db_course_deleted in
  let not_found := Raise (HTTPException 404 "Not found" []) in
  select_test 1 (view s) = [Test.mk 1 1 true false]
  ∧ attempts_cnt 1 (view s) = 1
  ∧ test_question_add 1 5 Demo.teacher s = (not_found, s)
  ∧ test_question_del 1 2 Demo.teacher s = (not_found, s)
  ∧ test_question_order Demo.ascii_strip Demo.decimal_int 1 "1,2,3,4" Demo.teacher s
    = (not_found, s).
Proof. vm_compute. done. Qed.

(** C7. On a test without attempts, a caller who is not the teacher of the
    course is refused by [ensure_can_edit_test] with 403 'Not allowed by
    default; need permission' in all three composition handlers, whatever
    permissions the caller holds: the [has_perm] test that follows in each
    handler is never reached for such a caller. *)
Theorem override_permission_never_consulted str_strip int_of_str
    test_id question_id questionIdsCsv current test course s :
  select_test test_id (view s) = [test] →
  select_course (Test.course_id test) (view s) = [course] →
  attempts_cnt test_id (view s) = 0 →
  Course.teacher_id course ≠ user_id current →
  let denied := Raise (HTTPException 403 "Forbidden"
                         [("message", "Not allowed by default; need permission")]) in
  test_question_add test_id question_id current s = (denied, s)
  ∧ test_question_del test_id question_id current s = (denied, s)
  ∧ test_question_order str_strip int_of_str test_id questionIdsCsv current s = (denied, s).
Proof.
  intros Ht Hc Hn Hteacher denied.
  assert (Test.id test = test_id) as Hid.
  { apply (select_test_id _ (view s)). rewrite Ht. by apply list_elem_of_singleton. }
  rewrite <- Hid in Hn.
  pose proof (get_test_or_404_found _ _ _ Ht) as Hget.
  pose proof (ensure_can_edit_test_denied current _ _ _ Hc Hn Hteacher) as Hdeny.
  unfold test_question_add, test_question_del, test_question_order.
  rewrite !(bind_Ok _ _ _ _ _ Hget).
  by rewrite !(bind_Raise _ _ _ _ _ Hdeny).
Qed.

Lemma override_permission_never_consulted_witness :
  has_perm Demo.assistant "test:quest:add" = true
  ∧ has_perm Demo.assistant "test:quest:del" = true
  ∧ has_perm Demo.assistant "test:quest:update" = true
  ∧ let denied := Raise (HTTPException 403 "Forbidden"
                           [("message", "Not allowed by default; need permission")]) in
    let s := mkSession Demo.db_fresh Demo.db_fresh in
    test_question_add 1 2 Demo.assistant s = (denied, s)
    ∧ test_question_del 1 2 Demo.assistant s = (denied, s)
    ∧ test_question_order Demo.ascii_strip Demo.decimal_int 1 "2,1,3,4" Demo.assistant s
      = (denied, s).
Proof.
  split; [vm_compute; reflexivity|].
  split; [vm_compute; reflexivity|].
  split; [vm_compute; reflexivity|].
  apply (override_permission_never_consulted Demo.ascii_strip Demo.decimal_int 1 2 "2,1,3,4"
           Demo.assistant (Test.mk 1 1 true false) (Course.mk 1 10 false)
           (mkSession Demo.db_fresh Demo.db_fresh)).
  - reflexivity.
  - reflexivity.
  - reflexivity.
  - simpl. lia.
Defined.

(** ** Reordering *)

Lemma merge_sort_eq_Permutation (l1 l2 : list Z) :
  merge_sort Z.le l1 = merge_sort Z.le l2 ↔ l1 ≡ₚ l2.
Proof.
  split.
  - intros H. rewrite <- (merge_sort_Permutation Z.le l1), H.
    apply merge_sort_Permutation.
  - intros H. apply (Sorted_unique Z.le).
    + apply Sorted_merge_sort; apply _.
    + apply Sorted_merge_sort; apply _.
    + by rewrite !merge_sort_Permutation.
Qed.

Lemma NoDup_fmap_eq {A K : Type} (g : A → K) (l : list A) x y :
  NoDup (g <$> l) → x ∈ l → y ∈ l → g x = g y → x = y.
Proof.
  induction l as [|a l IH]; intros Hnd Hx Hy Hg; [by apply elem_of_nil in Hx|].
  rewrite fmap_cons in Hnd. apply NoDup_cons in Hnd as [Hnotin Hnd].
  apply elem_of_cons in Hx as [->|Hx]; apply elem_of_cons in Hy as [->|Hy].
  - done.
  - exfalso. apply Hnotin. rewrite Hg. by apply list_elem_of_fmap_2.
  - exfalso. apply Hnotin. rewrite <- Hg. by apply list_elem_of_fmap_2.
  - by apply IH.
Qed.

Lemma test_question_order_gates str_strip int_of_str test_id csv current test course s new_order :
  select_test test_id (view s) = [test] →
  select_course (Test.course_id test) (view s) = [course] →
  attempts_cnt test_id (view s) = 0 →
  Course.teacher_id course = user_id current →
  csv_ids str_strip int_of_str csv = Some new_order →
  test_question_order str_strip int_of_str test_id csv current s
  = (if decide (merge_sort Z.le (current_ids test_id (view s)) ≠ merge_sort Z.le new_order)
     then http_error 400 "Bad Request"
            [("message", "Order list must contain exactly the same question ids as in test")]
     else
       let* _ := test_question_order_loop test_id 0 new_order in
       let* _ := commit in
       ret [("status", VStr "ok")]) s.
Proof.
  intros Ht Hc Hn Hteacher Hcsv.
  assert (Test.id test = test_id) as Hid.
  { apply (select_test_id _ (view s)). rewrite Ht. by apply list_elem_of_singleton. }
  rewrite <- Hid in Hn.
  unfold test_question_order.
  rewrite (bind_Ok _ _ _ _ _ (get_test_or_404_found _ _ _ Ht)).
  rewrite (bind_Ok _ _ _ _ _ (ensure_can_edit_test_teacher current _ _ _ Hc Hn Hteacher)).
  rewrite (bind_Ok _ _ _ _ _ (get_course_or_404_found _ _ _ Hc)).
  rewrite bool_decide_false by (by intros ?). simpl.
  unfold parse_csv_ids. rewrite Hcsv.
  reflexivity.
Qed.

(** The part of C9 that holds: a list that is not a permutation of the ids
    of the test is refused with 400 and nothing is written. *)
Lemma test_question_order_not_permutation str_strip int_of_str
    test_id csv current test course s new_order :
  select_test test_id (view s) = [test] →
  select_course (Test.course_id test) (view s) = [course] →
  attempts_cnt test_id (view s) = 0 →
  Course.teacher_id course = user_id current →
  csv_ids str_strip int_of_str csv = Some new_order →
  ¬ new_order ≡ₚ current_ids test_id (view s) →
  test_question_order str_strip int_of_str test_id csv current s
  = (Raise (HTTPException 400 "Bad Request"
       [("message", "Order list must contain exactly the same question ids as in test")]), s).
Proof.
  intros Ht Hc Hn Hteacher Hcsv Hperm.
  rewrite (test_question_order_gates _ _ _ _ _ _ _ _ _ Ht Hc Hn Hteacher Hcsv).
  rewrite decide_True; [done|].
  intros H. apply Hperm. symmetry. by apply merge_sort_eq_Permutation.
Qed.

Lemma update_position_collides test_id qid occupant s :
  qid ∈ current_ids test_id (view s) →
  occupant ∈ select_test_questions test_id (view s) →
  TestQuestion.position occupant = 0 →
  TestQuestion.question_id occupant ≠ qid →
  update_position test_id qid 0 s = (Raise DBAPIError, s).
Proof.
  intros Hq Ho Hpos Hne. unfold update_position, statement.
  rewrite decide_False; [done|].
  intros (_ & Huniq & _). unfold unique_on in Huniq. simpl in Huniq.
  rewrite <- list_fmap_compose in Huniq.
  unfold current_ids in Hq. apply list_elem_of_fmap in Hq as (rq & Hrq & Hin).
  unfold select_test_questions in Hin, Ho.
  apply list_elem_of_filter in Hin as [Htq Hin].
  apply list_elem_of_filter in Ho as [Hto Ho].
  apply Hne. rewrite Hrq.
  f_equal. symmetry.
  apply (NoDup_fmap_eq _ _ rq occupant Huniq Hin Ho).
  simpl. rewrite decide_True by done.
  rewrite decide_False by (intros [_ ?]; congruence).
  simpl. congruence.
Qed.

(** C9. A reordering that is a permutation of the ids of the test, but
    does not start with the question that now sits at position 0, is refused
    by the store at the first UPDATE of the loop: the row it moves to position
    0 collides with the one already there under [uq_test_questions_position].
    The handler raises the driver's error and no position is rewritten. *)
Theorem test_question_order_collides str_strip int_of_str
    test_id csv current test course s qid rest occupant :
  select_test test_id (view s) = [test] →
  select_course (Test.course_id test) (view s) = [course] →
  attempts_cnt test_id (view s) = 0 →
  Course.teacher_id course = user_id current →
  csv_ids str_strip int_of_str csv = Some (qid :: rest) →
  qid :: rest ≡ₚ current_ids test_id (view s) →
  occupant ∈ select_test_questions test_id (view s) →
  TestQuestion.position occupant = 0 →
  TestQuestion.question_id occupant ≠ qid →
  test_question_order str_strip int_of_str test_id csv current s = (Raise DBAPIError, s)
  ∧ get_session (test_question_order str_strip int_of_str test_id csv current) (view s)
    = (Raise DBAPIError, view s).
Proof.
  intros Ht Hc Hn Hteacher Hcsv Hperm Ho Hpos Hne.
  assert (∀ s0, view s0 = view s →
            test_question_order str_strip int_of_str test_id csv current s0
            = (Raise DBAPIError, s0)) as Hrun.
  { intros s0 Hv. rewrite <- Hv in *.
    rewrite (test_question_order_gates _ _ _ _ _ _ _ _ _ Ht Hc Hn Hteacher Hcsv).
    rewrite decide_False.
    2:{ intros H. apply H. symmetry. by apply merge_sort_eq_Permutation. }
    cbn [test_question_order_loop].
    assert (qid ∈ current_ids test_id (view s0)) as Hq.
    { rewrite <- Hperm. apply elem_of_cons. by left. }
    rewrite (bind_Raise _ _ _ _ _
               (bind_Raise _ _ _ _ _ (update_position_collides _ _ _ _ Hq Ho Hpos Hne))).
    reflexivity. }
  split; [by apply Hrun|].
  unfold get_session. by rewrite (Hrun (mkSession (view s) (view s)) eq_refl).
Qed.

Lemma test_question_order_collides_witness :
  let s := mkSession Demo.db_fresh Demo.db_fresh in
  test_question_order Demo.ascii_strip Demo.decimal_int 1 "2,1,3,4" Demo.teacher s
  = (Raise DBAPIError, s)
  ∧ get_session (test_question_order Demo.ascii_strip Demo.decimal_int 1 "2,1,3,4" Demo.teacher)
      Demo.db_fresh
    = (Raise DBAPIError, Demo.db_fresh).
Proof.
  apply (test_question_order_collides Demo.ascii_strip Demo.decimal_int 1 "2,1,3,4"
           Demo.teacher (Test.mk 1 1 true false) (Course.mk 1 10 false)
           (mkSession Demo.db_fresh Demo.db_fresh) 2 [1; 3; 4] (TestQuestion.mk 1 1 0)).
  - reflexivity.
  - reflexivity.
  - reflexivity.
  - reflexivity.
  - vm_compute. reflexivity.
  - vm_compute. apply perm_swap.
  - vm_compute. apply list_elem_of_here.
  - reflexivity.
  - simpl. lia.
Defined.

(** ** Writing an answer *)

(** The UPDATE of one answer's index, on the table. *)
Lemma answers_ok_update_index db id i :
  answers_ok db → -1 ≤ i → int4 i →
  answers_ok (with_answers
    (fmap (λ r, if decide (Answer.id r = id) then Answer.set_answer_index i r else r)) db).
Proof.
  intros (Hid & Hkey & Hatt & Hver & Hchk) Hi H4.
  unfold answers_ok, unique_on, references in *. simpl.
  rewrite <- !list_fmap_compose, !Forall_fmap.
  split_and!.
  - erewrite list_fmap_ext; [exact Hid|]. intros _ r _. simpl. by case_decide.
  - erewrite list_fmap_ext; [exact Hkey|]. intros _ r _. simpl. by case_decide.
  - eapply Forall_impl; [exact Hatt|]. intros r Hr. simpl. by case_decide.
  - eapply Forall_impl; [exact Hver|]. intros r Hr. simpl. by case_decide.
  - eapply Forall_impl; [exact Hchk|]. intros r (? & ? & ?). simpl.
    case_decide; simpl; auto.
Qed.

Lemma update_index_same db id ans :
  select_answer id db = [ans] →
  (λ r, if decide (Answer.id r = id) then Answer.set_answer_index (Answer.answer_index ans) r
        else r) <$> answers db = answers db.
Proof.
  intros Hsel. rewrite <- (list_fmap_id (answers db)) at 2.
  apply list_fmap_ext. intros k r Hr. apply list_elem_of_lookup_2 in Hr.
  case_decide as Hid; [|done].
  assert (r ∈ select_answer id db) as Hin by (by apply list_elem_of_filter).
  rewrite Hsel in Hin. apply list_elem_of_singleton in Hin as ->. by destruct ans.
Qed.

Lemma select_answer_id id db ans : ans ∈ select_answer id db → Answer.id ans = id.
Proof. unfold select_answer. rewrite list_elem_of_filter. by intros [? _]. Qed.

Lemma update_answer_index_Ok ans index db c :
  select_answer (Answer.id ans) db = [ans] → answers_ok db → -1 ≤ index → int4 index →
  update_answer_index ans index (mkSession c db)
  = (Ok (), mkSession c (with_answers
       (fmap (λ r, if decide (Answer.id r = Answer.id ans)
                   then Answer.set_answer_index index r else r)) db)).
Proof.
  intros Hsel Hok Hi H4. unfold update_answer_index. case_decide as Hsame.
  - unfold ret. do 2 f_equal. subst index.
    unfold with_answers. rewrite (update_index_same _ _ _ Hsel). by destruct db.
  - unfold statement. simpl. rewrite decide_True; [done|].
    by apply answers_ok_update_index.
Qed.

Lemma answer_update_negative answer_id index current s :
  index < 0 →
  answer_update answer_id index current s
  = (Raise (HTTPException 400 "Bad Request"
       [("message", "index must be >= 0 (use answer_delete to reset to -1)")]), s).
Proof. intros H. unfold answer_update. by rewrite decide_True. Qed.

Lemma get_attempt_or_404_found attempt_id attempt s :
  select_attempt attempt_id (view s) = [attempt] →
  get_attempt_or_404 attempt_id s = (Ok attempt, s).
Proof. intros H. unfold get_attempt_or_404, bind, execute. by rewrite H. Qed.

(** Both handlers, up to the write, on an answer and its attempt. *)
Lemma answer_update_gates answer_id index current ans attempt s :
  0 ≤ index →
  select_answer answer_id (view s) = [ans] →
  select_attempt (Answer.attempt_id ans) (view s) = [attempt] →
  answer_update answer_id index current s
  = (if decide (Attempt.user_id attempt ≠ user_id current)
     then http_error 403 "Forbidden" []
     else if decide (Attempt.status attempt ≠ "in_progress")
     then http_error 400 "Bad Request" [("message", "Attempt already finished")]
     else
       let* _ := update_answer_index ans index in
       let* _ := commit in
       ret [("status", VStr "ok")]) s.
Proof.
  intros Hi Hans Hatt. unfold answer_update. rewrite decide_False by lia.
  unfold bind at 1, execute at 1. rewrite Hans.
  unfold bind at 1. rewrite scalar_one_or_none_single.
  by rewrite (bind_Ok _ _ _ _ _ (get_attempt_or_404_found _ _ _ Hatt)).
Qed.

Lemma answer_delete_gates answer_id current ans attempt s :
  select_answer answer_id (view s) = [ans] →
  select_attempt (Answer.attempt_id ans) (view s) = [attempt] →
  answer_delete answer_id current s
  = (if decide (Attempt.user_id attempt ≠ user_id current)
     then http_error 403 "Forbidden" []
     else if decide (Attempt.status attempt ≠ "in_progress")
     then http_error 400 "Bad Request" [("message", "Attempt already finished")]
     else
       let* _ := update_answer_index ans (-1) in
       let* _ := commit in
       ret [("status", VStr "ok")]) s.
Proof.
  intros Hans Hatt. unfold answer_delete.
  unfold bind at 1, execute at 1. rewrite Hans.
  unfold bind at 1. rewrite scalar_one_or_none_single.
  by rewrite (bind_Ok _ _ _ _ _ (get_attempt_or_404_found _ _ _ Hatt)).
Qed.

(** The store after the index of answer [answer_id] is set to [index]. *)
Lemma answer_write_Ok answer_id index ans db :
  select_answer answer_id db = [ans] → answers_ok db → -1 ≤ index → int4 index →
  get_session
    (let* _ := update_answer_index ans index in
     let* _ := commit in
     ret [("status", VStr "ok")]) db
  = (Ok [("status", VStr "ok")],
     with_answers (fmap (λ r, if decide (Answer.id r = answer_id)
                              then Answer.set_answer_index index r else r)) db).
Proof.
  intros Hsel Hok Hi H4.
  assert (Answer.id ans = answer_id) as Hid.
  { apply (select_answer_id _ db). rewrite Hsel. by apply list_elem_of_singleton. }
  subst answer_id. unfold get_session.
  by rewrite (bind_Ok _ _ _ _ _ (update_answer_index_Ok _ _ _ _ Hsel Hok Hi H4)).
Qed.

(** C5, as the code has it.  On a finished attempt [answer_update] and
    [answer_delete] always raise and leave the store as it was; for the owner
    of the attempt (and a non-negative index) the error is 400 'Attempt
    already finished'.  While the attempt is in progress, [answer_delete] by
    its owner succeeds and sets the index of that answer to -1, touching no
    other row. *)
Theorem finished_attempt_rejects_answer_writes answer_id index current ans attempt db :
  select_answer answer_id db = [ans] →
  select_attempt (Answer.attempt_id ans) db = [attempt] →
  let finished := Raise (HTTPException 400 "Bad Request"
                           [("message", "Attempt already finished")]) in
  (Attempt.status attempt = "finished" →
     (∃ e, get_session (answer_update answer_id index current) db = (Raise e, db))
     ∧ (∃ e, get_session (answer_delete answer_id current) db = (Raise e, db))
     ∧ (Attempt.user_id attempt = user_id current →
          (0 ≤ index → get_session (answer_update answer_id index current) db = (finished, db))
          ∧ get_session (answer_delete answer_id current) db = (finished, db)))
  ∧ (Attempt.status attempt = "in_progress" →
     Attempt.user_id attempt = user_id current →
     answers_ok db →
     get_session (answer_delete answer_id current) db
     = (Ok [("status", VStr "ok")],
        with_answers (fmap (λ r, if decide (Answer.id r = answer_id)
                                 then Answer.set_answer_index (-1) r else r)) db)).
Proof.
  intros Hans Hatt finished.
  pose proof (λ Hi, answer_update_gates answer_id index current ans attempt
                      (mkSession db db) Hi Hans Hatt) as Hupd.
  pose proof (answer_delete_gates answer_id current ans attempt
                (mkSession db db) Hans Hatt) as Hdel.
  split.
  - intros Hfin. split_and!.
    + unfold get_session. destruct (decide (index < 0)) as [Hneg|Hpos].
      * rewrite answer_update_negative by done. eauto.
      * rewrite Hupd by lia. case_decide; [eauto|].
        rewrite decide_True by (by rewrite Hfin). eauto.
    + unfold get_session. rewrite Hdel. case_decide; [eauto|].
      rewrite decide_True by (by rewrite Hfin). eauto.
    + intros Hown. split.
      * intros Hi. unfold get_session. rewrite Hupd by done.
        rewrite decide_False by (by intros ?).
        by rewrite decide_True by (by rewrite Hfin).
      * unfold get_session. rewrite Hdel.
        rewrite decide_False by (by intros ?).
        by rewrite decide_True by (by rewrite Hfin).
  - intros Hprog Hown Hok.
    rewrite <- (answer_write_Ok answer_id (-1) ans db Hans Hok) by (unfold int4; lia).
    unfold get_session. rewrite Hdel.
    rewrite decide_False by (by intros ?).
    by rewrite decide_False by (by intros ?).
Qed.

Lemma finished_attempt_rejects_answer_writes_witness :
  let finished := Raise (HTTPException 400 "Bad Request"
                           [("message", "Attempt already finished")]) in
  (get_session (answer_update 1 2 Demo.student) Demo.db_finished = (finished, Demo.db_finished)
   ∧ get_session (answer_delete 1 Demo.student) Demo.db_finished = (finished, Demo.db_finished))
  ∧ get_session (answer_delete 1 Demo.student) Demo.db_answered
    = (Ok [("status", VStr "ok")],
       with_answers (fmap (λ r, if decide (Answer.id r = 1)
                                then Answer.set_answer_index (-1) r else r)) Demo.db_answered).
Proof.
  intros finished.
  pose proof (finished_attempt_rejects_answer_writes 1 2 Demo.student
                (Answer.mk 1 1 1 1 1) (Attempt.mk 1 1 20 "finished") Demo.db_finished
                eq_refl eq_refl) as [Hfin _].
  pose proof (finished_attempt_rejects_answer_writes 1 2 Demo.student
                (Answer.mk 1 1 1 1 1) (Attempt.mk 1 1 20 "in_progress") Demo.db_answered
                eq_refl eq_refl) as [_ Hprog].
  split.
  - destruct (Hfin eq_refl) as (_ & _ & Hown).
    destruct (Hown eq_refl) as [Hupd Hdel].
    split; [apply Hupd; lia|exact Hdel].
  - apply Hprog; [reflexivity|reflexivity|].
    apply (bool_decide_unpack _). vm_compute. exact I.
Defined.

(** C5 as stated fails: on the finished attempt of the student, the teacher
    gets 403 from both handlers and the student gets the index error for a
    negative index, not 'Attempt already finished'. *)
Lemma finished_attempt_other_errors :
  select_attempt 1 Demo.db_finished = [Attempt.mk 1 1 20 "finished"]
  ∧ get_session (answer_update 1 2 Demo.teacher) Demo.db_finished
    = (Raise (HTTPException 403 "Forbidden" []), Demo.db_finished)
  ∧ get_session (answer_delete 1 Demo.teacher) Demo.db_finished
    = (Raise (HTTPException 403 "Forbidden" []), Demo.db_finished)
  ∧ get_session (answer_update 1 (-3) Demo.student) Demo.db_finished
    = (Raise (HTTPException 400 "Bad Request"
         [("message", "index must be >= 0 (use answer_delete to reset to -1)")]),
       Demo.db_finished).
Proof. vm_compute. done. Qed.

(** C6, as the code has it.  [answer_update] checks the index from below
    only: a negative index is refused with 400 before anything is read, and
    on an answer of an attempt in progress owned by the caller every index
    from 0 up to the largest value of the column is stored, whatever the
    number of options of the pinned version. *)
Theorem answer_update_index_check answer_id index current db :
  (index < 0 →
     get_session (answer_update answer_id index current) db
     = (Raise (HTTPException 400 "Bad Request"
          [("message", "index must be >= 0 (use answer_delete to reset to -1)")]), db))
  ∧ (∀ ans attempt,
       select_answer answer_id db = [ans] →
       select_attempt (Answer.attempt_id ans) db = [attempt] →
       Attempt.user_id attempt = user_id current →
       Attempt.status attempt = "in_progress" →
       answers_ok db →
       0 ≤ index ≤ 2147483647 →
       get_session (answer_update answer_id index current) db
       = (Ok [("status", VStr "ok")],
          with_answers (fmap (λ r, if decide (Answer.id r = answer_id)
                                   then Answer.set_answer_index index r else r)) db)).
Proof.
  split.
  - intros Hneg. unfold get_session. by rewrite answer_update_negative.
  - intros ans attempt Hans Hatt Hown Hprog Hok Hi.
    rewrite <- (answer_write_Ok answer_id index ans db Hans Hok) by (unfold int4; lia).
    unfold get_session.
    rewrite (answer_update_gates answer_id index current ans attempt (mkSession db db))
      by (done || lia).
    rewrite decide_False by (by intros ?).
    by rewrite decide_False by (by intros ?).
Qed.

Lemma answer_update_index_check_witness :
  get_session (answer_update 4 (-2) Demo.student) Demo.db_answered
  = (Raise (HTTPException 400 "Bad Request"
       [("message", "index must be >= 0 (use answer_delete to reset to -1)")]),
     Demo.db_answered)
  ∧ get_session (answer_update 4 7 Demo.student) Demo.db_answered
    = (Ok [("status", VStr "ok")],
       with_answers (fmap (λ r, if decide (Answer.id r = 4)
                                then Answer.set_answer_index 7 r else r)) Demo.db_answered).
Proof.
  split.
  - apply (proj1 (answer_update_index_check 4 (-2) Demo.student Demo.db_answered)). lia.
  - apply (proj2 (answer_update_index_check 4 7 Demo.student Demo.db_answered)
             (Answer.mk 4 1 4 1 0) (Attempt.mk 1 1 20 "in_progress")).
    + reflexivity.
    + reflexivity.
    + reflexivity.
    + reflexivity.
    + apply (bool_decide_unpack _). vm_compute. exact I.
    + lia.
Defined.

(** C6 as stated fails: answer 4 of the student's attempt in progress pins a
    version with three options, and index 7 is accepted and stored. *)
Lemma answer_update_accepts_index_past_options :
  select_answer 4 Demo.db_answered = [Answer.mk 4 1 4 1 0]
  ∧ select_attempt 1 Demo.db_answered = [Attempt.mk 1 1 20 "in_progress"]
  ∧ user_id Demo.student = 20
  ∧ (length ∘ QuestionVersion.options) <$> pinned_version (Answer.mk 4 1 4 1 0) Demo.db_answered
    = Some 3%nat
  ∧ (get_session (answer_update 4 7 Demo.student) Demo.db_answered).1
    = Ok [("status", VStr "ok")]
  ∧ select_answer 4 (get_session (answer_update 4 7 Demo.student) Demo.db_answered).2
    = [Answer.mk 4 1 4 1 7].
Proof. vm_compute. repeat split. Qed.

(** ** Grading *)

Lemma filter_unique_key {A K : Type} `{EqDecision K} (key : A → K) (k : K) (l : list A) :
  NoDup (key <$> l) →
  filter (λ v, key v = k) l = [] ∨ ∃ v, filter (λ v, key v = k) l = [v].
Proof.
  induction l as [|a l IH]; intros Hnd; [by left|].
  rewrite fmap_cons in Hnd. apply NoDup_cons in Hnd as [Hnotin Hnd].
  destruct (decide (key a = k)) as [Hk|Hk].
  - right. exists a. rewrite filter_cons_True by done. f_equal.
    destruct (filter (λ v, key v = k) l) as [|b l'] eqn:Hf; [done|].
    exfalso. apply Hnotin.
    assert (b ∈ filter (λ v, key v = k) l) as Hb by (rewrite Hf; apply list_elem_of_here).
    apply list_elem_of_filter in Hb as [Hkb Hb].
    rewrite Hk, <- Hkb. by apply list_elem_of_fmap_2.
  - rewrite filter_cons_False by done. by apply IH.
Qed.

Lemma filter_pair_fmap {A B : Type} (P : A * B → Prop) `{!∀ x, Decision (P x)}
    (a : A) (l : list B) :
  length (filter P (pair a <$> l)) = length (filter (λ b, P (a, b)) l).
Proof.
  induction l as [|b l IH]; [done|].
  rewrite fmap_cons. rewrite !filter_cons. destruct (decide (P (a, b))); simpl; by rewrite IH.
Qed.

(** The rows of the join of one answer that pass the filter of [count_correct]. *)
Lemma count_correct_one attempt_id db a (P : QuestionVersion.row → Prop)
    `{!∀ v, Decision (P v)} :
  (∀ v, P v ↔ (QuestionVersion.question_id v = Answer.question_id a
               ∧ QuestionVersion.version v = Answer.question_version a)
              ∧ Answer.attempt_id a = attempt_id
              ∧ Answer.answer_index a ≠ -1
              ∧ Answer.answer_index a = QuestionVersion.correct_index v) →
  unique_on QuestionVersion.key (question_versions db) →
  length (filter P (question_versions db))
  = if decide (Answer.attempt_id a = attempt_id ∧ answered_correctly db a) then 1%nat else 0%nat.
Proof.
  intros HP Hu.
  rewrite (list_filter_iff P
    (λ v, (Answer.attempt_id a = attempt_id ∧ Answer.answer_index a ≠ -1
           ∧ Answer.answer_index a = QuestionVersion.correct_index v)
          ∧ QuestionVersion.key v = (Answer.question_id a, Answer.question_version a))).
  2:{ intros v. rewrite HP. unfold QuestionVersion.key. split.
      - intros ([? ?] & ? & ? & ?). split_and!; congruence.
      - intros ((? & ? & ?) & Hk). simplify_eq. done. }
  rewrite <- (list_filter_filter
    (λ v, Answer.attempt_id a = attempt_id ∧ Answer.answer_index a ≠ -1
          ∧ Answer.answer_index a = QuestionVersion.correct_index v)
    (λ v, QuestionVersion.key v = (Answer.question_id a, Answer.question_version a))).
  destruct (filter_unique_key QuestionVersion.key
              (Answer.question_id a, Answer.question_version a) _ Hu) as [Hf|[v Hf]].
  - rewrite Hf. simpl. rewrite decide_False; [done|].
    unfold answered_correctly, pinned_version. rewrite Hf. by intros (_ & _ & ?).
  - rewrite Hf. rewrite filter_cons, filter_nil.
    assert (answered_correctly db a
            ↔ Answer.answer_index a ≠ -1
              ∧ Answer.answer_index a = QuestionVersion.correct_index v) as Hiff.
    { unfold answered_correctly, pinned_version. rewrite Hf. simpl.
      split; intros [? ?]; split; congruence. }
    destruct (decide (Answer.attempt_id a = attempt_id ∧ Answer.answer_index a ≠ -1
                      ∧ Answer.answer_index a = QuestionVersion.correct_index v))
      as [(? & ? & ?)|Hno].
    + rewrite decide_True; [done|]. split; [done|]. by apply Hiff.
    + rewrite decide_False; [done|]. intros [? Hc]. apply Hiff in Hc as [? ?]. by apply Hno.
Qed.

(** The count of the join is the count of the specification. *)
Lemma count_correct_spec attempt_id db :
  unique_on QuestionVersion.key (question_versions db) →
  count_correct attempt_id db = spec_correct attempt_id db.
Proof.
  intros Hu. unfold count_correct, spec_correct, answers_of. f_equal.
  induction (answers db) as [|a l IH]; [done|].
  simpl. rewrite filter_app, length_app, IH.
  rewrite (filter_pair_fmap _ a (question_versions db)).
  rewrite (count_correct_one attempt_id db a _ (λ v, reflexivity _) Hu).
  rewrite (filter_cons (λ a0, Answer.attempt_id a0 = attempt_id)).
  destruct (decide (Answer.attempt_id a = attempt_id)) as [Ha|Ha].
  - rewrite filter_cons. destruct (decide (answered_correctly db a)).
    + by rewrite decide_True.
    + rewrite decide_False; [done|]. by intros [_ ?].
  - rewrite decide_False; [done|]. by intros [? _].
Qed.

Lemma get_test_course_found test_id test course s :
  head (select_test_course test_id (view s)) = Some (test, course) →
  get_test_course test_id s = (Ok (test, course), s).
Proof.
  intros H. unfold get_test_course, bind, execute.
  destruct (select_test_course test_id (view s)) as [|row rows]; by simplify_eq/=.
Qed.

Lemma ensure_teacher_or_perm_allowed course current perm s :
  Course.teacher_id course = user_id current ∨ perm ∈ permissions current →
  ensure_teacher_or_perm course current perm s = (Ok (), s).
Proof.
  intros H. unfold ensure_teacher_or_perm. case_decide; [done|].
  destruct H as [?|H]; [done|].
  unfold has_perm. by rewrite bool_decide_true.
Qed.

(** The rounding of the handler is rounding: the value of [py_round_div] is
    within one half of the quotient, and even at a tie. *)
Lemma py_round_div_rounds n d : 0 < d → rounds_to n d (py_round_div n d).
Proof.
  intros Hd. unfold rounds_to, py_round_div.
  pose proof (Z.div_mod n d ltac:(lia)) as Hdm.
  pose proof (Z.mod_pos_bound n d Hd) as Hr.
  set (q := n `div` d) in *. set (r := n `mod` d) in *.
  assert (n - q * d = r) as Hq by lia.
  assert (n - (q + 1) * d = r - d) as Hq1 by lia.
  destruct (decide (2 * r < d)) as [Hlt|Hge].
  - rewrite Hq. split; lia.
  - destruct (decide (d < 2 * r)) as [Hgt|Hle].
    + rewrite Hq1. split; lia.
    + destruct (Z.even q) eqn:Hev.
      * rewrite Hq. split; [lia|done].
      * rewrite Hq1. split; [lia|]. intros _.
        rewrite Z.add_1_r, Z.even_succ, <- Z.negb_even. by rewrite Hev.
Qed.

(** No other integer is [n / d] rounded. *)
Lemma rounds_to_unique n d g1 g2 :
  0 < d → rounds_to n d g1 → rounds_to n d g2 → g1 = g2.
Proof.
  assert (∀ a b, 0 < d → rounds_to n d a → rounds_to n d b → a < b → False) as Hlt.
  { intros a b Hd [Ha Hae] [Hb Hbe] Hab.
    assert (d ≤ (b - a) * d) as Hstep by nia.
    assert (b = a + 1) as -> by nia.
    assert (2 * Z.abs (n - a * d) = d) as Hta by lia.
    assert (2 * Z.abs (n - (a + 1) * d) = d) as Htb by lia.
    specialize (Hae Hta). specialize (Hbe Htb).
    rewrite Z.add_1_r, Z.even_succ, <- Z.negb_even, Hae in Hbe. discriminate. }
  intros Hd H1 H2.
  destruct (Z.lt_trichotomy g1 g2) as [Hc|[Hc|Hc]]; [|done|].
  - exfalso. by apply (Hlt g1 g2).
  - exfalso. by apply (Hlt g2 g1).
Qed.

(** C2. For the attempt of a user on a test, [test_user_grade] (called by
    the teacher of the course or a holder of test:answer:read) reports as
    [total] the number of answers of the attempt, as [correct] the number of
    those that are not -1 and equal the correct index of the version they
    pin, and as [grade_percent] the rounded [100 * correct / total], 0 when
    there is no answer.  The grade reported for a total that is not 0 is
    [100 * correct / total] rounded: the one integer within one half of the
    quotient and even at a tie.  With correct indexes 1, 0, 2, 1 pinned and
    answers 1, -1, 2, 0 the report is correct = 2, total = 4,
    grade_percent = 50. *)
Theorem test_user_grade_spec :
  (∀ test_id uid current test course attempt db,
     head (select_test_course test_id db) = Some (test, course) →
     Course.teacher_id course = user_id current ∨ "test:answer:read" ∈ permissions current →
     select_attempt_of (Test.id test) uid db = [attempt] →
     unique_on QuestionVersion.key (question_versions db) →
     let total := spec_total (Attempt.id attempt) db in
     let correct := spec_correct (Attempt.id attempt) db in
     get_session (test_user_grade test_id uid current) db
     = (Ok (grade_report (Test.id test) uid (Attempt.id attempt)
              correct total (spec_grade_percent correct total)), db))
  ∧ (∀ correct total,
       (total = 0 → spec_grade_percent correct total = 0)
       ∧ (0 < total →
          rounds_to (100 * correct) total (spec_grade_percent correct total)
          ∧ ∀ g, rounds_to (100 * correct) total g → g = spec_grade_percent correct total))
  ∧ ((λ a, QuestionVersion.correct_index <$> pinned_version a Demo.db_answered)
       <$> answers_of 1 Demo.db_answered = [Some 1; Some 0; Some 2; Some 1]
     ∧ Answer.answer_index <$> answers_of 1 Demo.db_answered = [1; -1; 2; 0]
     ∧ get_session (test_user_grade 1 20 Demo.teacher) Demo.db_answered
       = (Ok (grade_report 1 20 1 2 4 50), Demo.db_answered)).
Proof.
  split; [|split; [|by vm_compute]].
  2: { intros correct total. unfold spec_grade_percent. split.
       - intros ->. by rewrite decide_True.
       - intros Ht. rewrite decide_False by lia.
         split; [by apply py_round_div_rounds|].
         intros g Hg. apply (rounds_to_unique (100 * correct) total); try done.
         by apply py_round_div_rounds. }
  intros test_id uid current test course attempt db Hrow Hauth Hatt Hu total correct.
  unfold get_session, test_user_grade.
  rewrite (bind_Ok _ _ _ _ _ (get_test_course_found test_id test course (mkSession db db) Hrow)).
  rewrite (bind_Ok _ _ _ _ _ (ensure_teacher_or_perm_allowed _ _ _ _ Hauth)).
  unfold bind at 1, execute at 1. simpl. rewrite Hatt.
  unfold bind at 1. rewrite scalar_one_or_none_single.
  unfold bind at 1, execute at 1. simpl.
  change (count_answers (Attempt.id attempt) db) with total.
  unfold spec_grade_percent. destruct (decide (total = 0)) as [H0|H0].
  - assert (correct = 0) as ->.
    { subst correct. unfold spec_correct. unfold total, spec_total in H0.
      destruct (answers_of (Attempt.id attempt) db); [done|simpl in H0; lia]. }
    unfold ret. by rewrite H0.
  - unfold bind, execute, ret. simpl.
    by rewrite (count_correct_spec _ _ Hu).
Qed.

Lemma test_user_grade_spec_witness :
  get_session (test_user_grade 1 20 Demo.teacher) Demo.db_answered
  = (Ok (grade_report 1 20 1 (spec_correct 1 Demo.db_answered) (spec_total 1 Demo.db_answered)
           (spec_grade_percent (spec_correct 1 Demo.db_answered) (spec_total 1 Demo.db_answered))),
     Demo.db_answered)
  ∧ spec_correct 1 Demo.db_answered = 2 ∧ spec_total 1 Demo.db_answered = 4
  ∧ spec_grade_percent 2 4 = 50
  ∧ (rounds_to (100 * 3) 8 (spec_grade_percent 3 8)
     ∧ ∀ g, rounds_to (100 * 3) 8 g → g = spec_grade_percent 3 8)
  ∧ spec_grade_percent 3 8 = 38 ∧ spec_grade_percent 1 8 = 12.
Proof.
  split; [|split_and!; try by vm_compute].
  - apply (proj1 test_user_grade_spec 1 20 Demo.teacher (Test.mk 1 1 true false)
             (Course.mk 1 10 false) (Attempt.mk 1 1 20 "in_progress") Demo.db_answered).
    + reflexivity.
    + left. reflexivity.
    + reflexivity.
    + apply (bool_decide_unpack _). vm_compute. exact I.
  - apply (proj2 (proj1 (proj2 test_user_grade_spec) 3 8)). lia.
Defined.

(** ** Publishing a version *)

Lemma sql_max_ge (l : list Z) (m x : Z) : sql_max l = Some m → x ∈ l → x ≤ m.
Proof.
  destruct l as [|z l]; [done|]. simpl. intros [= <-] Hx.
  revert Hx. generalize z. clear z.
  induction l as [|y l IH]; intros z Hx.
  - apply list_elem_of_singleton in Hx as ->. simpl. lia.
  - simpl. apply elem_of_cons in Hx as [->|Hx].
    + specialize (IH z (list_elem_of_here _ _)). lia.
    + apply elem_of_cons in Hx as [->|Hx]; [lia|].
      specialize (IH z (list_elem_of_further _ _ _ Hx)). lia.
Qed.

Lemma sql_max_None (l : list Z) : sql_max l = None → l = [].
Proof. by destruct l. Qed.

(** Every version of a question is below the one [question_update] gives next. *)
Lemma version_below_next id db v :
  v ∈ question_versions db → QuestionVersion.question_id v = id →
  QuestionVersion.version v < default 0 (max_version id db) + 1.
Proof.
  intros Hin Hid. unfold max_version.
  assert (QuestionVersion.version v ∈ QuestionVersion.version <$>
            filter (λ v, QuestionVersion.question_id v = id) (question_versions db)) as Hv.
  { apply list_elem_of_fmap_2. by apply list_elem_of_filter. }
  destruct (sql_max _) as [m|] eqn:Hm.
  - apply (sql_max_ge _ _ _ Hm) in Hv. simpl. lia.
  - apply sql_max_None in Hm. rewrite Hm in Hv. by apply elem_of_nil in Hv.
Qed.

Lemma question_update_inv str_strip id title text optionsCsv correctIndex current db r db' :
  get_session (question_update str_strip id title text optionsCsv correctIndex current) db
  = (Ok r, db') →
  ∃ options,
    let next_version := default 0 (max_version id db) + 1 in
    db' = with_question_versions
            (λ rows, rows ++ [QuestionVersion.mk id next_version title text options correctIndex])
            db
    ∧ question_versions_ok db'
    ∧ r = [("id", VInt id); ("version", VInt next_version)].
Proof.
  unfold get_session. destruct (question_update _ _ _ _ _ _ _ _) as [r0 s] eqn:E.
  intros H. simplify_eq. unfold question_update in E.
  apply bind_inv_Ok in E as (rows & s1 & E1 & E).
  apply execute_inv in E1 as [-> ->]. simpl in E.
  apply bind_inv_Ok in E as (q & s1 & E1 & E).
  apply scalar_one_or_none_inv in E1 as [-> [[Hr ->]|(q0 & Hr & ->)]]; [discriminate|].
  destruct (_ && _); [discriminate|].
  set (options := filter (λ o, o ≠ "") (str_strip <$> str_split_comma optionsCsv)) in *.
  exists options.
  destruct (decide (Z.of_nat (length options) < 2)); [discriminate|].
  destruct (decide (correctIndex < 0 ∨ Z.of_nat (length options) ≤ correctIndex));
    [discriminate|].
  apply bind_inv_Ok in E as (cm & s1 & E1 & E).
  apply execute_inv in E1 as [-> ->]. simpl in E.
  apply bind_inv_Ok in E as (u & s1 & E1 & E).
  unfold statement in E1. simpl in E1. case_decide; [|discriminate].
  simplify_eq. unfold bind, commit, ret in E. simplify_eq. simpl.
  split_and!; done.
Qed.

Lemma filter_ext_Forall {A : Type} (P Q : A → Prop)
    `{!∀ x, Decision (P x), !∀ x, Decision (Q x)} (l : list A) :
  Forall (λ x, P x ↔ Q x) l → filter P l = filter Q l.
Proof.
  induction 1 as [|x l Hx _ IH]; [done|].
  rewrite !filter_cons, IH. apply decide_ext. exact Hx.
Qed.

Lemma pinned_version_after_insert db a new :
  (Answer.question_id a, Answer.question_version a)
    ∈ QuestionVersion.key <$> question_versions db →
  (∀ v, v ∈ question_versions db →
        QuestionVersion.question_id v = QuestionVersion.question_id new →
        QuestionVersion.version v < QuestionVersion.version new) →
  pinned_version a (with_question_versions (λ rows, rows ++ [new]) db) = pinned_version a db.
Proof.
  intros Hfk Hnew. unfold pinned_version. simpl. rewrite filter_app.
  rewrite (filter_cons_False _ new), filter_nil, app_nil_r; [done|].
  intros Hk. apply list_elem_of_fmap in Hfk as (v & Hv & Hin).
  unfold QuestionVersion.key in *. simplify_eq.
  specialize (Hnew v Hin). lia.
Qed.

(** The handler reads the store through four tables and the count of the join. *)
Lemma test_user_grade_view test_id uid grader s1 s2 :
  tests (view s1) = tests (view s2) → courses (view s1) = courses (view s2) →
  attempts (view s1) = attempts (view s2) → answers (view s1) = answers (view s2) →
  (∀ attempt_id, count_correct attempt_id (view s1) = count_correct attempt_id (view s2)) →
  (test_user_grade test_id uid grader s1).1 = (test_user_grade test_id uid grader s2).1.
Proof.
  intros Ht Hc Ha Hans Hcount.
  unfold test_user_grade, get_test_course, bind, execute, select_test_course,
    select_attempt_of, count_answers.
  rewrite Ht, Hc.
  destruct (filter _ (list_prod _ _)) as [|[test course] rows]; [done|].
  unfold ensure_teacher_or_perm, ret. simpl.
  destruct (decide (Course.teacher_id course = user_id grader)) as [?|?];
    [|destruct (negb _); [done|]]; simpl; rewrite Ha;
    (destruct (filter _ (attempts (view s2))) as [|a [|a' rows']]; [done| |done]);
    simpl; rewrite Hans; (case_decide; [done|]); simpl; by rewrite Hcount.
Qed.

Lemma keeps_test_user_grade test_id uid grader :
  keeps_committed (test_user_grade test_id uid grader).
Proof.
  unfold test_user_grade, get_test_course, ensure_teacher_or_perm. repeat keeps_step.
Qed.

(** C1. Publishing a version with [question_update] appends a row whose
    version is above every version the question had; an answer written
    before keeps pinning the row it pinned, and [test_user_grade] gives, for
    every test, user and caller, the report (or the error) it gave before:
    the correct count and the grade of every attempt are unchanged. *)
Theorem question_update_keeps_grades str_strip id title text optionsCsv correctIndex
    current db r db' :
  db_ok db →
  get_session (question_update str_strip id title text optionsCsv correctIndex current) db
  = (Ok r, db') →
  (∃ v2, question_versions db' = question_versions db ++ [v2]
         ∧ QuestionVersion.question_id v2 = id
         ∧ QuestionVersion.correct_index v2 = correctIndex
         ∧ ∀ v1, v1 ∈ question_versions db → QuestionVersion.question_id v1 = id →
                 QuestionVersion.version v1 < QuestionVersion.version v2)
  ∧ answers db' = answers db
  ∧ (∀ a, a ∈ answers db → pinned_version a db' = pinned_version a db)
  ∧ (∀ attempt_id, spec_correct attempt_id db' = spec_correct attempt_id db)
  ∧ (∀ test_id uid grader,
       get_session (test_user_grade test_id uid grader) db'
       = ((get_session (test_user_grade test_id uid grader) db).1, db')).
Proof.
  intros Hok Hrun.
  destruct (question_update_inv _ _ _ _ _ _ _ _ _ _ Hrun) as (options & Hdb' & Hqv' & _).
  simpl in Hdb'.
  set (v2 := QuestionVersion.mk id (default 0 (max_version id db) + 1) title text options
               correctIndex) in *.
  assert (∀ v1, v1 ∈ question_versions db → QuestionVersion.question_id v1 = id →
                QuestionVersion.version v1 < QuestionVersion.version v2) as Hbelow.
  { intros v1 Hin Hid. by apply version_below_next. }
  destruct Hok as (_ & _ & (Hu & _) & _ & _ & _ & _ & (_ & _ & _ & Hfk & _)).
  assert (∀ a, a ∈ answers db → pinned_version a db' = pinned_version a db) as Hpin.
  { intros a Ha. subst db'. apply pinned_version_after_insert.
    - unfold references in Hfk. rewrite Forall_forall in Hfk. by apply Hfk.
    - exact Hbelow. }
  assert (∀ attempt_id, spec_correct attempt_id db' = spec_correct attempt_id db) as Hspec.
  { intros attempt_id. unfold spec_correct.
    replace (answers_of attempt_id db') with (answers_of attempt_id db) by (by subst db').
    f_equal. f_equal. apply filter_ext_Forall. apply Forall_forall. intros a Ha.
    unfold answers_of in Ha. apply list_elem_of_filter in Ha as [_ Ha].
    unfold answered_correctly. by rewrite (Hpin a Ha). }
  split_and!.
  - exists v2. subst db'. done.
  - by subst db'.
  - exact Hpin.
  - exact Hspec.
  - intros test_id uid grader. unfold get_session.
    pose proof (test_user_grade_view test_id uid grader (mkSession db' db') (mkSession db db))
      as Hview.
    destruct (test_user_grade test_id uid grader (mkSession db' db')) as [r1 s1] eqn:E1.
    destruct (test_user_grade test_id uid grader (mkSession db db)) as [r2 s2] eqn:E2.
    simpl in *. f_equal.
    + apply Hview; try (by subst db').
      intros attempt_id. rewrite !count_correct_spec; [apply Hspec|exact Hu|].
      by destruct Hqv' as (? & _).
    + by apply keeps_test_user_grade in E1.
Qed.

Lemma question_update_keeps_grades_witness :
  question_versions Demo.db_revised
  = question_versions Demo.db_answered ++ [QuestionVersion.mk 1 2 "q1" "first" ["a"; "b"; "c"] 0]
  ∧ Answer.answer_index <$> select_answer 1 Demo.db_revised = [1]
  ∧ get_session (test_user_grade 1 20 Demo.teacher) Demo.db_revised
    = (Ok (grade_report 1 20 1 2 4 50), Demo.db_revised).
Proof.
  destruct (question_update_keeps_grades Demo.ascii_strip 1 "q1" "first" "a, b, c" 0
              Demo.teacher Demo.db_answered [("id", VInt 1); ("version", VInt 2)]
              Demo.db_revised) as (_ & _ & _ & _ & Hgrade).
  - apply (bool_decide_unpack _). vm_compute. exact I.
  - vm_compute. reflexivity.
  - split; [reflexivity|]. split; [reflexivity|].
    rewrite Hgrade. vm_compute. reflexivity.
Defined.

(** ** The snapshot loop goes through on a store that keeps its constraints *)

Lemma sql_max_in (l : list Z) (m : Z) : sql_max l = Some m → m ∈ l.
Proof.
  destruct l as [|z l]; [done|]. simpl. intros [= <-].
  revert z. induction l as [|y l IH]; intros z; simpl.
  - apply list_elem_of_here.
  - destruct (Z.max_spec y (foldr Z.max z l)) as [[_ ->]|[_ ->]].
    + specialize (IH z). apply elem_of_cons in IH as [->|IH].
      * apply list_elem_of_here.
      * by do 2 apply list_elem_of_further.
    + apply list_elem_of_further, list_elem_of_here.
Qed.

Lemma max_version_row q db v :
  max_version q db = Some v →
  ∃ row, row ∈ question_versions db ∧ QuestionVersion.key row = (q, v).
Proof.
  unfold max_version. intros H. apply sql_max_in in H.
  apply list_elem_of_fmap in H as (row & -> & Hrow).
  apply list_elem_of_filter in Hrow as [Hq Hin].
  exists row. split; [done|]. unfold QuestionVersion.key. by rewrite Hq.
Qed.

Lemma NoDup_snoc {A : Type} (l : list A) (x : A) : NoDup l → x ∉ l → NoDup (l ++ [x]).
Proof.
  intros Hl Hx. apply NoDup_app. split_and!; [done| |apply NoDup_singleton].
  intros y Hy Hy'. apply list_elem_of_singleton in Hy' as ->. done.
Qed.

Lemma loop_ready_step attempt_id q p rest db v :
  loop_ready attempt_id ((q, p) :: rest) db →
  max_version q db = Some v →
  let db1 := with_attempt_questions
               (λ rows, rows ++ [AttemptQuestion.mk attempt_id q v p]) db in
  let db2 := with_answers
               (λ rows, rows ++ [Answer.mk (fresh_id (Answer.id <$> answers db))
                                   attempt_id q v (-1)]) db1 in
  attempt_questions_ok db1 ∧ answers_ok db2 ∧ loop_ready attempt_id rest db2.
Proof.
  intros (Haq & Hans & Hatt & Hchk & Hnd1 & Hnd2 & Hall) Hv db1 db2.
  destruct (max_version_row _ _ _ Hv) as (row & Hrow & Hkey).
  assert (int4 v) as Hv4.
  { rewrite Forall_forall in Hchk. destruct (Hchk row Hrow) as (_ & _ & _ & _ & H4 & _).
    unfold QuestionVersion.key in Hkey. by simplify_eq. }
  assert ((q, v) ∈ QuestionVersion.key <$> question_versions db) as Hfk.
  { rewrite <- Hkey. by apply list_elem_of_fmap_2. }
  apply Forall_cons in Hall as [(Hk1 & Hk2 & Hk3 & _ & Hp0 & Hp4) Hall]. simpl in *.
  apply NoDup_cons in Hnd1 as [Hq Hnd1]. apply NoDup_cons in Hnd2 as [Hp Hnd2].
  destruct Haq as (Ha1 & Ha2 & Ha3 & Ha4 & Ha5).
  destruct Hans as (Hb1 & Hb2 & Hb3 & Hb4 & Hb5).
  assert (attempt_questions_ok db1) as Haq1.
  { unfold attempt_questions_ok, unique_on, references in *. simpl.
    rewrite !fmap_app. simpl. split_and!.
    - by apply NoDup_snoc.
    - by apply NoDup_snoc.
    - apply Forall_app. split; [done|]. by apply Forall_singleton.
    - apply Forall_app. split; [done|]. by apply Forall_singleton.
    - apply Forall_app. split; [done|]. by apply Forall_singleton. }
  assert (answers_ok db2) as Hans2.
  { unfold answers_ok, unique_on, references in *. simpl.
    rewrite !fmap_app. simpl. split_and!.
    - apply NoDup_snoc; [done|]. apply fresh_id_fresh.
    - by apply NoDup_snoc.
    - apply Forall_app. split; [done|]. by apply Forall_singleton.
    - apply Forall_app. split; [done|]. by apply Forall_singleton.
    - apply Forall_app. split; [done|]. apply Forall_singleton. simpl.
      unfold int4 in *. lia. }
  split; [done|]. split; [done|].
  unfold loop_ready. split_and!; try done.
  apply Forall_forall. intros [q' p'] Hin. rewrite Forall_forall in Hall.
  destruct (Hall _ Hin) as (H1 & H2 & H3 & H4 & H5 & H6). simpl in *.
  assert (q' ≠ q) as Hq'.
  { intros ->. apply Hq. by apply (list_elem_of_fmap_2 fst _ (q, p')). }
  assert (p' ≠ p) as Hp'.
  { intros ->. apply Hp. by apply (list_elem_of_fmap_2 snd _ (q', p)). }
  rewrite !fmap_app. simpl. split_and!; try done.
  - rewrite elem_of_app, list_elem_of_singleton. intros [?|?]; [done|]. by simplify_eq.
  - rewrite elem_of_app, list_elem_of_singleton. intros [?|?]; [done|]. by simplify_eq.
  - rewrite elem_of_app, list_elem_of_singleton. intros [?|?]; [done|]. by simplify_eq.
Qed.

Lemma with_snapshot_nil attempt_id db : with_snapshot attempt_id [] db = db.
Proof.
  destruct db. unfold with_snapshot, with_answers, with_attempt_questions, snapshot_rows,
    blank_answers. simpl. by rewrite !app_nil_r.
Qed.

Lemma attempt_create_loop_ready attempt_id tq_rows c db :
  loop_ready attempt_id tq_rows db →
  attempt_create_loop attempt_id tq_rows (mkSession c db)
  = (Ok (), mkSession c (with_snapshot attempt_id tq_rows db)).
Proof.
  revert db. induction tq_rows as [|[q p] rest IH]; intros db Hready.
  - cbn. unfold ret. by rewrite with_snapshot_nil.
  - assert (is_Some (max_version q db)) as [v Hv].
    { destruct Hready as (_ & _ & _ & _ & _ & _ & Hall).
      apply Forall_cons in Hall as [(_ & _ & _ & Hs & _) _]. exact Hs. }
    destruct (loop_ready_step _ _ _ _ _ _ Hready Hv) as (Haq1 & Hans2 & Hrest).
    cbn [attempt_create_loop]. unfold bind at 1, execute at 1. simpl. rewrite Hv.
    unfold bind at 1, add_attempt_question, statement. simpl.
    rewrite decide_True by exact Haq1.
    unfold bind at 1, add_answer, bind at 1, execute, statement. simpl.
    rewrite decide_True by exact Hans2.
    rewrite (IH _ Hrest). by rewrite with_snapshot_cons.
Qed.

Lemma NoDup_filter_snd {A K1 K2 : Type} `{EqDecision K1} (f : A → K1) (g : A → K2)
    (t : K1) (l : list A) :
  NoDup ((λ r, (f r, g r)) <$> l) → NoDup (g <$> filter (λ r, f r = t) l).
Proof.
  induction l as [|a l IH]; intros Hnd; [constructor|].
  rewrite fmap_cons in Hnd. apply NoDup_cons in Hnd as [Hnotin Hnd].
  rewrite filter_cons. case_decide as Ht; [|by apply IH].
  rewrite fmap_cons. apply NoDup_cons. split; [|by apply IH].
  intros Hin. apply Hnotin. apply list_elem_of_fmap in Hin as (b & Hg & Hb).
  apply list_elem_of_filter in Hb as [Hfb Hb].
  apply list_elem_of_fmap. exists b. split; [|done]. congruence.
Qed.

Lemma ordered_test_questions_perm test_id db :
  ordered_test_questions test_id db
  ≡ₚ (λ r, (TestQuestion.question_id r, TestQuestion.position r))
       <$> select_test_questions test_id db.
Proof. unfold ordered_test_questions. apply merge_sort_Permutation. Qed.

Lemma references_grow {A B K : Type} (fk : A → K) rows (pk : B → K) target extra :
  references fk rows pk target → references fk rows pk (target ++ extra).
Proof.
  unfold references. intros H. eapply Forall_impl; [exact H|].
  intros r Hr. rewrite fmap_app. apply elem_of_app. by left.
Qed.

(** The store after the INSERT of the attempt is ready for the loop. *)
Lemma loop_ready_after_insert test_id uid db test :
  db_ok db →
  select_test test_id db = [test] →
  select_attempt_of test_id uid db = [] →
  Forall (λ tq, is_Some (max_version (TestQuestion.question_id tq) db))
         (select_test_questions test_id db) →
  let attempt := Attempt.mk (fresh_id (Attempt.id <$> attempts db)) test_id uid "in_progress" in
  let db1 := with_attempts (λ rows, rows ++ [attempt]) db in
  attempts_ok db1 ∧ loop_ready (Attempt.id attempt) (ordered_test_questions test_id db) db1.
Proof.
  intros (_ & _ & Hqv & _ & Htq & Hatt & Haq & Hans) Htest Hnone Hvers attempt db1.
  pose proof (fresh_id_fresh (Attempt.id <$> attempts db)) as Hfresh.
  destruct Hatt as (Ht1 & Ht2 & Ht3 & Ht4).
  split.
  - unfold attempts_ok, unique_on, references in *. simpl. rewrite !fmap_app. simpl.
    split_and!.
    + by apply NoDup_snoc.
    + apply NoDup_snoc; [done|]. intros Hin.
      apply list_elem_of_fmap in Hin as (a & Ha & Hin).
      assert (a ∈ select_attempt_of test_id uid db) as Hsel.
      { apply list_elem_of_filter. split; [|done]. by simplify_eq. }
      rewrite Hnone in Hsel. by apply elem_of_nil in Hsel.
    + apply Forall_app. split; [done|]. apply Forall_singleton. simpl.
      assert (test ∈ select_test test_id db) as Hin
        by (rewrite Htest; apply list_elem_of_here).
      apply list_elem_of_filter in Hin as [[<- _] Hin]. by apply list_elem_of_fmap_2.
    + apply Forall_app. split; [done|]. apply Forall_singleton. by left.
  - destruct Haq as (Ha1 & Ha2 & Ha3 & Ha4 & Ha5).
    destruct Hans as (Hb1 & Hb2 & Hb3 & Hb4 & Hb5).
    destruct Htq as (Hq1 & Hq2 & _ & _ & Hq5).
    destruct Hqv as (_ & _ & Hchk).
    pose proof (ordered_test_questions_perm test_id db) as Hperm.
    unfold loop_ready. split_and!.
    + unfold attempt_questions_ok. split_and!; try done. by apply references_grow.
    + unfold answers_ok. split_and!; try done. by apply references_grow.
    + simpl. rewrite fmap_app. apply elem_of_app. right. apply list_elem_of_here.
    + exact Hchk.
    + rewrite Hperm, <- list_fmap_compose.
      apply (NoDup_filter_snd TestQuestion.test_id TestQuestion.question_id). exact Hq1.
    + rewrite Hperm, <- list_fmap_compose.
      apply (NoDup_filter_snd TestQuestion.test_id TestQuestion.position). exact Hq2.
    + rewrite Hperm. apply Forall_fmap. apply Forall_forall. intros tq Hin. simpl.
      rewrite Forall_forall in Hvers. specialize (Hvers _ Hin).
      apply list_elem_of_filter in Hin as [_ Hin].
      rewrite Forall_forall in Hq5. destruct (Hq5 _ Hin) as [Hp0 Hp4].
      unfold references in Ha3, Hb3. rewrite Forall_forall in Ha3. rewrite Forall_forall in Hb3.
      split_and!; try done.
      * intros Hk. apply list_elem_of_fmap in Hk as (r & Hr & Hrin).
        apply Hfresh. specialize (Ha3 _ Hrin). simpl in Hr.
        injection Hr as Hr1 Hr2. by rewrite Hr1.
      * intros Hk. apply list_elem_of_fmap in Hk as (r & Hr & Hrin).
        apply Hfresh. specialize (Ha3 _ Hrin). simpl in Hr.
        injection Hr as Hr1 Hr2. by rewrite Hr1.
      * intros Hk. apply list_elem_of_fmap in Hk as (r & Hr & Hrin).
        apply Hfresh. specialize (Hb3 _ Hrin). simpl in Hr.
        injection Hr as Hr1 Hr2. by rewrite Hr1.
Qed.

(** On a store that keeps its constraints, a first [attempt_create] on an
    active test with questions that all have a version goes through. *)
Lemma attempt_create_succeeds test_id current db test :
  db_ok db →
  select_test test_id db = [test] → Test.is_active test = true →
  select_attempt_of test_id (user_id current) db = [] →
  select_test_questions test_id db ≠ [] →
  Forall (λ tq, is_Some (max_version (TestQuestion.question_id tq) db))
         (select_test_questions test_id db) →
  get_session (attempt_create test_id current) db
  = (Ok [("id", VInt (fresh_id (Attempt.id <$> attempts db)))],
     with_new_attempt test_id (user_id current) db).
Proof.
  intros Hok Htest Hact Hnone Hsome Hvers.
  destruct (loop_ready_after_insert _ _ _ _ Hok Htest Hnone Hvers) as [Hatt Hready].
  unfold get_session, attempt_create.
  unfold bind at 1, execute at 1. simpl. rewrite Htest.
  unfold bind at 1. rewrite scalar_one_or_none_single. rewrite Hact. simpl.
  unfold bind at 1, execute at 1. simpl. rewrite Hnone.
  unfold bind at 1. simpl.
  unfold bind at 1, add_attempt, bind at 1, execute at 1. simpl.
  unfold bind at 1, statement. simpl. rewrite decide_True by exact Hatt. simpl.
  unfold bind at 1, execute at 1. simpl.
  change (ordered_test_questions test_id (with_attempts _ db))
    with (ordered_test_questions test_id db).
  destruct (ordered_test_questions test_id db) as [|qp rows] eqn:Hrows.
  { exfalso. pose proof (ordered_test_questions_perm test_id db) as Hperm.
    rewrite Hrows in Hperm. symmetry in Hperm. apply Permutation_nil_r in Hperm.
    apply fmap_nil_inv in Hperm. done. }
  rewrite (bind_Ok _ _ _ _ _ (attempt_create_loop_ready _ _ _ _ Hready)).
  unfold bind, commit, ret. simpl. unfold with_new_attempt. simpl. by rewrite Hrows.
Qed.

(** ** What the new attempt consists of *)

Lemma blank_answers_content attempt_id first tq_rows db :
  answer_content <$> blank_answers attempt_id first tq_rows db
  = (λ qp, (attempt_id, qp.1, pinned_now qp.1 db, -1)) <$> tq_rows.
Proof.
  revert first. induction tq_rows as [|[q p] rest IH]; intros first; [done|].
  unfold blank_answers at 1. simpl. f_equal.
  etrans; [|exact (IH (first + 1))]. unfold blank_answers.
  change (list_fmap _ _ answer_content ?l) with (answer_content <$> l). f_equal.
  apply imap_ext. intros k [q' p'] _. simpl. f_equal. lia.
Qed.

Lemma with_new_attempt_tables test_id uid db :
  let new_id := fresh_id (Attempt.id <$> attempts db) in
  let db' := with_new_attempt test_id uid db in
  attempts db' = attempts db ++ [Attempt.mk new_id test_id uid "in_progress"]
  ∧ (∃ aqs, attempt_questions db' = attempt_questions db ++ aqs
            ∧ aqs ≡ₚ snapshot_of new_id db <$> select_test_questions test_id db)
  ∧ (∃ new_answers, answers db' = answers db ++ new_answers
            ∧ answer_content <$> new_answers
              ≡ₚ blank_of new_id db <$> select_test_questions test_id db)
  ∧ courses db' = courses db ∧ questions db' = questions db
  ∧ question_versions db' = question_versions db
  ∧ tests db' = tests db ∧ test_questions db' = test_questions db.
Proof.
  intros new_id db'. unfold db', with_new_attempt, with_snapshot. simpl.
  set (db1 := with_attempts _ db).
  assert (question_versions db1 = question_versions db) as Hq by reflexivity.
  pose proof (ordered_test_questions_perm test_id db) as Hperm.
  split_and!; try done.
  - eexists. split; [done|].
    rewrite (snapshot_rows_versions _ _ db1 db Hq). unfold snapshot_rows.
    rewrite Hperm, <- list_fmap_compose. done.
  - eexists. split; [done|].
    rewrite (blank_answers_versions _ _ _ db1 db Hq), blank_answers_content.
    rewrite Hperm, <- list_fmap_compose. done.
Qed.



(** ** The handlers at work on the concrete course *)

Example test_question_add_runs :
  get_session (test_question_add 1 5 Demo.teacher) Demo.db_fresh
  = (Ok [("status", VStr "ok"); ("position", VInt 4)],
     with_test_questions (λ rows, rows ++ [TestQuestion.mk 1 5 4]) Demo.db_fresh).
Proof. vm_compute. reflexivity. Qed.

Example test_question_add_twice :
  get_session (test_question_add 1 2 Demo.teacher) Demo.db_fresh
  = (Raise (HTTPException 400 "Bad Request"
       [("message", "Question already in test or position conflict")]), Demo.db_fresh).
Proof. vm_compute. reflexivity. Qed.

Example test_question_del_runs :
  (get_session (test_question_del 1 1 Demo.teacher) Demo.db_fresh).1 = Ok [("status", VStr "ok")]
  ∧ test_questions Demo.db_shortened
    = [TestQuestion.mk 1 2 1; TestQuestion.mk 1 3 2; TestQuestion.mk 1 4 3].
Proof. vm_compute. done. Qed.

(** Reordering goes through when no UPDATE of the loop lands on a position
    that is still taken: the order the test already has, or any order once
    position 0 has been freed. *)
Example test_question_order_same_order :
  get_session (test_question_order Demo.ascii_strip Demo.decimal_int 1 "1, 2, 3, 4" Demo.teacher)
    Demo.db_fresh
  = (Ok [("status", VStr "ok")], Demo.db_fresh).
Proof. vm_compute. reflexivity. Qed.

Example test_question_order_after_removal :
  let r := get_session
             (test_question_order Demo.ascii_strip Demo.decimal_int 1 "3,2,4" Demo.teacher)
             Demo.db_shortened in
  r.1 = Ok [("status", VStr "ok")]
  ∧ test_questions r.2 = [TestQuestion.mk 1 2 1; TestQuestion.mk 1 3 0; TestQuestion.mk 1 4 2].
Proof. vm_compute. done. Qed.

Example test_question_order_missing_id :
  get_session (test_question_order Demo.ascii_strip Demo.decimal_int 1 "1,2,3" Demo.teacher)
    Demo.db_fresh
  = (Raise (HTTPException 400 "Bad Request"
       [("message", "Order list must contain exactly the same question ids as in test")]),
     Demo.db_fresh).
Proof. vm_compute. reflexivity. Qed.

Example attempt_create_unversioned :
  get_session (attempt_create 1 Demo.student) Demo.db_unversioned
  = (Raise (HTTPException 400 "Bad Request" [("message", "Question 1 has no versions")]),
     Demo.db_unversioned).
Proof. vm_compute. reflexivity. Qed.

Example py_round_div_ties :
  py_round_div 100 8 = 12 ∧ py_round_div 300 8 = 38 ∧ py_round_div 200 4 = 50.
Proof. vm_compute. done. Qed.

(** * The rest of the attempt's life *)

(** ** [attempt_finish] *)

Lemma filter_fmap_comm {A B : Type} (f : A → B) (P : B → Prop) `{!∀ x, Decision (P x)}
    (l : list A) :
  filter P (f <$> l) = f <$> filter (λ a, P (f a)) l.
Proof.
  induction l as [|a l IH]; [done|].
  rewrite fmap_cons, !filter_cons. destruct (decide (P (f a))); simpl; by rewrite IH.
Qed.

Lemma attempts_ok_set_status db id st :
  attempts_ok db → st = "in_progress" ∨ st = "finished" →
  attempts_ok (with_attempts
    (fmap (λ r, if decide (Attempt.id r = id) then Attempt.set_status st r else r)) db).
Proof.
  intros (Hid & Hkey & Htest & Hchk) Hst.
  unfold attempts_ok, unique_on, references in *. simpl.
  rewrite <- !list_fmap_compose, !Forall_fmap.
  split_and!.
  - erewrite list_fmap_ext; [exact Hid|]. intros k r _. simpl. by case_decide.
  - erewrite list_fmap_ext; [exact Hkey|]. intros k r _. simpl. by case_decide.
  - eapply Forall_impl; [exact Htest|]. intros r Hr. simpl. by case_decide.
  - eapply Forall_impl; [exact Hchk|]. intros r Hr. simpl. case_decide; simpl; auto.
Qed.

Lemma select_attempt_id id db a : a ∈ select_attempt id db → Attempt.id a = id.
Proof. unfold select_attempt. rewrite list_elem_of_filter. by intros [? _]. Qed.

Lemma set_status_same db id attempt :
  select_attempt id db = [attempt] →
  (λ r, if decide (Attempt.id r = id) then Attempt.set_status (Attempt.status attempt) r
        else r) <$> attempts db = attempts db.
Proof.
  intros Hsel. rewrite <- (list_fmap_id (attempts db)) at 2.
  apply list_fmap_ext. intros k r Hr. apply list_elem_of_lookup_2 in Hr.
  case_decide as Hid; [|done].
  assert (r ∈ select_attempt id db) as Hin by (by apply list_elem_of_filter).
  rewrite Hsel in Hin. apply list_elem_of_singleton in Hin as ->. by destruct attempt.
Qed.

Lemma select_attempt_set_status db id attempt st :
  select_attempt id db = [attempt] →
  select_attempt id
    (with_attempts (fmap (λ r, if decide (Attempt.id r = id)
                               then Attempt.set_status st r else r)) db)
  = [Attempt.set_status st attempt].
Proof.
  intros Hsel. unfold select_attempt in *. simpl.
  rewrite filter_fmap_comm.
  rewrite (list_filter_iff _ (λ a, Attempt.id a = id)).
  - rewrite Hsel. simpl. rewrite decide_True; [done|].
    apply (select_attempt_id _ db). unfold select_attempt. rewrite Hsel.
    by apply list_elem_of_singleton.
  - intros r. simpl. by case_decide.
Qed.

Lemma finished_same db id attempt :
  select_attempt id db = [attempt] → Attempt.status attempt = "finished" →
  with_attempts (fmap (λ r, if decide (Attempt.id r = id)
                            then Attempt.set_status "finished" r else r)) db = db.
Proof.
  intros Hsel Hfin. unfold with_attempts.
  rewrite <- Hfin. rewrite (set_status_same _ _ _ Hsel). by destruct db.
Qed.

Lemma attempt_finish_Ok attempt_id current attempt db :
  select_attempt attempt_id db = [attempt] →
  Attempt.user_id attempt = user_id current →
  attempts_ok db →
  get_session (attempt_finish attempt_id current) db
  = (Ok [("status", VStr "ok")],
     with_attempts (fmap (λ r, if decide (Attempt.id r = attempt_id)
                               then Attempt.set_status "finished" r else r)) db).
Proof.
  intros Hsel Hown Hok.
  assert (Attempt.id attempt = attempt_id) as Hid.
  { apply (select_attempt_id _ db). rewrite Hsel. by apply list_elem_of_singleton. }
  unfold get_session, attempt_finish.
  unfold bind at 1, execute at 1. simpl. rewrite Hsel.
  unfold bind at 1. rewrite scalar_one_or_none_single.
  rewrite decide_False by (by intros ?).
  case_decide as Hfin.
  - unfold ret. simpl. by rewrite (finished_same _ _ _ Hsel Hfin).
  - unfold update_attempt_status. rewrite decide_False by done.
    unfold bind at 1, statement. simpl. rewrite Hid.
    rewrite decide_True; [done|]. apply attempts_ok_set_status; auto.
Qed.

(** [attempt_finish] by the owner of an attempt succeeds, sets the status of
    that attempt to finished and changes no other row; called again it
    succeeds and writes nothing.  There is no way back: the row it leaves is
    finished whatever the status was. *)
Theorem attempt_finish_terminal attempt_id current attempt db :
  select_attempt attempt_id db = [attempt] →
  Attempt.user_id attempt = user_id current →
  attempts_ok db →
  let db' := with_attempts (fmap (λ r, if decide (Attempt.id r = attempt_id)
                                       then Attempt.set_status "finished" r else r)) db in
  get_session (attempt_finish attempt_id current) db = (Ok [("status", VStr "ok")], db')
  ∧ select_attempt attempt_id db' = [Attempt.set_status "finished" attempt]
  ∧ get_session (attempt_finish attempt_id current) db' = (Ok [("status", VStr "ok")], db')
  ∧ (Attempt.status attempt = "finished" → db' = db).
Proof.
  intros Hsel Hown Hok db'.
  pose proof (select_attempt_set_status db attempt_id attempt "finished" Hsel) as Hsel'.
  split_and!.
  - by apply (attempt_finish_Ok _ _ attempt).
  - exact Hsel'.
  - rewrite (attempt_finish_Ok _ _ _ db' Hsel' Hown).
    + f_equal. by apply (finished_same db' attempt_id _ Hsel').
    + by apply attempts_ok_set_status; auto.
  - intros Hfin. by apply (finished_same _ _ attempt).
Qed.

Lemma attempt_finish_terminal_witness :
  let db' := with_attempts (fmap (λ r, if decide (Attempt.id r = 1)
                                       then Attempt.set_status "finished" r else r))
               Demo.db_answered in
  get_session (attempt_finish 1 Demo.student) Demo.db_answered = (Ok [("status", VStr "ok")], db')
  ∧ select_attempt 1 db' = [Attempt.mk 1 1 20 "finished"]
  ∧ get_session (attempt_finish 1 Demo.student) db' = (Ok [("status", VStr "ok")], db')
  ∧ (Attempt.status (Attempt.mk 1 1 20 "in_progress") = "finished" → db' = Demo.db_answered).
Proof.
  apply (attempt_finish_terminal 1 Demo.student (Attempt.mk 1 1 20 "in_progress")
           Demo.db_answered).
  - reflexivity.
  - reflexivity.
  - apply (bool_decide_unpack _). vm_compute. exact I.
Defined.

Lemma attempt_finish_inv attempt_id current db r db' :
  get_session (attempt_finish attempt_id current) db = (r, db') →
  match r with
  | Ok body =>
      body = [("status", VStr "ok")]
      ∧ ∃ attempt, select_attempt attempt_id db = [attempt]
                   ∧ Attempt.user_id attempt = user_id current
                   ∧ db' = with_attempts
                             (fmap (λ r, if decide (Attempt.id r = attempt_id)
                                         then Attempt.set_status "finished" r else r)) db
  | Raise _ => db' = db
  end.
Proof.
  unfold get_session, attempt_finish.
  unfold bind at 1, execute at 1. simpl.
  destruct (select_attempt attempt_id db) as [|attempt [|a2 rows]] eqn:Hsel;
    unfold bind at 1; simpl.
  - intros H. by simplify_eq.
  - assert (Attempt.id attempt = attempt_id) as Hid.
    { apply (select_attempt_id _ db). rewrite Hsel. by apply list_elem_of_singleton. }
    case_decide as Hown.
    { intros H. unfold http_error, raise in H. by simplify_eq. }
    case_decide as Hfin.
    + intros H. unfold ret in H. simplify_eq. split; [done|].
      exists attempt. split_and!; [done|done|]. simpl.
      by rewrite (finished_same _ _ _ Hsel Hfin).
    + unfold update_attempt_status. rewrite decide_False by done.
      unfold bind at 1, statement. simpl. case_decide as Hok.
      * intros H. unfold bind, commit, ret in H. simpl in H. simplify_eq.
        split; [done|]. by exists attempt.
      * intros H. by simplify_eq.
  - intros H. unfold raise in H. by simplify_eq.
Qed.

(** Every outcome of [attempt_finish]: it returns only for the owner of an
    existing attempt, and then the one change is that attempt's status; any
    error, raised for whatever reason, leaves the store as it was.  No
    permission and no role opens it to anyone else. *)
Theorem attempt_finish_outcomes attempt_id current db r db' :
  get_session (attempt_finish attempt_id current) db = (r, db') →
  match r with
  | Ok body =>
      body = [("status", VStr "ok")]
      ∧ ∃ attempt, select_attempt attempt_id db = [attempt]
                   ∧ Attempt.user_id attempt = user_id current
                   ∧ db' = with_attempts
                             (fmap (λ r, if decide (Attempt.id r = attempt_id)
                                         then Attempt.set_status "finished" r else r)) db
  | Raise _ => db' = db
  end.
Proof. apply attempt_finish_inv. Qed.

Lemma attempt_finish_outcomes_witness :
  (get_session (attempt_finish 1 Demo.teacher) Demo.db_answered
   = (Raise (HTTPException 403 "Forbidden" []), Demo.db_answered)
   ∧ Demo.db_answered = Demo.db_answered)
  ∧ [("status", VStr "ok")] = [("status", VStr "ok")]
    ∧ ∃ attempt, select_attempt 1 Demo.db_answered = [attempt]
                 ∧ Attempt.user_id attempt = 20
                 ∧ Demo.db_finished
                   = with_attempts
                       (fmap (λ r, if decide (Attempt.id r = 1)
                                   then Attempt.set_status "finished" r else r))
                       Demo.db_answered.
Proof.
  split.
  - split; [reflexivity|].
    exact (attempt_finish_outcomes 1 Demo.teacher Demo.db_answered
             (Raise (HTTPException 403 "Forbidden" [])) Demo.db_answered eq_refl).
  - exact (attempt_finish_outcomes 1 Demo.student Demo.db_answered
             (Ok [("status", VStr "ok")]) Demo.db_finished eq_refl).
Defined.

(** Once [attempt_finish] has returned, the answers of the attempt are
    frozen: [answer_update] and [answer_delete] by the owner are refused with
    400 'Attempt already finished' on every answer of it, and nothing is
    written. *)
Theorem attempt_finish_freezes_answers attempt_id answer_id index current ans body db db' :
  get_session (attempt_finish attempt_id current) db = (Ok body, db') →
  select_answer answer_id db = [ans] →
  Answer.attempt_id ans = attempt_id →
  0 ≤ index →
  let finished := Raise (HTTPException 400 "Bad Request"
                           [("message", "Attempt already finished")]) in
  get_session (answer_update answer_id index current) db' = (finished, db')
  ∧ get_session (answer_delete answer_id current) db' = (finished, db').
Proof.
  intros Hfin Hans Hatt Hi finished.
  apply attempt_finish_inv in Hfin as (_ & attempt & Hsel & Hown & ->).
  pose proof (select_attempt_set_status db attempt_id attempt "finished" Hsel) as Hsel'.
  set (db' := with_attempts _ db) in *.
  assert (select_answer answer_id db' = [ans]) as Hans' by done.
  rewrite <- Hatt in Hsel'.
  unfold get_session.
  rewrite (answer_update_gates answer_id index current ans _ (mkSession db' db') Hi Hans' Hsel').
  rewrite (answer_delete_gates answer_id current ans _ (mkSession db' db') Hans' Hsel').
  split.
  - rewrite decide_False by (intros Hne; apply Hne; exact Hown).
    by rewrite decide_True by done.
  - rewrite decide_False by (intros Hne; apply Hne; exact Hown).
    by rewrite decide_True by done.
Qed.

Lemma attempt_finish_freezes_answers_witness :
  let finished := Raise (HTTPException 400 "Bad Request"
                           [("message", "Attempt already finished")]) in
  get_session (answer_update 2 1 Demo.student) Demo.db_finished = (finished, Demo.db_finished)
  ∧ get_session (answer_delete 2 Demo.student) Demo.db_finished = (finished, Demo.db_finished).
Proof.
  apply (attempt_finish_freezes_answers 1 2 1 Demo.student (Answer.mk 2 1 2 1 (-1))
           [("status", VStr "ok")] Demo.db_answered Demo.db_finished).
  - reflexivity.
  - reflexivity.
  - reflexivity.
  - lia.
Defined.

(** ** Answers: the last write wins *)

Lemma answer_update_Ok answer_id index current ans attempt db :
  select_answer answer_id db = [ans] →
  select_attempt (Answer.attempt_id ans) db = [attempt] →
  Attempt.user_id attempt = user_id current →
  Attempt.status attempt = "in_progress" →
  answers_ok db → 0 ≤ index → int4 index →
  get_session (answer_update answer_id index current) db
  = (Ok [("status", VStr "ok")],
     with_answers (fmap (λ r, if decide (Answer.id r = answer_id)
                              then Answer.set_answer_index index r else r)) db).
Proof.
  intros Hans Hatt Hown Hprog Hok Hi H4.
  rewrite <- (answer_write_Ok answer_id index ans db Hans Hok) by (done || lia).
  unfold get_session.
  rewrite (answer_update_gates answer_id index current ans attempt (mkSession db db) Hi Hans Hatt).
  rewrite decide_False by (intros Hne; apply Hne; exact Hown).
  by rewrite decide_False by (intros Hne; apply Hne; exact Hprog).
Qed.

Lemma answer_delete_Ok answer_id current ans attempt db :
  select_answer answer_id db = [ans] →
  select_attempt (Answer.attempt_id ans) db = [attempt] →
  Attempt.user_id attempt = user_id current →
  Attempt.status attempt = "in_progress" →
  answers_ok db →
  get_session (answer_delete answer_id current) db
  = (Ok [("status", VStr "ok")],
     with_answers (fmap (λ r, if decide (Answer.id r = answer_id)
                              then Answer.set_answer_index (-1) r else r)) db).
Proof.
  intros Hans Hatt Hown Hprog Hok.
  rewrite <- (answer_write_Ok answer_id (-1) ans db Hans Hok) by (unfold int4; lia).
  unfold get_session.
  rewrite (answer_delete_gates answer_id current ans attempt (mkSession db db) Hans Hatt).
  rewrite decide_False by (intros Hne; apply Hne; exact Hown).
  by rewrite decide_False by (intros Hne; apply Hne; exact Hprog).
Qed.

Lemma select_answer_set_index db id ans i :
  select_answer id db = [ans] →
  select_answer id
    (with_answers (fmap (λ r, if decide (Answer.id r = id)
                              then Answer.set_answer_index i r else r)) db)
  = [Answer.set_answer_index i ans].
Proof.
  intros Hsel. unfold select_answer in *. simpl.
  rewrite filter_fmap_comm.
  rewrite (list_filter_iff _ (λ a, Answer.id a = id)).
  - rewrite Hsel. simpl. rewrite decide_True; [done|].
    apply (select_answer_id _ db). unfold select_answer. rewrite Hsel.
    by apply list_elem_of_singleton.
  - intros r. simpl. by case_decide.
Qed.

Lemma set_index_twice db id i j :
  with_answers (fmap (λ r, if decide (Answer.id r = id)
                           then Answer.set_answer_index j r else r))
    (with_answers (fmap (λ r, if decide (Answer.id r = id)
                              then Answer.set_answer_index i r else r)) db)
  = with_answers (fmap (λ r, if decide (Answer.id r = id)
                             then Answer.set_answer_index j r else r)) db.
Proof.
  unfold with_answers. simpl. f_equal.
  rewrite <- list_fmap_compose. apply list_fmap_ext. intros k r _. simpl.
  destruct (decide (Answer.id r = id)) as [Hid|Hid]; simpl;
    [by rewrite decide_True|by rewrite decide_False].
Qed.

(** On an answer of an attempt in progress, each write of the owner replaces
    the index the previous one stored: [answer_update] with [j] after
    [answer_update] with [i] leaves the store [answer_update] with [j] alone
    would leave, and [answer_delete] after [answer_update] brings an answer
    that was blank back to the store as it was before both. *)
Theorem answer_writes_last_wins answer_id i j current ans attempt db :
  select_answer answer_id db = [ans] →
  select_attempt (Answer.attempt_id ans) db = [attempt] →
  Attempt.user_id attempt = user_id current →
  Attempt.status attempt = "in_progress" →
  answers_ok db → 0 ≤ i → int4 i → 0 ≤ j → int4 j →
  ∃ db1,
    get_session (answer_update answer_id i current) db = (Ok [("status", VStr "ok")], db1)
    ∧ get_session (answer_update answer_id j current) db1
      = get_session (answer_update answer_id j current) db
    ∧ get_session (answer_delete answer_id current) db1
      = get_session (answer_delete answer_id current) db
    ∧ (Answer.answer_index ans = -1 →
       get_session (answer_delete answer_id current) db1 = (Ok [("status", VStr "ok")], db)).
Proof.
  intros Hans Hatt Hown Hprog Hok Hi Hi4 Hj Hj4.
  eexists. split; [by apply (answer_update_Ok _ _ _ ans attempt)|].
  set (db1 := with_answers _ db).
  pose proof (select_answer_set_index db answer_id ans i Hans) as Hans1.
  assert (select_attempt (Answer.attempt_id (Answer.set_answer_index i ans)) db1 = [attempt])
    as Hatt1 by exact Hatt.
  assert (answers_ok db1) as Hok1 by (apply answers_ok_update_index; [done|lia|done]).
  assert (get_session (answer_delete answer_id current) db1
          = get_session (answer_delete answer_id current) db) as Hdel.
  { rewrite (answer_delete_Ok _ _ _ attempt db1 Hans1 Hatt1 Hown Hprog Hok1).
    rewrite (answer_delete_Ok _ _ _ attempt db Hans Hatt Hown Hprog Hok).
    f_equal. apply set_index_twice. }
  split_and!.
  - rewrite (answer_update_Ok _ j _ _ attempt db1 Hans1 Hatt1 Hown Hprog Hok1 Hj Hj4).
    rewrite (answer_update_Ok _ j _ _ attempt db Hans Hatt Hown Hprog Hok Hj Hj4).
    f_equal. apply set_index_twice.
  - exact Hdel.
  - intros Hblank. rewrite Hdel.
    rewrite (answer_delete_Ok _ _ _ attempt db Hans Hatt Hown Hprog Hok).
    f_equal. unfold with_answers. rewrite <- Hblank.
    rewrite (update_index_same _ _ _ Hans). by destruct db.
Qed.

Lemma answer_writes_last_wins_witness :
  ∃ db1,
    get_session (answer_update 2 1 Demo.student) Demo.db_started
    = (Ok [("status", VStr "ok")], db1)
    ∧ get_session (answer_update 2 0 Demo.student) db1
      = get_session (answer_update 2 0 Demo.student) Demo.db_started
    ∧ get_session (answer_delete 2 Demo.student) db1
      = get_session (answer_delete 2 Demo.student) Demo.db_started
    ∧ (Answer.answer_index (Answer.mk 2 1 2 1 (-1)) = -1 →
       get_session (answer_delete 2 Demo.student) db1
       = (Ok [("status", VStr "ok")], Demo.db_started)).
Proof.
  apply (answer_writes_last_wins 2 1 0 Demo.student (Answer.mk 2 1 2 1 (-1))
           (Attempt.mk 1 1 20 "in_progress") Demo.db_started).
  - reflexivity.
  - reflexivity.
  - reflexivity.
  - reflexivity.
  - apply (bool_decide_unpack _). vm_compute. exact I.
  - lia.
  - unfold int4. lia.
  - lia.
  - unfold int4. lia.
Defined.

(** ** Who reads the answers *)

Lemma answer_by_id_total : Total answer_by_id.
Proof. intros a b. unfold answer_by_id. lia. Qed.

Lemma elem_of_list_prod {A B : Type} (a : A) (b : B) l k :
  (a, b) ∈ list_prod l k ↔ a ∈ l ∧ b ∈ k.
Proof. rewrite !list_elem_of_In. apply in_prod_iff. Qed.

Lemma select_answers_perm attempt_id db :
  select_answers attempt_id db
  ≡ₚ filter (λ a, Answer.attempt_id a = attempt_id) (answers db).
Proof. apply merge_sort_Permutation. Qed.

Lemma answers_get_owner attempt_id current attempt s :
  select_attempt attempt_id (view s) = [attempt] →
  Attempt.user_id attempt = user_id current →
  answers_get attempt_id current s
  = (Ok (JList (answer_entry <$> select_answers attempt_id (view s))), s).
Proof.
  intros Hatt Hown. unfold answers_get.
  rewrite (bind_Ok _ _ _ _ _ (get_attempt_or_404_found _ _ _ Hatt)).
  by rewrite decide_False by (intros Hne; apply Hne; exact Hown).
Qed.

Lemma select_teacher_of_test_in test_id db uid :
  uid ∈ select_teacher_of_test test_id db →
  ∃ t c, t ∈ tests db ∧ c ∈ courses db ∧ Test.id t = test_id
         ∧ Test.is_deleted t = false ∧ Test.course_id t = Course.id c
         ∧ Course.is_deleted c = false ∧ Course.teacher_id c = uid.
Proof.
  unfold select_teacher_of_test. rewrite list_elem_of_fmap.
  intros ([c t] & -> & Hin). apply list_elem_of_filter in Hin as [(? & ? & ? & ?) Hin].
  apply elem_of_list_prod in Hin as [? ?]. exists t, c. by split_and!.
Qed.

Lemma answers_get_inv attempt_id current db body db' :
  get_session (answers_get attempt_id current) db = (Ok body, db') →
  db' = db
  ∧ body = JList (answer_entry <$> select_answers attempt_id db)
  ∧ ∃ attempt,
      select_attempt attempt_id db = [attempt]
      ∧ (Attempt.user_id attempt = user_id current
         ∨ ∃ t c, t ∈ tests db ∧ c ∈ courses db ∧ Test.id t = Attempt.test_id attempt
                  ∧ Test.is_deleted t = false ∧ Test.course_id t = Course.id c
                  ∧ Course.is_deleted c = false ∧ Course.teacher_id c = user_id current).
Proof.
  unfold get_session, answers_get, get_attempt_or_404.
  unfold bind at 1. unfold bind at 1, execute at 1. simpl.
  destruct (select_attempt attempt_id db) as [|attempt [|a2 rows]] eqn:Hsel;
    unfold bind at 1; simpl; try (intros H; by simplify_eq).
  case_decide as Hown.
  - unfold bind at 1. unfold bind at 1, execute at 1. simpl.
    destruct (select_teacher_of_test (Attempt.test_id attempt) db) as [|uid [|u2 us]] eqn:Ht;
      unfold bind at 1; simpl; try (intros H; by simplify_eq).
    case_decide as Hteacher; [intros H; by simplify_eq|].
    intros H. unfold bind, execute, ret in H. simpl in H. simplify_eq.
    split_and!; [done|done|]. exists attempt. split; [done|]. right.
    apply select_teacher_of_test_in. rewrite Ht.
    by apply list_elem_of_singleton.
  - intros H. unfold bind, execute, ret in H. simpl in H. simplify_eq.
    split_and!; [done|done|]. exists attempt. auto.
Qed.

(** [answers_get] never shows the answers of an attempt to anyone but its
    owner and the teacher of the course of the test, and to the teacher only
    while neither the test nor the course is soft-deleted: no permission
    opens it.  What it returns is each answer of the attempt once, in the
    order of the answer ids; it writes nothing. *)
Theorem answers_get_readers attempt_id current db body db' :
  get_session (answers_get attempt_id current) db = (Ok body, db') →
  db' = db
  ∧ (∃ rows, body = JList (answer_entry <$> rows)
             ∧ rows ≡ₚ filter (λ a, Answer.attempt_id a = attempt_id) (answers db)
             ∧ Sorted answer_by_id rows)
  ∧ ∃ attempt,
      select_attempt attempt_id db = [attempt]
      ∧ (Attempt.user_id attempt = user_id current
         ∨ ∃ t c, t ∈ tests db ∧ c ∈ courses db ∧ Test.id t = Attempt.test_id attempt
                  ∧ Test.is_deleted t = false ∧ Test.course_id t = Course.id c
                  ∧ Course.is_deleted c = false ∧ Course.teacher_id c = user_id current).
Proof.
  intros H. apply answers_get_inv in H as (-> & -> & Hwho). split_and!; [done| |done].
  eexists. split_and!; [done|apply select_answers_perm|].
  apply (@Sorted_merge_sort _ answer_by_id _ answer_by_id_total).
Qed.

Lemma answers_get_readers_witness :
  get_session (answers_get 1 Demo.teacher) Demo.db_answered
  = (Ok (JList [answer_entry (Answer.mk 1 1 1 1 1); answer_entry (Answer.mk 2 1 2 1 (-1));
                answer_entry (Answer.mk 3 1 3 1 2); answer_entry (Answer.mk 4 1 4 1 0)]),
     Demo.db_answered)
  ∧ get_session (answers_get 1 Demo.assistant) Demo.db_answered
    = (Raise (HTTPException 403 "Forbidden" []), Demo.db_answered)
  ∧ get_session (answers_get 1 Demo.teacher) Demo.db_course_deleted
    = (Raise (HTTPException 403 "Forbidden" []), Demo.db_course_deleted)
  ∧ ∃ attempt,
      select_attempt 1 Demo.db_answered = [attempt]
      ∧ (Attempt.user_id attempt = 10
         ∨ ∃ t c, t ∈ tests Demo.db_answered ∧ c ∈ courses Demo.db_answered
                  ∧ Test.id t = Attempt.test_id attempt
                  ∧ Test.is_deleted t = false ∧ Test.course_id t = Course.id c
                  ∧ Course.is_deleted c = false ∧ Course.teacher_id c = 10).
Proof.
  split_and!; [reflexivity|reflexivity|reflexivity|].
  exact (proj2 (proj2 (answers_get_readers 1 Demo.teacher Demo.db_answered _ _ eq_refl))).
Defined.

(** What the owner stores with [answer_update] is what [answers_get] shows
    next: the entry of that answer carries the new index, and the list has
    as many entries as before. *)
Theorem answers_get_after_update answer_id index current ans attempt db :
  select_answer answer_id db = [ans] →
  select_attempt (Answer.attempt_id ans) db = [attempt] →
  Attempt.user_id attempt = user_id current →
  Attempt.status attempt = "in_progress" →
  answers_ok db → 0 ≤ index → int4 index →
  ∃ db1 before after,
    get_session (answers_get (Answer.attempt_id ans) current) db = (Ok (JList before), db)
    ∧ get_session (answer_update answer_id index current) db = (Ok [("status", VStr "ok")], db1)
    ∧ get_session (answers_get (Answer.attempt_id ans) current) db1 = (Ok (JList after), db1)
    ∧ JObj [("id", JInt answer_id); ("question_id", JInt (Answer.question_id ans));
            ("answer_index", JInt index)] ∈ after
    ∧ length after = length before.
Proof.
  intros Hans Hatt Hown Hprog Hok Hi H4.
  assert (Answer.id ans = answer_id) as Hid.
  { apply (select_answer_id _ db). rewrite Hans. by apply list_elem_of_singleton. }
  pose proof (answer_update_Ok _ _ _ ans attempt db Hans Hatt Hown Hprog Hok Hi H4) as Hupd.
  set (db1 := with_answers _ db) in Hupd.
  assert (select_attempt (Answer.attempt_id ans) db1 = [attempt]) as Hatt1 by exact Hatt.
  exists db1, (answer_entry <$> select_answers (Answer.attempt_id ans) db),
    (answer_entry <$> select_answers (Answer.attempt_id ans) db1).
  split_and!.
  - unfold get_session.
    by rewrite (answers_get_owner _ current attempt (mkSession db db) Hatt Hown).
  - exact Hupd.
  - unfold get_session.
    by rewrite (answers_get_owner _ current attempt (mkSession db1 db1) Hatt1 Hown).
  - simpl. apply list_elem_of_fmap.
    exists (Answer.set_answer_index index ans). split; [by rewrite <- Hid|].
    rewrite select_answers_perm. apply list_elem_of_filter. split; [done|]. simpl.
    apply list_elem_of_fmap. exists ans. rewrite decide_True by done. split; [done|].
    assert (ans ∈ select_answer answer_id db) as Hin
      by (rewrite Hans; by apply list_elem_of_singleton).
    by apply list_elem_of_filter in Hin as [_ ?].
  - simpl. rewrite !length_fmap, !select_answers_perm. simpl.
    rewrite filter_fmap_comm, length_fmap. f_equal.
    apply list_filter_iff. intros r. simpl. by case_decide.
Qed.

Lemma answers_get_after_update_witness :
  ∃ db1 before after,
    get_session (answers_get 1 Demo.student) Demo.db_started = (Ok (JList before), Demo.db_started)
    ∧ get_session (answer_update 3 2 Demo.student) Demo.db_started
      = (Ok [("status", VStr "ok")], db1)
    ∧ get_session (answers_get 1 Demo.student) db1 = (Ok (JList after), db1)
    ∧ JObj [("id", JInt 3); ("question_id", JInt 3); ("answer_index", JInt 2)] ∈ after
    ∧ length after = length before.
Proof.
  apply (answers_get_after_update 3 2 Demo.student (Answer.mk 3 1 3 1 (-1))
           (Attempt.mk 1 1 20 "in_progress") Demo.db_started).
  - reflexivity.
  - reflexivity.
  - reflexivity.
  - reflexivity.
  - apply (bool_decide_unpack _). vm_compute. exact I.
  - lia.
  - unfold int4. lia.
Defined.

(** * Editing the composition of a test *)

(** ** [test_question_add] *)

Lemma next_pos_above test_id db r :
  r ∈ select_test_questions test_id db →
  TestQuestion.position r
  < match sql_max (TestQuestion.position <$> select_test_questions test_id db) with
    | Some max_pos => max_pos + 1
    | None => 0
    end.
Proof.
  intros Hr.
  assert (TestQuestion.position r ∈ TestQuestion.position <$> select_test_questions test_id db)
    as Hin by (by apply list_elem_of_fmap_2).
  destruct (sql_max _) as [m|] eqn:E.
  - pose proof (sql_max_ge _ _ _ E Hin). lia.
  - apply sql_max_None in E. rewrite E in Hin. by apply elem_of_nil in Hin.
Qed.

Lemma next_pos_nonneg test_id db :
  test_questions_ok db →
  0 ≤ match sql_max (TestQuestion.position <$> select_test_questions test_id db) with
      | Some max_pos => max_pos + 1
      | None => 0
      end.
Proof.
  intros (_ & _ & _ & _ & Hchk).
  destruct (sql_max _) as [m|] eqn:E; [|done].
  apply sql_max_in, list_elem_of_fmap in E as (r & -> & Hr).
  apply list_elem_of_filter in Hr as [_ Hr].
  rewrite Forall_forall in Hchk. destruct (Hchk _ Hr). lia.
Qed.

Lemma test_questions_ok_add test_id question_id pos test q db :
  test_questions_ok db →
  select_test test_id db = [test] →
  select_question question_id db = [q] →
  select_test_question test_id question_id db = [] →
  (∀ r, r ∈ select_test_questions test_id db → TestQuestion.position r < pos) →
  0 ≤ pos → pos ≤ 2147483647 →
  test_questions_ok
    (with_test_questions (λ rows, rows ++ [TestQuestion.mk test_id question_id pos]) db).
Proof.
  intros (Hkey & Hpos & Htest & Hquest & Hchk) Ht Hq Hnew Habove H0 H4.
  unfold test_questions_ok, unique_on, references in *. simpl.
  rewrite !fmap_app, !Forall_app, !Forall_singleton. simpl.
  split_and!; try done.
  - apply NoDup_snoc; [done|]. intros Hin.
    apply list_elem_of_fmap in Hin as (r & Hr & Hin).
    assert (r ∈ select_test_question test_id question_id db) as Hsel.
    { apply list_elem_of_filter. by simplify_eq. }
    rewrite Hnew in Hsel. by apply elem_of_nil in Hsel.
  - apply NoDup_snoc; [done|]. intros Hin.
    apply list_elem_of_fmap in Hin as (r & Hr & Hin).
    assert (r ∈ select_test_questions test_id db) as Hsel.
    { apply list_elem_of_filter. by simplify_eq. }
    apply Habove in Hsel. simplify_eq. lia.
  - assert (test ∈ select_test test_id db) as Hin
      by (rewrite Ht; by apply list_elem_of_singleton).
    apply list_elem_of_filter in Hin as [[<- _] Hin]. by apply list_elem_of_fmap_2.
  - assert (q ∈ select_question question_id db) as Hin
      by (rewrite Hq; by apply list_elem_of_singleton).
    apply list_elem_of_filter in Hin as [[<- _] Hin]. by apply list_elem_of_fmap_2.
  - unfold int4. lia.
Qed.

Lemma test_question_add_gates test_id question_id current test course q s :
  select_test test_id (view s) = [test] →
  select_course (Test.course_id test) (view s) = [course] →
  attempts_cnt test_id (view s) = 0 →
  Course.teacher_id course = user_id current →
  select_question question_id (view s) = [q] →
  test_question_add test_id question_id current s
  = (let next_pos :=
       match sql_max (TestQuestion.position <$> select_test_questions test_id (view s)) with
       | Some max_pos => max_pos + 1
       | None => 0
       end in
     let* _ := try_except
         (let* _ := statement test_questions_ok
                      (with_test_questions
                         (λ rows, rows ++ [TestQuestion.mk test_id question_id next_pos])) in
          commit)
         (let* _ := rollback in
          http_error 400 "Bad Request"
            [("message", "Question already in test or position conflict")]) in
     ret [("status", VStr "ok"); ("position", VInt next_pos)]) s.
Proof.
  intros Ht Hc Hn Hteacher Hq.
  assert (Test.id test = test_id) as Hid.
  { apply (select_test_id _ (view s)). rewrite Ht. by apply list_elem_of_singleton. }
  unfold test_question_add.
  rewrite (bind_Ok _ _ _ _ _ (get_test_or_404_found _ _ _ Ht)).
  rewrite <- Hid in Hn.
  rewrite (bind_Ok _ _ _ _ _ (ensure_can_edit_test_teacher _ _ _ _ Hc Hn Hteacher)).
  rewrite (bind_Ok _ _ _ _ _ (get_course_or_404_found _ _ _ Hc)).
  rewrite bool_decide_false by (intros Hne; apply Hne; exact Hteacher). simpl.
  unfold bind at 1, execute at 1. rewrite Hq.
  unfold bind at 1. rewrite scalar_one_or_none_single.
  unfold bind at 1, execute at 1. done.
Qed.

(** The teacher of the course, on a test nobody has started: a question that
    is not in the test yet is appended after the last position in use (0 on
    an empty test), every other row keeps its position and the constraints of
    [test_questions] hold afterwards; a question that is in the test already
    is refused with 400 and nothing is written. *)
Theorem test_question_add_appends test_id question_id current test course q db :
  test_questions_ok db →
  select_test test_id db = [test] →
  select_course (Test.course_id test) db = [course] →
  attempts_cnt test_id db = 0 →
  Course.teacher_id course = user_id current →
  select_question question_id db = [q] →
  let next_pos :=
    match sql_max (TestQuestion.position <$> select_test_questions test_id db) with
    | Some max_pos => max_pos + 1
    | None => 0
    end in
  let db' := with_test_questions
               (λ rows, rows ++ [TestQuestion.mk test_id question_id next_pos]) db in
  (select_test_question test_id question_id db = [] → next_pos ≤ 2147483647 →
     get_session (test_question_add test_id question_id current) db
     = (Ok [("status", VStr "ok"); ("position", VInt next_pos)], db')
     ∧ test_questions_ok db'
     ∧ Forall (λ r, TestQuestion.position r < next_pos) (select_test_questions test_id db))
  ∧ (select_test_question test_id question_id db ≠ [] →
     get_session (test_question_add test_id question_id current) db
     = (Raise (HTTPException 400 "Bad Request"
          [("message", "Question already in test or position conflict")]), db)).
Proof.
  intros Hok Ht Hc Hn Hteacher Hq next_pos db'.
  pose proof (test_question_add_gates test_id question_id current test course q
                (mkSession db db) Ht Hc Hn Hteacher Hq) as Hrun.
  split.
  - intros Hnew H4.
    assert (test_questions_ok db') as Hok'.
    { apply (test_questions_ok_add _ _ _ test q); try done.
      - intros r. apply next_pos_above.
      - by apply next_pos_nonneg. }
    split_and!; [|done|].
    + unfold get_session. rewrite Hrun. simpl.
      unfold bind at 1, try_except, bind at 1, statement. simpl.
      fold next_pos. fold db'. by rewrite decide_True.
    + apply Forall_forall. intros r. apply next_pos_above.
  - intros Hdup.
    unfold get_session. rewrite Hrun. simpl.
    unfold bind at 1, try_except, bind at 1, statement. simpl.
    fold next_pos. rewrite decide_False; [done|].
    intros (Hkey & _). unfold unique_on in Hkey. simpl in Hkey.
    rewrite fmap_app in Hkey. apply NoDup_app in Hkey as (_ & Hkey & _).
    destruct (select_test_question test_id question_id db) as [|r rows] eqn:Hsel; [done|].
    assert (r ∈ select_test_question test_id question_id db) as Hin
      by (rewrite Hsel; apply list_elem_of_here).
    apply list_elem_of_filter in Hin as [[Hrt Hrq] Hin].
    apply (Hkey (test_id, question_id)).
    + apply list_elem_of_fmap. exists r. by rewrite Hrt, Hrq.
    + simpl. apply list_elem_of_here.
Qed.

Lemma test_question_add_appends_witness :
  (get_session (test_question_add 1 5 Demo.teacher) Demo.db_fresh
   = (Ok [("status", VStr "ok"); ("position", VInt 4)],
      with_test_questions (λ rows, rows ++ [TestQuestion.mk 1 5 4]) Demo.db_fresh)
   ∧ test_questions_ok
       (with_test_questions (λ rows, rows ++ [TestQuestion.mk 1 5 4]) Demo.db_fresh)
   ∧ Forall (λ r, TestQuestion.position r < 4) (select_test_questions 1 Demo.db_fresh))
  ∧ get_session (test_question_add 1 2 Demo.teacher) Demo.db_fresh
    = (Raise (HTTPException 400 "Bad Request"
         [("message", "Question already in test or position conflict")]), Demo.db_fresh).
Proof.
  pose proof (test_question_add_appends 1 5 Demo.teacher (Test.mk 1 1 true false)
                (Course.mk 1 10 false) (Question.mk 5 10 false) Demo.db_fresh) as Hnew.
  pose proof (test_question_add_appends 1 2 Demo.teacher (Test.mk 1 1 true false)
                (Course.mk 1 10 false) (Question.mk 2 10 false) Demo.db_fresh) as Hdup.
  split.
  - apply Hnew; try reflexivity.
    + apply (bool_decide_unpack _). vm_compute. exact I.
    + vm_compute. discriminate.
  - apply Hdup; try reflexivity.
    + apply (bool_decide_unpack _). vm_compute. exact I.
    + vm_compute. discriminate.
Defined.

(** ** [test_question_del] *)

Lemma NoDup_fmap_filter {A K : Type} (key : A → K) (P : A → Prop) `{!∀ x, Decision (P x)}
    (l : list A) :
  NoDup (key <$> l) → NoDup (key <$> filter P l).
Proof.
  induction l as [|a l IH]; [done|]. rewrite fmap_cons, NoDup_cons. intros [Hnotin Hnd].
  rewrite filter_cons. destruct (decide (P a)); [|auto].
  rewrite fmap_cons. apply NoDup_cons. split; [|auto].
  intros Hin. apply Hnotin. apply list_elem_of_fmap in Hin as (b & -> & Hb).
  apply list_elem_of_filter in Hb as [_ Hb]. by apply list_elem_of_fmap_2.
Qed.

Lemma Forall_filter_keep {A : Type} (P Q : A → Prop) `{!∀ x, Decision (P x)} (l : list A) :
  Forall Q l → Forall Q (filter P l).
Proof.
  rewrite !Forall_forall. intros HQ x Hx. apply list_elem_of_filter in Hx as [_ Hx]. auto.
Qed.

Lemma filter_none {A : Type} (P : A → Prop) `{!∀ x, Decision (P x)} (l : list A) :
  (∀ x, ¬ P x) → filter P l = [].
Proof.
  intros HP. induction l as [|a l IH]; [done|].
  rewrite filter_cons. by rewrite decide_False by apply HP.
Qed.

Lemma test_questions_ok_filter (P : TestQuestion.row → Prop) `{!∀ x, Decision (P x)} db :
  test_questions_ok db → test_questions_ok (with_test_questions (filter P) db).
Proof.
  intros (Hkey & Hpos & Htest & Hquest & Hchk).
  unfold test_questions_ok, unique_on, references in *. simpl.
  split_and!; auto using NoDup_fmap_filter, Forall_filter_keep.
Qed.

Lemma test_question_del_gates test_id question_id current test course s :
  select_test test_id (view s) = [test] →
  select_course (Test.course_id test) (view s) = [course] →
  attempts_cnt test_id (view s) = 0 →
  Course.teacher_id course = user_id current →
  test_question_del test_id question_id current s
  = (let* rows := execute (select_test_question test_id question_id) in
     let* tq := scalar_one_or_none rows in
     match tq with
     | None => http_error 404 "Not found" []
     | Some tq =>
         let* _ := statement test_questions_ok
             (with_test_questions
                (filter (λ r, ¬ (TestQuestion.test_id r = TestQuestion.test_id tq
                                 ∧ TestQuestion.question_id r = TestQuestion.question_id tq)))) in
         let* _ := commit in
         ret [("status", VStr "ok")]
     end) s.
Proof.
  intros Ht Hc Hn Hteacher.
  assert (Test.id test = test_id) as Hid.
  { apply (select_test_id _ (view s)). rewrite Ht. by apply list_elem_of_singleton. }
  unfold test_question_del.
  rewrite (bind_Ok _ _ _ _ _ (get_test_or_404_found _ _ _ Ht)).
  rewrite <- Hid in Hn.
  rewrite (bind_Ok _ _ _ _ _ (ensure_can_edit_test_teacher _ _ _ _ Hc Hn Hteacher)).
  rewrite (bind_Ok _ _ _ _ _ (get_course_or_404_found _ _ _ Hc)).
  by rewrite bool_decide_false by (intros Hne; apply Hne; exact Hteacher).
Qed.

(** The teacher of the course, on a test nobody has started:
    [test_question_del] takes out the row of that question and nothing else.
    The questions that stay keep the positions they had (the gap is not
    closed), the constraints of [test_questions] still hold, and a second
    call finds nothing to delete: 404, without a write. *)
Theorem test_question_del_leaves_gap test_id question_id current test course tq db :
  test_questions_ok db →
  select_test test_id db = [test] →
  select_course (Test.course_id test) db = [course] →
  attempts_cnt test_id db = 0 →
  Course.teacher_id course = user_id current →
  select_test_question test_id question_id db = [tq] →
  let db' := with_test_questions
               (filter (λ r, ¬ (TestQuestion.test_id r = test_id
                                ∧ TestQuestion.question_id r = question_id))) db in
  get_session (test_question_del test_id question_id current) db
  = (Ok [("status", VStr "ok")], db')
  ∧ test_questions_ok db'
  ∧ (∀ other, other ≠ question_id →
       select_test_question test_id other db' = select_test_question test_id other db)
  ∧ (∀ other_test, other_test ≠ test_id →
       select_test_questions other_test db' = select_test_questions other_test db)
  ∧ get_session (test_question_del test_id question_id current) db'
    = (Raise (HTTPException 404 "Not found" []), db').
Proof.
  intros Hok Ht Hc Hn Hteacher Htq db'.
  assert (tq ∈ select_test_question test_id question_id db) as Hin
    by (rewrite Htq; by apply list_elem_of_singleton).
  apply list_elem_of_filter in Hin as [[Hrt Hrq] _].
  assert (test_questions_ok db') as Hok' by (by apply test_questions_ok_filter).
  split_and!.
  - unfold get_session.
    rewrite (test_question_del_gates _ _ _ test course (mkSession db db) Ht Hc Hn Hteacher).
    unfold bind at 1, execute at 1. simpl. rewrite Htq.
    unfold bind at 1. rewrite scalar_one_or_none_single.
    unfold bind at 1, statement. simpl. rewrite Hrt, Hrq. fold db'.
    by rewrite decide_True.
  - exact Hok'.
  - intros other Hne. unfold select_test_question. simpl.
    rewrite list_filter_filter. apply list_filter_iff. intros r. intuition congruence.
  - intros other_test Hne. unfold select_test_questions. simpl.
    rewrite list_filter_filter. apply list_filter_iff. intros r. intuition congruence.
  - unfold get_session.
    rewrite (test_question_del_gates _ _ _ test course (mkSession db' db') Ht Hc Hn Hteacher).
    unfold bind at 1, execute at 1. simpl.
    assert (select_test_question test_id question_id db' = []) as ->; [|done].
    unfold select_test_question. simpl. rewrite list_filter_filter.
    apply filter_none. intros r. intuition congruence.
Qed.

Lemma test_question_del_leaves_gap_witness :
  let db' := with_test_questions
               (filter (λ r, ¬ (TestQuestion.test_id r = 1 ∧ TestQuestion.question_id r = 1)))
               Demo.db_fresh in
  get_session (test_question_del 1 1 Demo.teacher) Demo.db_fresh = (Ok [("status", VStr "ok")], db')
  ∧ test_questions_ok db'
  ∧ (∀ other, other ≠ 1 →
       select_test_question 1 other db' = select_test_question 1 other Demo.db_fresh)
  ∧ (∀ other_test, other_test ≠ 1 →
       select_test_questions other_test db' = select_test_questions other_test Demo.db_fresh)
  ∧ get_session (test_question_del 1 1 Demo.teacher) db'
    = (Raise (HTTPException 404 "Not found" []), db').
Proof.
  apply (test_question_del_leaves_gap 1 1 Demo.teacher (Test.mk 1 1 true false)
           (Course.mk 1 10 false) (TestQuestion.mk 1 1 0) Demo.db_fresh); try reflexivity.
  apply (bool_decide_unpack _). vm_compute. exact I.
Defined.

(** ** [test_question_order], when it goes through *)

Lemma reads_only_ret {A : Type} (a : A) : reads_only (ret a).
Proof. intros s r s' H. unfold ret in H. by simplify_eq. Qed.

Lemma reads_only_raise {A : Type} e : reads_only (@raise A e).
Proof. intros s r s' H. unfold raise in H. by simplify_eq. Qed.

Lemma reads_only_http_error {A : Type} c m d : reads_only (@http_error A c m d).
Proof. apply reads_only_raise. Qed.

Lemma reads_only_execute {A : Type} (q : DB → A) : reads_only (execute q).
Proof. intros s r s' H. unfold execute in H. by simplify_eq. Qed.

Lemma reads_only_scalar_one_or_none {A : Type} (rows : list A) :
  reads_only (scalar_one_or_none rows).
Proof.
  destruct rows as [|r [|r' rows]]; unfold scalar_one_or_none;
    auto using reads_only_ret, reads_only_raise.
Qed.

Lemma reads_only_bind {A B : Type} (m : M A) (k : A → M B) :
  reads_only m → (∀ a, reads_only (k a)) → reads_only (bind m k).
Proof.
  intros Hm Hk s r s' H. unfold bind in H.
  destruct (m s) as [[a|e] s1] eqn:E.
  - apply Hm in E as ->. by apply Hk in H.
  - apply Hm in E as ->. by simplify_eq.
Qed.

#[global] Hint Resolve reads_only_ret reads_only_raise reads_only_http_error
  reads_only_execute reads_only_scalar_one_or_none : session.

Ltac reads_step :=
  first [ apply reads_only_bind; [|intros ?]
        | match goal with |- reads_only (match ?x with _ => _ end) => destruct x end
        | match goal with |- reads_only (if ?b then _ else _) => destruct b end
        | solve [auto with session] ].

Lemma reads_only_get_test_or_404 test_id : reads_only (get_test_or_404 test_id).
Proof. unfold get_test_or_404. repeat reads_step. Qed.

Lemma reads_only_get_course_or_404 course_id : reads_only (get_course_or_404 course_id).
Proof. unfold get_course_or_404. repeat reads_step. Qed.

#[global] Hint Resolve reads_only_get_test_or_404 reads_only_get_course_or_404 : session.

Lemma reads_only_ensure_can_edit_test current test :
  reads_only (ensure_can_edit_test current test).
Proof. unfold ensure_can_edit_test. repeat reads_step. Qed.

Lemma reads_only_parse_csv_ids str_strip int_of_str csv :
  reads_only (parse_csv_ids str_strip int_of_str csv).
Proof. unfold parse_csv_ids. repeat reads_step. Qed.

#[global] Hint Resolve reads_only_ensure_can_edit_test reads_only_parse_csv_ids : session.

Lemma update_position_inv test_id qid pos s s' :
  update_position test_id qid pos s = (Ok (), s') →
  committed s' = committed s
  ∧ view s' = with_test_questions
      (fmap (λ r, if decide (TestQuestion.test_id r = test_id ∧ TestQuestion.question_id r = qid)
                  then TestQuestion.set_position pos r else r)) (view s).
Proof. unfold update_position, statement. case_decide; intros Hs; by simplify_eq. Qed.

Lemma test_question_order_loop_inv test_id new_order pos s s' :
  test_question_order_loop test_id pos new_order s = (Ok (), s') →
  NoDup new_order →
  committed s' = committed s
  ∧ ∃ f : TestQuestion.row → TestQuestion.row,
      view s' = with_test_questions (fmap f) (view s)
      ∧ (∀ r, TestQuestion.test_id (f r) = TestQuestion.test_id r
              ∧ TestQuestion.question_id (f r) = TestQuestion.question_id r)
      ∧ (∀ r, ¬ (TestQuestion.test_id r = test_id ∧ TestQuestion.question_id r ∈ new_order) →
              f r = r)
      ∧ (∀ i qid r, new_order !! i = Some qid →
              TestQuestion.test_id r = test_id → TestQuestion.question_id r = qid →
              TestQuestion.position (f r) = pos + Z.of_nat i).
Proof.
  revert pos s. induction new_order as [|qid rest IH]; intros pos s Hloop Hnd.
  - simpl in Hloop. unfold ret in Hloop. simplify_eq. split; [done|].
    exists id. split_and!; try done.
    unfold with_test_questions. rewrite list_fmap_id. by destruct (view s').
  - simpl in Hloop. apply bind_inv_Ok in Hloop as ([] & s1 & Hupd & Hloop).
    apply update_position_inv in Hupd as [Hc1 Hv1].
    apply NoDup_cons in Hnd as [Hnotin Hnd].
    destruct (IH _ _ Hloop Hnd) as (Hc2 & f2 & Hv2 & Hkeys & Hframe & Hpos).
    split; [congruence|].
    set (f1 := λ r, if decide (TestQuestion.test_id r = test_id ∧ TestQuestion.question_id r = qid)
                    then TestQuestion.set_position pos r else r) in *.
    assert (∀ r, TestQuestion.test_id (f1 r) = TestQuestion.test_id r
                 ∧ TestQuestion.question_id (f1 r) = TestQuestion.question_id r) as Hkeys1.
    { intros r. unfold f1. by case_decide. }
    exists (f2 ∘ f1). split_and!.
    + rewrite Hv2, Hv1. unfold with_test_questions. simpl. by rewrite <- list_fmap_compose.
    + intros r. simpl. destruct (Hkeys (f1 r)) as [-> ->]. apply Hkeys1.
    + intros r Hr. simpl.
      assert (f1 r = r) as ->.
      { unfold f1. rewrite decide_False; [done|]. intros [? ?]. apply Hr.
        split; [done|]. subst qid. apply list_elem_of_here. }
      apply Hframe. intros [? ?]. apply Hr. split; [done|]. by apply list_elem_of_further.
    + intros i q r Hi Hrt Hrq. simpl. destruct i as [|i]; simpl in Hi.
      * simplify_eq. rewrite Hframe.
        -- unfold f1. rewrite decide_True by done. simpl. lia.
        -- destruct (Hkeys1 r) as [_ ->]. by intros [_ ?].
      * assert (q ≠ qid) as Hne.
        { intros ->. apply Hnotin. by apply list_elem_of_lookup_2 in Hi. }
        assert (f1 r = r) as ->.
        { unfold f1. rewrite decide_False; [done|]. intros [_ ?]. congruence. }
        rewrite (Hpos i q r Hi Hrt Hrq). lia.
Qed.

Lemma test_question_order_inv str_strip int_of_str test_id csv current db body db' :
  get_session (test_question_order str_strip int_of_str test_id csv current) db = (Ok body, db') →
  ∃ new_order s',
    csv_ids str_strip int_of_str csv = Some new_order
    ∧ merge_sort Z.le (current_ids test_id db) = merge_sort Z.le new_order
    ∧ test_question_order_loop test_id 0 new_order (mkSession db db) = (Ok (), s')
    ∧ db' = view s'.
Proof.
  unfold get_session.
  destruct (test_question_order _ _ _ _ _ _) as [r s] eqn:E. intros Hr. simplify_eq.
  unfold test_question_order in E.
  apply bind_inv_Ok in E as (test & s1 & H1 & E).
  apply reads_only_get_test_or_404 in H1 as ->.
  apply bind_inv_Ok in E as ([] & s1 & H1 & E).
  apply reads_only_ensure_can_edit_test in H1 as ->.
  apply bind_inv_Ok in E as (course & s1 & H1 & E).
  apply reads_only_get_course_or_404 in H1 as ->.
  destruct (bool_decide _ && _); [discriminate|].
  apply bind_inv_Ok in E as (new_order & s1 & H1 & E).
  unfold parse_csv_ids in H1.
  destruct (csv_ids str_strip int_of_str csv) as [ids|] eqn:Hcsv; [|discriminate].
  unfold ret in H1. simplify_eq.
  apply bind_inv_Ok in E as (ids & s1 & H1 & E). apply execute_inv in H1 as [-> ->].
  simpl in E. case_decide as Hsort; [discriminate|].
  apply bind_inv_Ok in E as ([] & s1 & Hloop & E).
  unfold bind, commit, ret in E. simpl in E. simplify_eq.
  exists new_order, s1. split_and!; try done.
Qed.

(** Whenever [test_question_order] returns, it has done what was asked: the
    list was a permutation of the questions of the test, the question named
    at place [i] of the list now has position [i], the test has the
    questions it had, and the rows of every other test are as they were. *)
Theorem test_question_order_positions str_strip int_of_str test_id csv current db body db' :
  test_questions_ok db →
  get_session (test_question_order str_strip int_of_str test_id csv current) db = (Ok body, db') →
  ∃ new_order,
    csv_ids str_strip int_of_str csv = Some new_order
    ∧ new_order ≡ₚ current_ids test_id db
    ∧ current_ids test_id db' = current_ids test_id db
    ∧ (∀ i qid, new_order !! i = Some qid →
         ∃ r, select_test_question test_id qid db' = [r]
              ∧ TestQuestion.position r = Z.of_nat i)
    ∧ (∀ other, other ≠ test_id →
         select_test_questions other db' = select_test_questions other db).
Proof.
  intros Hok Hrun.
  apply test_question_order_inv in Hrun as (new_order & s' & Hcsv & Hsort & Hloop & ->).
  exists new_order. split; [done|].
  assert (new_order ≡ₚ current_ids test_id db) as Hperm
    by (symmetry; by apply merge_sort_eq_Permutation).
  split; [done|].
  destruct Hok as (Hkey & _).
  assert (NoDup new_order) as Hnd.
  { rewrite Hperm. unfold current_ids, select_test_questions.
    by apply (NoDup_filter_snd TestQuestion.test_id TestQuestion.question_id). }
  destruct (test_question_order_loop_inv _ _ _ _ _ Hloop Hnd)
    as (_ & f & -> & Hkeys & Hframe & Hpos).
  simpl in *. split_and!.
  - unfold current_ids, select_test_questions. simpl.
    rewrite filter_fmap_comm, <- list_fmap_compose.
    rewrite (list_filter_iff _ (λ r, TestQuestion.test_id r = test_id)).
    + apply list_fmap_ext. intros k r _. simpl. apply Hkeys.
    + intros r. by destruct (Hkeys r) as [-> _].
  - intros i qid Hi.
    assert (qid ∈ current_ids test_id db) as Hin.
    { rewrite <- Hperm. by apply list_elem_of_lookup_2 in Hi. }
    apply list_elem_of_fmap in Hin as (r0 & -> & Hr0).
    apply list_elem_of_filter in Hr0 as [Ht0 Hr0].
    assert (select_test_question test_id (TestQuestion.question_id r0) db = [r0]) as Hsel.
    { unfold select_test_question.
      rewrite (list_filter_iff _
        (λ r, (TestQuestion.test_id r, TestQuestion.question_id r)
              = (test_id, TestQuestion.question_id r0)))
        by (intros r; split; [by intros [-> ->]|by intros [= -> ->]]).
      destruct (filter_unique_key (λ r, (TestQuestion.test_id r, TestQuestion.question_id r))
                  (test_id, TestQuestion.question_id r0) _ Hkey) as [Hnil|[v Hv]].
      - exfalso. assert (r0 ∈ @nil TestQuestion.row) as Hbad; [|by apply elem_of_nil in Hbad].
        rewrite <- Hnil. apply list_elem_of_filter. by rewrite Ht0.
      - rewrite Hv. f_equal. symmetry. apply list_elem_of_singleton. rewrite <- Hv.
        apply list_elem_of_filter. by rewrite Ht0. }
    exists (f r0). split.
    + unfold select_test_question in *. simpl. rewrite filter_fmap_comm.
      rewrite (list_filter_iff _
        (λ r, TestQuestion.test_id r = test_id
              ∧ TestQuestion.question_id r = TestQuestion.question_id r0)).
      * by rewrite Hsel.
      * intros r. by destruct (Hkeys r) as [-> ->].
    + rewrite (Hpos i _ r0 Hi Ht0 eq_refl). lia.
  - intros other Hne. unfold select_test_questions. simpl. rewrite filter_fmap_comm.
    rewrite (list_filter_iff _ (λ r, TestQuestion.test_id r = other))
      by (intros r; by destruct (Hkeys r) as [-> _]).
    rewrite <- (list_fmap_id (filter _ (test_questions db))) at 2.
    apply list_fmap_ext. intros k r Hr. apply list_elem_of_lookup_2 in Hr.
    apply list_elem_of_filter in Hr as [Hrt _]. apply Hframe. intros [Hbad _]. simpl in Hbad. congruence.
Qed.

Lemma test_question_order_positions_witness :
  ∃ new_order,
    csv_ids Demo.ascii_strip Demo.decimal_int "3,2,4" = Some new_order
    ∧ new_order ≡ₚ current_ids 1 Demo.db_shortened
    ∧ current_ids 1
        (get_session (test_question_order Demo.ascii_strip Demo.decimal_int 1 "3,2,4"
                        Demo.teacher) Demo.db_shortened).2
      = current_ids 1 Demo.db_shortened
    ∧ (∀ i qid, new_order !! i = Some qid →
         ∃ r, select_test_question 1 qid
                (get_session (test_question_order Demo.ascii_strip Demo.decimal_int 1 "3,2,4"
                                Demo.teacher) Demo.db_shortened).2 = [r]
              ∧ TestQuestion.position r = Z.of_nat i)
    ∧ (∀ other, other ≠ 1 →
         select_test_questions other
           (get_session (test_question_order Demo.ascii_strip Demo.decimal_int 1 "3,2,4"
                           Demo.teacher) Demo.db_shortened).2
         = select_test_questions other Demo.db_shortened).
Proof.
  apply (test_question_order_positions Demo.ascii_strip Demo.decimal_int 1 "3,2,4"
           Demo.teacher Demo.db_shortened [("status", VStr "ok")]).
  - apply (bool_decide_unpack _). vm_compute. exact I.
  - vm_compute. reflexivity.
Defined.

(** * The teacher's reports *)

(** ** The grade stays in range *)

Lemma py_round_div_bounds n d k :
  0 < d → 0 ≤ n → n ≤ k * d → 0 ≤ py_round_div n d ≤ k.
Proof.
  intros Hd Hn Hk. unfold py_round_div.
  pose proof (Z.div_mod n d ltac:(lia)) as Hdm.
  pose proof (Z.mod_pos_bound n d Hd) as Hr.
  assert (0 ≤ n `div` d) as Hq by (apply Z.div_pos; lia).
  assert (n `div` d ≤ k) as Hqk by nia.
  assert (n `div` d = k → n `mod` d = 0) as Hfull by nia.
  repeat case_decide; try destruct (Z.even _); lia.
Qed.

Lemma py_round_div_exact d k : 0 < d → py_round_div (k * d) d = k.
Proof.
  intros Hd. unfold py_round_div.
  rewrite Z.div_mul by lia. rewrite Z.mod_mul by lia.
  by rewrite decide_True by lia.
Qed.

Lemma py_round_div_mono n1 n2 d :
  0 < d → n1 ≤ n2 → py_round_div n1 d ≤ py_round_div n2 d.
Proof.
  intros Hd Hn. unfold py_round_div.
  pose proof (Z.div_mod n1 d ltac:(lia)) as Hdm1.
  pose proof (Z.div_mod n2 d ltac:(lia)) as Hdm2.
  pose proof (Z.mod_pos_bound n1 d Hd) as Hr1.
  pose proof (Z.mod_pos_bound n2 d Hd) as Hr2.
  assert (n1 `div` d ≤ n2 `div` d) as Hq by (apply Z.div_le_mono; lia).
  destruct (decide (n1 `div` d = n2 `div` d)) as [Heq|Hne].
  - rewrite Heq in *. assert (n1 `mod` d ≤ n2 `mod` d) by lia.
    repeat case_decide; try destruct (Z.even _); lia.
  - repeat case_decide;
      repeat match goal with |- context [Z.even ?x] => destruct (Z.even x) end; lia.
Qed.

Lemma test_user_grade_inv test_id uid current db body db' :
  get_session (test_user_grade test_id uid current) db = (Ok body, db') →
  db' = db
  ∧ ∃ test course attempt,
      head (select_test_course test_id db) = Some (test, course)
      ∧ (Course.teacher_id course = user_id current ∨ "test:answer:read" ∈ permissions current)
      ∧ select_attempt_of (Test.id test) uid db = [attempt]
      ∧ body = (let total := count_answers (Attempt.id attempt) db in
                if decide (total = 0)
                then grade_report (Test.id test) uid (Attempt.id attempt) 0 0 0
                else grade_report (Test.id test) uid (Attempt.id attempt)
                       (count_correct (Attempt.id attempt) db) total
                       (py_round_div (100 * count_correct (Attempt.id attempt) db) total)).
Proof.
  unfold get_session, test_user_grade, get_test_course.
  unfold bind at 1. unfold bind at 1, execute at 1. simpl.
  destruct (select_test_course test_id db) as [|[test course] rows] eqn:Hsel;
    [intros H; by simplify_eq|].
  unfold ret at 1. unfold bind at 1, ensure_teacher_or_perm.
  assert (∀ s, (if decide (Course.teacher_id course = user_id current) then ret ()
                else if negb (has_perm current "test:answer:read")
                     then http_error 403 "Forbidden"
                            [("required_permission", "test:answer:read")]
                     else ret ()) s
               = (Ok (), s)
               ∧ (Course.teacher_id course = user_id current
                  ∨ "test:answer:read" ∈ permissions current)
               ∨ ∃ e, (if decide (Course.teacher_id course = user_id current) then ret ()
                       else if negb (has_perm current "test:answer:read")
                            then http_error 403 "Forbidden"
                                   [("required_permission", "test:answer:read")]
                            else ret ()) s = (@Raise unit e, s)) as Hgate.
  { intros s. case_decide; [left; auto|]. unfold has_perm.
    destruct (decide ("test:answer:read" ∈ permissions current)) as [Hp|Hp].
    - rewrite bool_decide_true by done. left. auto.
    - rewrite bool_decide_false by done. right. eauto. }
  destruct (Hgate (mkSession db db)) as [[-> Hwho]|[e ->]]; [|intros H; by simplify_eq].
  unfold bind at 1, execute at 1. simpl.
  destruct (select_attempt_of (Test.id test) uid db) as [|attempt [|a2 more]] eqn:Hatt;
    unfold bind at 1; simpl; try (intros H; by simplify_eq).
  unfold bind at 1, execute at 1. simpl.
  intros H. split.
  - case_decide; unfold bind, execute, ret in H; simpl in H; by simplify_eq.
  - exists test, course, attempt. split_and!; try done.
    case_decide; unfold bind, execute, ret in H; simpl in H; by simplify_eq.
Qed.

(** Whatever [test_user_grade] reports is a grade: the correct count lies
    between 0 and the total, the percentage between 0 and 100, it is 0 when
    nothing is correct and 100 when everything is, and producing the report
    writes nothing. *)
Theorem test_user_grade_bounds test_id uid current db body db' :
  unique_on QuestionVersion.key (question_versions db) →
  get_session (test_user_grade test_id uid current) db = (Ok body, db') →
  db' = db
  ∧ ∃ shown_test attempt_id correct total grade_percent,
      body = grade_report shown_test uid attempt_id correct total grade_percent
      ∧ 0 ≤ correct ≤ total
      ∧ 0 ≤ grade_percent ≤ 100
      ∧ (correct = 0 → grade_percent = 0)
      ∧ (correct = total → total ≠ 0 → grade_percent = 100).
Proof.
  intros Hu Hrun.
  apply test_user_grade_inv in Hrun as (-> & test & course & attempt & _ & _ & _ & ->).
  split; [done|]. simpl.
  assert (0 ≤ count_correct (Attempt.id attempt) db ≤ count_answers (Attempt.id attempt) db)
    as Hle.
  { rewrite (count_correct_spec _ _ Hu). unfold spec_correct, count_answers, answers_of.
    pose proof (length_filter (answered_correctly db)
                  (filter (λ a, Answer.attempt_id a = Attempt.id attempt) (answers db))).
    lia. }
  case_decide as Htotal.
  - exists (Test.id test), (Attempt.id attempt), 0, 0, 0. split_and!; done.
  - eexists _, _, _, _, _. split; [done|].
    split; [done|].
    assert (0 < count_answers (Attempt.id attempt) db) as Hpos by lia.
    split; [apply py_round_div_bounds; lia|]. split.
    + intros ->. simpl. by apply (py_round_div_exact _ 0).
    + intros -> _. by apply py_round_div_exact.
Qed.

Lemma test_user_grade_bounds_witness :
  Demo.db_answered = Demo.db_answered
  ∧ ∃ shown_test attempt_id correct total grade_percent,
      grade_report 1 20 1 2 4 50
      = grade_report shown_test 20 attempt_id correct total grade_percent
      ∧ 0 ≤ correct ≤ total
      ∧ 0 ≤ grade_percent ≤ 100
      ∧ (correct = 0 → grade_percent = 0)
      ∧ (correct = total → total ≠ 0 → grade_percent = 100).
Proof.
  apply (test_user_grade_bounds 1 20 Demo.teacher Demo.db_answered).
  - apply (bool_decide_unpack _). vm_compute. exact I.
  - reflexivity.
Defined.

(** With the total fixed, a larger correct count never gives a smaller
    percentage, ties to even included. *)
Theorem grade_monotone_in_correct correct1 correct2 total :
  0 < total → correct1 ≤ correct2 →
  py_round_div (100 * correct1) total ≤ py_round_div (100 * correct2) total.
Proof. intros Ht Hc. apply py_round_div_mono; lia. Qed.

Lemma grade_monotone_in_correct_witness :
  py_round_div (100 * 1) 8 ≤ py_round_div (100 * 3) 8.
Proof. apply (grade_monotone_in_correct 1 3 8); lia. Defined.

(** ** Who reads the reports *)

Lemma ensure_teacher_or_perm_denied course current perm s :
  Course.teacher_id course ≠ user_id current → perm ∉ permissions current →
  ensure_teacher_or_perm course current perm s
  = (Raise (HTTPException 403 "Forbidden" [("required_permission", perm)]), s).
Proof.
  intros Ht Hp. unfold ensure_teacher_or_perm. rewrite decide_False by done.
  unfold has_perm. by rewrite bool_decide_false.
Qed.

(** The three reports of a test open on the same terms: the teacher of the
    course and every holder of test:answer:read get the same answer, whoever
    they are, and anyone else gets 403 naming that permission.  Here the
    permission does open the door to a caller who is not the teacher. *)
Theorem teacher_reports_access test_id uid current test course db :
  head (select_test_course test_id db) = Some (test, course) →
  (Course.teacher_id course ≠ user_id current →
   "test:answer:read" ∉ permissions current →
   get_session (test_attempts test_id current) db
   = (Raise (HTTPException 403 "Forbidden" [("required_permission", "test:answer:read")]), db)
   ∧ get_session (test_user_grade test_id uid current) db
     = (Raise (HTTPException 403 "Forbidden" [("required_permission", "test:answer:read")]), db)
   ∧ get_session (test_user_answers test_id uid current) db
     = (Raise (HTTPException 403 "Forbidden" [("required_permission", "test:answer:read")]), db))
  ∧ (∀ other,
       Course.teacher_id course = user_id current ∨ "test:answer:read" ∈ permissions current →
       Course.teacher_id course = user_id other ∨ "test:answer:read" ∈ permissions other →
       get_session (test_attempts test_id current) db
       = get_session (test_attempts test_id other) db
       ∧ get_session (test_user_grade test_id uid current) db
         = get_session (test_user_grade test_id uid other) db
       ∧ get_session (test_user_answers test_id uid current) db
         = get_session (test_user_answers test_id uid other) db).
Proof.
  intros Hsel.
  pose proof (get_test_course_found test_id test course (mkSession db db) Hsel) as Hget.
  split.
  - intros Ht Hp.
    pose proof (ensure_teacher_or_perm_denied course current "test:answer:read"
                  (mkSession db db) Ht Hp) as Hno.
    unfold get_session, test_attempts, test_user_grade, test_user_answers.
    rewrite !(bind_Ok _ _ _ _ _ Hget). by rewrite !(bind_Raise _ _ _ _ _ Hno).
  - intros other H1 H2.
    pose proof (ensure_teacher_or_perm_allowed course current "test:answer:read"
                  (mkSession db db) H1) as Hyes1.
    pose proof (ensure_teacher_or_perm_allowed course other "test:answer:read"
                  (mkSession db db) H2) as Hyes2.
    unfold get_session, test_attempts, test_user_grade, test_user_answers.
    rewrite !(bind_Ok _ _ _ _ _ Hget).
    by rewrite !(bind_Ok _ _ _ _ _ Hyes1), !(bind_Ok _ _ _ _ _ Hyes2).
Qed.

Lemma teacher_reports_access_witness :
  (get_session (test_attempts 1 Demo.student) Demo.db_answered
   = (Raise (HTTPException 403 "Forbidden" [("required_permission", "test:answer:read")]),
      Demo.db_answered)
   ∧ get_session (test_user_grade 1 20 Demo.student) Demo.db_answered
     = (Raise (HTTPException 403 "Forbidden" [("required_permission", "test:answer:read")]),
        Demo.db_answered)
   ∧ get_session (test_user_answers 1 20 Demo.student) Demo.db_answered
     = (Raise (HTTPException 403 "Forbidden" [("required_permission", "test:answer:read")]),
        Demo.db_answered))
  ∧ get_session (test_attempts 1 Staff.reader) Demo.db_answered
    = get_session (test_attempts 1 Demo.teacher) Demo.db_answered
  ∧ get_session (test_user_grade 1 20 Staff.reader) Demo.db_answered
    = get_session (test_user_grade 1 20 Demo.teacher) Demo.db_answered
  ∧ get_session (test_user_answers 1 20 Staff.reader) Demo.db_answered
    = get_session (test_user_answers 1 20 Demo.teacher) Demo.db_answered.
Proof.
  pose proof (teacher_reports_access 1 20 Demo.student (Test.mk 1 1 true false)
                (Course.mk 1 10 false) Demo.db_answered eq_refl) as [Hno _].
  pose proof (teacher_reports_access 1 20 Staff.reader (Test.mk 1 1 true false)
                (Course.mk 1 10 false) Demo.db_answered eq_refl) as [_ Hyes].
  split.
  - apply Hno; [vm_compute; discriminate|]. apply (bool_decide_unpack _). vm_compute. exact I.
  - apply Hyes.
    + right. apply (bool_decide_unpack _). vm_compute. exact I.
    + left. reflexivity.
Defined.

(** ** The review lists every answer *)

Lemma join_one_answer attempt_id (a : Answer.row) (vs : list QuestionVersion.row) :
  NoDup (QuestionVersion.key <$> vs) →
  (Answer.question_id a, Answer.question_version a) ∈ QuestionVersion.key <$> vs →
  ∃ v, head (filter (λ v, QuestionVersion.key v
                          = (Answer.question_id a, Answer.question_version a)) vs) = Some v
       ∧ filter (λ '(a, v), (QuestionVersion.question_id v = Answer.question_id a
                             ∧ QuestionVersion.version v = Answer.question_version a)
                            ∧ Answer.attempt_id a = attempt_id) (pair a <$> vs)
         = if decide (Answer.attempt_id a = attempt_id) then [(a, v)] else [].
Proof.
  intros Hu Hin.
  destruct (filter_unique_key QuestionVersion.key
              (Answer.question_id a, Answer.question_version a) vs Hu) as [Hnil|[v Hv]].
  - exfalso. apply list_elem_of_fmap in Hin as (v & Hk & Hv).
    assert (v ∈ @nil QuestionVersion.row) as Hbad; [|by apply elem_of_nil in Hbad].
    rewrite <- Hnil. by apply list_elem_of_filter.
  - exists v. rewrite Hv. split; [done|].
    rewrite filter_fmap_comm. case_decide as Ha.
    + rewrite (list_filter_iff _ (λ v, QuestionVersion.key v
                                       = (Answer.question_id a, Answer.question_version a))).
      * by rewrite Hv.
      * intros w. unfold QuestionVersion.key. split.
        -- by intros [[-> ->] _].
        -- by intros [= -> ->].
    + rewrite filter_none; [done|]. by intros w [_ ?].
Qed.

Lemma join_answers attempt_id (l : list Answer.row) (vs : list QuestionVersion.row) :
  NoDup (QuestionVersion.key <$> vs) →
  Forall (λ a, (Answer.question_id a, Answer.question_version a)
               ∈ QuestionVersion.key <$> vs) l →
  (filter (λ '(a, v), (QuestionVersion.question_id v = Answer.question_id a
                       ∧ QuestionVersion.version v = Answer.question_version a)
                      ∧ Answer.attempt_id a = attempt_id) (list_prod l vs)).*1
  = filter (λ a, Answer.attempt_id a = attempt_id) l
  ∧ Forall (λ av, head (filter (λ v, QuestionVersion.key v
                                     = (Answer.question_id av.1, Answer.question_version av.1))
                               vs) = Some av.2)
      (filter (λ '(a, v), (QuestionVersion.question_id v = Answer.question_id a
                           ∧ QuestionVersion.version v = Answer.question_version a)
                          ∧ Answer.attempt_id a = attempt_id) (list_prod l vs)).
Proof.
  intros Hu. induction 1 as [|a l Ha _ [IH1 IH2]]; [done|].
  destruct (join_one_answer attempt_id a vs Hu Ha) as (v & Hv & Hrow).
  simpl. rewrite filter_app, fmap_app, Forall_app.
  change (map (λ y, (a, y)) vs) with (pair a <$> vs). rewrite Hrow.
  rewrite IH1, filter_cons.
  destruct (decide (Answer.attempt_id a = attempt_id)); simpl.
  - split; [done|]. split; [|done]. by apply Forall_singleton.
  - done.
Qed.

(** On a store that satisfies the constraints, [test_user_answers] shows
    every answer of the attempt exactly once, as many as [test_user_grade]
    counts in its total, each beside the version it pins (not the latest
    one). *)
Theorem test_user_answers_complete test_id uid current test course attempt db :
  head (select_test_course test_id db) = Some (test, course) →
  Course.teacher_id course = user_id current ∨ "test:answer:read" ∈ permissions current →
  select_attempt_of (Test.id test) uid db = [attempt] →
  unique_on QuestionVersion.key (question_versions db) →
  references (λ r, (Answer.question_id r, Answer.question_version r)) (answers db)
    QuestionVersion.key (question_versions db) →
  ∃ rows,
    get_session (test_user_answers test_id uid current) db
    = (Ok (JObj [("test_id", JInt (Test.id test)); ("user_id", JInt uid);
                 ("attempt_id", JInt (Attempt.id attempt));
                 ("answers", JList (review_entry <$> rows))]), db)
    ∧ rows.*1 ≡ₚ answers_of (Attempt.id attempt) db
    ∧ Forall (λ av, pinned_version av.1 db = Some av.2) rows
    ∧ Z.of_nat (length rows) = count_answers (Attempt.id attempt) db.
Proof.
  intros Hsel Hwho Hatt Hu Hfk.
  exists (select_answers_with_versions (Attempt.id attempt) db).
  destruct (join_answers (Attempt.id attempt) (answers db) (question_versions db) Hu Hfk)
    as [Hfst Hpin].
  assert (select_answers_with_versions (Attempt.id attempt) db
          ≡ₚ filter (λ '(a, v), (QuestionVersion.question_id v = Answer.question_id a
                                 ∧ QuestionVersion.version v = Answer.question_version a)
                                ∧ Answer.attempt_id a = Attempt.id attempt)
                    (list_prod (answers db) (question_versions db))) as Hperm
    by apply merge_sort_Permutation.
  split_and!.
  - unfold get_session, test_user_answers.
    rewrite (bind_Ok _ _ _ _ _ (get_test_course_found _ _ _ (mkSession db db) Hsel)).
    rewrite (bind_Ok _ _ _ _ _ (ensure_teacher_or_perm_allowed _ _ _ (mkSession db db) Hwho)).
    unfold bind at 1, execute at 1. simpl. rewrite Hatt.
    unfold bind at 1. by rewrite scalar_one_or_none_single.
  - rewrite Hperm, Hfst. done.
  - rewrite Hperm. exact Hpin.
  - unfold count_answers. f_equal.
    rewrite <- Hfst, length_fmap. by rewrite Hperm.
Qed.

Lemma test_user_answers_complete_witness :
  ∃ rows,
    get_session (test_user_answers 1 20 Demo.teacher) Demo.db_revised
    = (Ok (JObj [("test_id", JInt 1); ("user_id", JInt 20); ("attempt_id", JInt 1);
                 ("answers", JList (review_entry <$> rows))]), Demo.db_revised)
    ∧ rows.*1 ≡ₚ answers_of 1 Demo.db_revised
    ∧ Forall (λ av, pinned_version av.1 Demo.db_revised = Some av.2) rows
    ∧ Z.of_nat (length rows) = count_answers 1 Demo.db_revised.
Proof.
  apply (test_user_answers_complete 1 20 Demo.teacher (Test.mk 1 1 true false)
           (Course.mk 1 10 false) (Attempt.mk 1 1 20 "in_progress") Demo.db_revised).
  - reflexivity.
  - left. reflexivity.
  - reflexivity.
  - apply (bool_decide_unpack _). vm_compute. exact I.
  - apply (bool_decide_unpack _). vm_compute. exact I.
Defined.

(** * The question bank *)

(** ** [question_create] *)

Lemma filter_none_in {A : Type} (P : A → Prop) `{!∀ x, Decision (P x)} (l : list A) :
  (∀ x, x ∈ l → ¬ P x) → filter P l = [].
Proof.
  induction l as [|a l IH]; intros HP; [done|].
  rewrite filter_cons. rewrite decide_False by (apply HP, list_elem_of_here).
  apply IH. intros x Hx. apply HP. by apply list_elem_of_further.
Qed.





(** * Switching a test or a course off *)

(** ** The UPDATE of one test row *)

Lemma unique_row {A K : Type} `{EqDecision K} (key : A → K) (l : list A) (x : A) :
  NoDup (key <$> l) → x ∈ l → filter (λ r, key r = key x) l = [x].
Proof.
  intros Hnd Hx.
  destruct (filter_unique_key key (key x) l Hnd) as [Hnil|[v Hv]].
  - exfalso. assert (x ∈ @nil A) as Hbad; [|by apply elem_of_nil in Hbad].
    rewrite <- Hnil. by apply list_elem_of_filter.
  - rewrite Hv. f_equal. symmetry. apply list_elem_of_singleton. rewrite <- Hv.
    by apply list_elem_of_filter.
Qed.

Lemma update_test_same test db :
  unique_on Test.id (tests db) → test ∈ tests db →
  with_tests (fmap (λ r, if decide (Test.id r = Test.id test) then test else r)) db = db.
Proof.
  intros Hu Hin. unfold with_tests.
  assert ((λ r, if decide (Test.id r = Test.id test) then test else r) <$> tests db
          = tests db) as ->; [|by destruct db].
  rewrite <- (list_fmap_id (tests db)) at 2.
  apply list_fmap_ext. intros k r Hr. apply list_elem_of_lookup_2 in Hr.
  case_decide as Hid; [|done]. simpl.
  symmetry. by apply (NoDup_fmap_eq Test.id (tests db)).
Qed.

Lemma tests_ok_update test changed db :
  tests_ok db → test ∈ tests db →
  Test.id changed = Test.id test → Test.course_id changed = Test.course_id test →
  tests_ok (with_tests (fmap (λ r, if decide (Test.id r = Test.id test) then changed else r)) db).
Proof.
  intros [Hid Hfk] Hin Hi Hc. unfold tests_ok, unique_on, references in *. simpl.
  rewrite <- !list_fmap_compose, !Forall_fmap. split.
  - erewrite list_fmap_ext; [exact Hid|]. intros k r _. simpl. case_decide; congruence.
  - rewrite Forall_forall in Hfk. apply Forall_forall. intros r Hr. simpl.
    case_decide; [rewrite Hc|]; by apply Hfk.
Qed.

Lemma update_test_Ok test changed c db :
  tests_ok db → test ∈ tests db →
  Test.id changed = Test.id test → Test.course_id changed = Test.course_id test →
  update_test test changed (mkSession c db)
  = (Ok (), mkSession c
       (with_tests (fmap (λ r, if decide (Test.id r = Test.id test) then changed else r)) db)).
Proof.
  intros Hok Hin Hi Hc. unfold update_test. case_decide as Hsame.
  - subst changed. unfold ret. by rewrite (update_test_same _ _ (proj1 Hok) Hin).
  - unfold statement. simpl. rewrite decide_True; [done|]. by apply tests_ok_update.
Qed.

Lemma tests_with_id_updated test changed db :
  unique_on Test.id (tests db) → test ∈ tests db → Test.id changed = Test.id test →
  filter (λ t, Test.id t = Test.id test)
    ((λ r, if decide (Test.id r = Test.id test) then changed else r) <$> tests db)
  = [changed].
Proof.
  intros Hu Hin Hi. rewrite filter_fmap_comm.
  rewrite (list_filter_iff _ (λ r, Test.id r = Test.id test))
    by (intros r; simpl; case_decide; split; congruence).
  rewrite (unique_row Test.id _ _ Hu Hin). simpl. by rewrite decide_True.
Qed.

Lemma select_test_updated test changed db :
  unique_on Test.id (tests db) → test ∈ tests db → Test.id changed = Test.id test →
  select_test (Test.id test)
    (with_tests (fmap (λ r, if decide (Test.id r = Test.id test) then changed else r)) db)
  = if decide (Test.is_deleted changed = false) then [changed] else [].
Proof.
  intros Hu Hin Hi. unfold select_test. simpl.
  rewrite (list_filter_iff _ (λ t, Test.is_deleted t = false ∧ Test.id t = Test.id test))
    by (intros r; tauto).
  rewrite <- list_filter_filter. rewrite (tests_with_id_updated _ _ _ Hu Hin Hi).
  rewrite filter_cons, filter_nil. done.
Qed.

Lemma select_test_in_course_updated test changed db :
  unique_on Test.id (tests db) → test ∈ tests db →
  Test.id changed = Test.id test → Test.course_id changed = Test.course_id test →
  select_test_in_course (Test.course_id test) (Test.id test)
    (with_tests (fmap (λ r, if decide (Test.id r = Test.id test) then changed else r)) db)
  = if decide (Test.is_deleted changed = false) then [changed] else [].
Proof.
  intros Hu Hin Hi Hc. unfold select_test_in_course. simpl.
  rewrite (list_filter_iff _
    (λ t, (Test.course_id t = Test.course_id test ∧ Test.is_deleted t = false)
          ∧ Test.id t = Test.id test)) by (intros r; tauto).
  rewrite <- list_filter_filter. rewrite (tests_with_id_updated _ _ _ Hu Hin Hi).
  rewrite filter_cons, filter_nil.
  destruct (decide (Test.is_deleted changed = false)) as [Hd|Hd].
  - by rewrite decide_True.
  - rewrite decide_False; [done|]. by intros [_ ?].
Qed.

Lemma select_test_in_course_row course_id test_id test db :
  select_test_in_course course_id test_id db = [test] →
  test ∈ tests db ∧ Test.id test = test_id ∧ Test.course_id test = course_id
  ∧ Test.is_deleted test = false.
Proof.
  intros Hsel.
  assert (test ∈ select_test_in_course course_id test_id db) as Hin
    by (rewrite Hsel; by apply list_elem_of_singleton).
  apply list_elem_of_filter in Hin as [(? & ? & ?) ?]. done.
Qed.

Lemma update_twice (test c1 c2 : Test.row) db :
  Test.id c1 = Test.id test →
  with_tests (fmap (λ r, if decide (Test.id r = Test.id test) then c2 else r))
    (with_tests (fmap (λ r, if decide (Test.id r = Test.id test) then c1 else r)) db)
  = with_tests (fmap (λ r, if decide (Test.id r = Test.id test) then c2 else r)) db.
Proof.
  intros Hi. unfold with_tests. simpl. f_equal.
  rewrite <- list_fmap_compose. apply list_fmap_ext. intros k r _. simpl.
  destruct (decide (Test.id r = Test.id test)) as [Hid|Hid]; simpl;
    [by rewrite decide_True|by rewrite decide_False].
Qed.

(** ** [course_test_active] *)

Lemma course_gate_open (course : Course.row) current perm :
  Course.teacher_id course = user_id current ∨ perm ∈ permissions current →
  negb (is_teacher course (user_id current)) && negb (has_perm current perm) = false.
Proof.
  intros [Ht|Hp]; unfold is_teacher, has_perm.
  - by rewrite bool_decide_true.
  - rewrite (bool_decide_true (perm ∈ permissions current)) by done.
    by rewrite andb_false_r.
Qed.

Lemma course_test_active_Ok course_id test_id active current course test db :
  select_course course_id db = [course] →
  Course.teacher_id course = user_id current ∨ "course:test:write" ∈ permissions current →
  select_test_in_course course_id test_id db = [test] →
  tests_ok db →
  get_session (course_test_active course_id test_id active current) db
  = (Ok [("status", VStr "ok")],
     with_tests (fmap (λ r, if decide (Test.id r = Test.id test)
                            then test_set_is_active active test else r)) db).
Proof.
  intros Hc Hwho Ht Hok.
  destruct (select_test_in_course_row _ _ _ _ Ht) as (Hin & _).
  unfold get_session, course_test_active.
  rewrite (bind_Ok _ _ _ _ _ (get_course_or_404_found _ _ (mkSession db db) Hc)).
  rewrite (course_gate_open _ _ _ Hwho).
  unfold bind at 1, execute at 1. simpl. rewrite Ht.
  unfold bind at 1. rewrite scalar_one_or_none_single.
  by rewrite (bind_Ok _ _ _ _ _
    (update_test_Ok test (test_set_is_active active test) db db Hok Hin eq_refl eq_refl)).
Qed.

(** The teacher of the course (or a holder of course:test:write) switches a
    test of the course on or off, and the switch is what [attempt_create]
    obeys: after switching off, every caller, with or without an attempt, is
    refused with 400 'Test is not active'; after switching on, a caller who
    has an attempt gets it back.  No other row changes, and switching back
    restores the store exactly. *)
Theorem course_test_active_switch course_id test_id active current course test db :
  select_course course_id db = [course] →
  Course.teacher_id course = user_id current ∨ "course:test:write" ∈ permissions current →
  select_test_in_course course_id test_id db = [test] →
  tests_ok db →
  ∃ db',
    get_session (course_test_active course_id test_id active current) db
    = (Ok [("status", VStr "ok")], db')
    ∧ select_test test_id db' = [test_set_is_active active test]
    ∧ (active = false → ∀ caller,
         get_session (attempt_create test_id caller) db'
         = (Raise (HTTPException 400 "Bad Request" [("message", "Test is not active")]), db'))
    ∧ (active = true → ∀ caller existing,
         select_attempt_of test_id (user_id caller) db = [existing] →
         get_session (attempt_create test_id caller) db'
         = (Ok [("id", VInt (Attempt.id existing))], db'))
    ∧ get_session (course_test_active course_id test_id (Test.is_active test) current) db'
      = (Ok [("status", VStr "ok")], db).
Proof.
  intros Hc Hwho Ht Hok.
  destruct (select_test_in_course_row _ _ _ _ Ht) as (Hin & Hid & Hcid & Hdel).
  subst test_id course_id.
  pose proof (select_test_updated test (test_set_is_active active test) db
                (proj1 Hok) Hin eq_refl) as Hsel.
  simpl in Hsel. rewrite decide_True in Hsel by done.
  eexists. split; [by apply (course_test_active_Ok _ _ _ _ course test)|].
  set (db' := with_tests _ db) in *.
  split_and!.
  - exact Hsel.
  - intros -> caller. by apply (attempt_create_inactive _ _ _ _ Hsel).
  - intros -> caller existing Hex. by apply (attempt_create_existing _ _ _ _ _ Hsel).
  - assert (select_test_in_course (Test.course_id test) (Test.id test) db'
            = [test_set_is_active active test]) as Ht'.
    { pose proof (select_test_in_course_updated test (test_set_is_active active test) db
                    (proj1 Hok) Hin eq_refl eq_refl) as Hupd.
      simpl in Hupd. by rewrite decide_True in Hupd by done. }
    assert (tests_ok db') as Hok' by (by apply tests_ok_update).
    rewrite (course_test_active_Ok _ _ _ _ course _ db' Hc Hwho Ht' Hok'). f_equal.
    unfold db'. simpl.
    assert (test_set_is_active (Test.is_active test) (test_set_is_active active test) = test)
      as -> by (by destruct test).
    rewrite (update_twice test (test_set_is_active active test) test db eq_refl).
    by apply update_test_same; [apply Hok|].
Qed.

Lemma course_test_active_switch_witness :
  ∃ db',
    get_session (course_test_active 1 1 false Demo.teacher) Demo.db_started
    = (Ok [("status", VStr "ok")], db')
    ∧ select_test 1 db' = [Test.mk 1 1 false false]
    ∧ (false = false → ∀ caller,
         get_session (attempt_create 1 caller) db'
         = (Raise (HTTPException 400 "Bad Request" [("message", "Test is not active")]), db'))
    ∧ (false = true → ∀ caller existing,
         select_attempt_of 1 (user_id caller) Demo.db_started = [existing] →
         get_session (attempt_create 1 caller) db'
         = (Ok [("id", VInt (Attempt.id existing))], db'))
    ∧ get_session (course_test_active 1 1 true Demo.teacher) db'
      = (Ok [("status", VStr "ok")], Demo.db_started).
Proof.
  apply (course_test_active_switch 1 1 false Demo.teacher (Course.mk 1 10 false)
           (Test.mk 1 1 true false) Demo.db_started).
  - reflexivity.
  - left. reflexivity.
  - reflexivity.
  - apply (bool_decide_unpack _). vm_compute. exact I.
Defined.

(** ** [course_test_del] *)

Lemma get_test_or_404_hidden test_id s :
  select_test test_id (view s) = [] →
  get_test_or_404 test_id s = (Raise (HTTPException 404 "Not found" []), s).
Proof. intros H. unfold get_test_or_404, bind, execute. by rewrite H. Qed.

Lemma select_test_course_hidden test_id db :
  select_test test_id db = [] → select_test_course test_id db = [].
Proof.
  intros Hnone. unfold select_test_course. apply filter_none_in.
  intros [t c] Hin (_ & Hid & Hdel & _). apply elem_of_list_prod in Hin as [Ht _].
  assert (t ∈ select_test test_id db) as Hbad by (by apply list_elem_of_filter).
  rewrite Hnone in Hbad. by apply elem_of_nil in Hbad.
Qed.

Lemma get_test_course_hidden test_id s :
  select_test test_id (view s) = [] →
  get_test_course test_id s = (Raise (HTTPException 404 "Not found" []), s).
Proof.
  intros H. unfold get_test_course, bind, execute.
  by rewrite (select_test_course_hidden _ _ H).
Qed.

Lemma course_test_del_Ok course_id test_id current course test db :
  select_course course_id db = [course] →
  Course.teacher_id course = user_id current ∨ "course:test:del" ∈ permissions current →
  select_test_in_course course_id test_id db = [test] →
  tests_ok db →
  get_session (course_test_del course_id test_id current) db
  = (Ok [("status", VStr "ok")],
     with_tests (fmap (λ r, if decide (Test.id r = Test.id test)
                            then test_set_is_deleted true test else r)) db).
Proof.
  intros Hc Hwho Ht Hok.
  destruct (select_test_in_course_row _ _ _ _ Ht) as (Hin & _).
  unfold get_session, course_test_del.
  rewrite (bind_Ok _ _ _ _ _ (get_course_or_404_found _ _ (mkSession db db) Hc)).
  rewrite (course_gate_open _ _ _ Hwho).
  unfold bind at 1, execute at 1. simpl. rewrite Ht.
  unfold bind at 1. rewrite scalar_one_or_none_single.
  by rewrite (bind_Ok _ _ _ _ _
    (update_test_Ok test (test_set_is_deleted true test) db db Hok Hin eq_refl eq_refl)).
Qed.

(** [course_test_del] is a soft delete: the row of the test stays, flagged,
    and so do its questions, attempts, snapshots and answers.  From then on
    the test is gone for every handler that looks it up: [attempt_create],
    the three teacher reports and the three composition handlers answer 404
    to every caller, and neither [course_test_active] nor a second
    [course_test_del] finds it again. *)
Theorem course_test_del_hides_test str_strip int_of_str
    course_id test_id current course test db :
  select_course course_id db = [course] →
  Course.teacher_id course = user_id current ∨ "course:test:del" ∈ permissions current →
  select_test_in_course course_id test_id db = [test] →
  tests_ok db →
  let not_found {A} : result A := Raise (HTTPException 404 "Not found" []) in
  ∃ db',
    get_session (course_test_del course_id test_id current) db
    = (Ok [("status", VStr "ok")], db')
    ∧ Test.id <$> tests db' = Test.id <$> tests db
    ∧ test_questions db' = test_questions db ∧ attempts db' = attempts db
    ∧ attempt_questions db' = attempt_questions db ∧ answers db' = answers db
    ∧ (∀ caller, get_session (attempt_create test_id caller) db' = (not_found, db'))
    ∧ (∀ caller uid,
         get_session (test_attempts test_id caller) db' = (not_found, db')
         ∧ get_session (test_user_grade test_id uid caller) db' = (not_found, db')
         ∧ get_session (test_user_answers test_id uid caller) db' = (not_found, db'))
    ∧ (∀ caller question_id csv,
         get_session (test_question_add test_id question_id caller) db' = (not_found, db')
         ∧ get_session (test_question_del test_id question_id caller) db' = (not_found, db')
         ∧ get_session (test_question_order str_strip int_of_str test_id csv caller) db'
           = (not_found, db'))
    ∧ (∀ caller active,
         Course.teacher_id course = user_id caller
         ∨ "course:test:write" ∈ permissions caller →
         get_session (course_test_active course_id test_id active caller) db'
         = (not_found, db'))
    ∧ get_session (course_test_del course_id test_id current) db' = (not_found, db').
Proof.
  intros Hc Hwho Ht Hok not_found.
  destruct (select_test_in_course_row _ _ _ _ Ht) as (Hin & Hid & Hcid & Hdel).
  subst test_id course_id.
  pose proof (select_test_updated test (test_set_is_deleted true test) db
                (proj1 Hok) Hin eq_refl) as Hsel.
  rewrite decide_False in Hsel by (simpl; discriminate).
  pose proof (select_test_in_course_updated test (test_set_is_deleted true test) db
                (proj1 Hok) Hin eq_refl eq_refl) as Hsel2.
  rewrite decide_False in Hsel2 by (simpl; discriminate).
  eexists. split; [by apply (course_test_del_Ok _ _ _ course test)|].
  set (db' := with_tests _ db) in *.
  assert (select_course (Test.course_id test) db' = [course]) as Hc' by exact Hc.
  pose proof (get_test_or_404_hidden (Test.id test) (mkSession db' db') Hsel) as Hget.
  pose proof (get_test_course_hidden (Test.id test) (mkSession db' db') Hsel) as Hgetc.
  split_and!; try done.
  - unfold db'. simpl. rewrite <- list_fmap_compose. apply list_fmap_ext.
    intros k r _. simpl. by case_decide.
  - intros caller. by apply attempt_create_not_found.
  - intros caller uid.
    unfold get_session, test_attempts, test_user_grade, test_user_answers.
    by rewrite !(bind_Raise _ _ _ _ _ Hgetc).
  - intros caller question_id csv.
    unfold get_session, test_question_add, test_question_del, test_question_order.
    by rewrite !(bind_Raise _ _ _ _ _ Hget).
  - intros caller active Hcaller. unfold get_session, course_test_active.
    rewrite (bind_Ok _ _ _ _ _ (get_course_or_404_found _ _ (mkSession db' db') Hc')).
    rewrite (course_gate_open _ _ _ Hcaller).
    unfold bind at 1, execute at 1. simpl. by rewrite Hsel2.
  - unfold get_session, course_test_del.
    rewrite (bind_Ok _ _ _ _ _ (get_course_or_404_found _ _ (mkSession db' db') Hc')).
    rewrite (course_gate_open _ _ _ Hwho).
    unfold bind at 1, execute at 1. simpl. by rewrite Hsel2.
Qed.

Lemma course_test_del_hides_test_witness :
  let not_found {A} : result A := Raise (HTTPException 404 "Not found" []) in
  ∃ db',
    get_session (course_test_del 1 1 Demo.teacher) Demo.db_started
    = (Ok [("status", VStr "ok")], db')
    ∧ Test.id <$> tests db' = Test.id <$> tests Demo.db_started
    ∧ test_questions db' = test_questions Demo.db_started
    ∧ attempts db' = attempts Demo.db_started
    ∧ attempt_questions db' = attempt_questions Demo.db_started
    ∧ answers db' = answers Demo.db_started
    ∧ (∀ caller, get_session (attempt_create 1 caller) db' = (not_found, db'))
    ∧ (∀ caller uid,
         get_session (test_attempts 1 caller) db' = (not_found, db')
         ∧ get_session (test_user_grade 1 uid caller) db' = (not_found, db')
         ∧ get_session (test_user_answers 1 uid caller) db' = (not_found, db'))
    ∧ (∀ caller question_id csv,
         get_session (test_question_add 1 question_id caller) db' = (not_found, db')
         ∧ get_session (test_question_del 1 question_id caller) db' = (not_found, db')
         ∧ get_session (test_question_order Demo.ascii_strip Demo.decimal_int 1 csv caller) db'
           = (not_found, db'))
    ∧ (∀ caller active,
         Course.teacher_id (Course.mk 1 10 false) = user_id caller
         ∨ "course:test:write" ∈ permissions caller →
         get_session (course_test_active 1 1 active caller) db' = (not_found, db'))
    ∧ get_session (course_test_del 1 1 Demo.teacher) db' = (not_found, db').
Proof.
  apply (course_test_del_hides_test Demo.ascii_strip Demo.decimal_int 1 1 Demo.teacher
           (Course.mk 1 10 false) (Test.mk 1 1 true false) Demo.db_started).
  - reflexivity.
  - left. reflexivity.
  - reflexivity.
  - apply (bool_decide_unpack _). vm_compute. exact I.
Defined.

Example course_switches_reach_the_stored_states :
  (get_session (course_test_active 1 1 false Demo.teacher) Demo.db_started).2
  = Demo.db_deactivated
  ∧ (get_session (course_test_del 1 1 Staff.dean) Demo.db_started).2 = Demo.db_test_deleted
  ∧ (get_session (course_delete 1 Demo.teacher) Demo.db_started).2 = Demo.db_course_deleted.
Proof. vm_compute. done. Qed.

(** * What a handler never looks at *)

Lemma ignores_ret {A : Type} t (a : A) : ignores t (ret a).
Proof. by intros s. Qed.

Lemma ignores_raise {A : Type} t e : ignores t (@raise A e).
Proof. by intros s. Qed.

Lemma ignores_http_error {A : Type} t c m d : ignores t (@http_error A c m d).
Proof. by intros s. Qed.

Lemma ignores_execute {A : Type} t (q : DB → A) :
  (∀ db, q (t db) = q db) → ignores t (execute q).
Proof. intros Hq s. unfold execute. simpl. by rewrite Hq. Qed.

Lemma ignores_statement t (ok : DB → Prop) `{!∀ db, Decision (ok db)} write :
  (∀ db, ok (t db) ↔ ok db) → (∀ db, write (t db) = t (write db)) →
  ignores t (statement ok write).
Proof.
  intros Hok Hw s. unfold statement. simpl. rewrite Hw.
  destruct (decide (ok (write (view s)))) as [Hy|Hn].
  - by rewrite decide_True by (by apply Hok).
  - by rewrite decide_False by (by rewrite Hok).
Qed.

Lemma ignores_commit t : ignores t commit.
Proof. by intros s. Qed.

Lemma ignores_scalar_one_or_none {A : Type} t (rows : list A) :
  ignores t (scalar_one_or_none rows).
Proof. intros s. by destruct rows as [|r [|r' rows]]. Qed.

Lemma ignores_bind {A B : Type} t (m : M A) (k : A → M B) :
  ignores t m → (∀ a, ignores t (k a)) → ignores t (bind m k).
Proof.
  intros Hm Hk s. unfold bind. rewrite Hm.
  destruct (m s) as [[a|e] s1]; simpl; [apply Hk|done].
Qed.

Lemma ignores_get_session {A : Type} t (h : M A) db :
  ignores t h →
  get_session h (t db) = ((get_session h db).1, t (get_session h db).2).
Proof.
  intros Hh. unfold get_session.
  change (mkSession (t db) (t db)) with (lift_session t (mkSession db db)).
  rewrite Hh. by destruct (h (mkSession db db)) as [r s].
Qed.

#[global] Hint Resolve ignores_ret ignores_raise ignores_http_error ignores_commit
  ignores_scalar_one_or_none : session.

Ltac ignores_step :=
  first [ apply ignores_bind; [|intros ?]
        | apply ignores_execute; intros ?; reflexivity
        | match goal with |- ignores _ (match ?x with _ => _ end) => destruct x end
        | match goal with |- ignores _ (if ?b then _ else _) => destruct b end
        | solve [auto with session] ].

(** ** Answering goes on whatever happens to the test *)

Lemma ignores_get_attempt_or_404 f g h k attempt_id :
  ignores (elsewhere f g h k) (get_attempt_or_404 attempt_id).
Proof. unfold get_attempt_or_404. repeat ignores_step. Qed.

Lemma ignores_update_answer_index f g h k ans index :
  ignores (elsewhere f g h k) (update_answer_index ans index).
Proof.
  unfold update_answer_index. case_decide; [auto with session|].
  apply ignores_statement; intros db; reflexivity.
Qed.

Lemma ignores_answer_update f g h k answer_id index current :
  ignores (elsewhere f g h k) (answer_update answer_id index current).
Proof.
  unfold answer_update.
  repeat first [ apply ignores_get_attempt_or_404 | apply ignores_update_answer_index
               | ignores_step ].
Qed.

Lemma ignores_answer_delete f g h k answer_id current :
  ignores (elsewhere f g h k) (answer_delete answer_id current).
Proof.
  unfold answer_delete.
  repeat first [ apply ignores_get_attempt_or_404 | apply ignores_update_answer_index
               | ignores_step ].
Qed.

Lemma ignores_attempt_get f g h k attempt_id current :
  ignores (elsewhere f g h k) (attempt_get attempt_id current).
Proof. unfold attempt_get. repeat ignores_step. Qed.

Lemma attempts_ok_elsewhere f g h k db :
  (∀ rows, Test.id <$> h rows = Test.id <$> rows) →
  attempts_ok (elsewhere f g h k db) ↔ attempts_ok db.
Proof. intros Hh. unfold attempts_ok, references. simpl. by rewrite Hh. Qed.

Lemma ignores_attempt_finish f g h k attempt_id current :
  (∀ rows, Test.id <$> h rows = Test.id <$> rows) →
  ignores (elsewhere f g h k) (attempt_finish attempt_id current).
Proof.
  intros Hh. unfold attempt_finish, update_attempt_status.
  repeat first [ apply ignores_statement;
                 [intros db; by apply attempts_ok_elsewhere|intros db; reflexivity]
               | ignores_step ].
Qed.

(** The handlers a student works with on an attempt read and write the
    attempt, its snapshot and its answers and nothing else: [answer_update],
    [answer_delete] and [attempt_get] give the same result, and make the
    same change, whatever is done to the courses, the questions, the tests
    and their compositions, and so does [attempt_finish] as long as no test
    row is removed.  A test switched off or soft-deleted, or a course
    soft-deleted, does not stop an attempt that was started. *)
Theorem attempt_work_ignores_test_state f g h k db :
  let there := elsewhere f g h k in
  (∀ answer_id index current,
     get_session (answer_update answer_id index current) (there db)
     = ((get_session (answer_update answer_id index current) db).1,
        there (get_session (answer_update answer_id index current) db).2))
  ∧ (∀ answer_id current,
       get_session (answer_delete answer_id current) (there db)
       = ((get_session (answer_delete answer_id current) db).1,
          there (get_session (answer_delete answer_id current) db).2))
  ∧ (∀ attempt_id current,
       get_session (attempt_get attempt_id current) (there db)
       = ((get_session (attempt_get attempt_id current) db).1,
          there (get_session (attempt_get attempt_id current) db).2))
  ∧ ((∀ rows, Test.id <$> h rows = Test.id <$> rows) →
     ∀ attempt_id current,
       get_session (attempt_finish attempt_id current) (there db)
       = ((get_session (attempt_finish attempt_id current) db).1,
          there (get_session (attempt_finish attempt_id current) db).2)).
Proof.
  intros there. split_and!.
  - intros. apply ignores_get_session, ignores_answer_update.
  - intros. apply ignores_get_session, ignores_answer_delete.
  - intros. apply ignores_get_session, ignores_attempt_get.
  - intros Hh **. by apply ignores_get_session, ignores_attempt_finish.
Qed.

Lemma attempt_work_ignores_test_state_witness :
  get_session (answer_update 2 1 Demo.student) Demo.db_test_deleted
  = (Ok [("status", VStr "ok")],
     elsewhere id id (fmap (test_set_is_deleted true)) id
       (get_session (answer_update 2 1 Demo.student) Demo.db_started).2)
  ∧ get_session (attempt_finish 1 Demo.student) Demo.db_test_deleted
    = (Ok [("status", VStr "ok")],
       elsewhere id id (fmap (test_set_is_deleted true)) id
         (get_session (attempt_finish 1 Demo.student) Demo.db_started).2).
Proof.
  destruct (attempt_work_ignores_test_state id id (fmap (test_set_is_deleted true)) id
              Demo.db_started) as (Hupd & _ & _ & Hfin).
  split.
  - exact (Hupd 2 1 Demo.student).
  - apply (Hfin (λ rows, eq_sym (list_fmap_compose (test_set_is_deleted true) Test.id rows))
             1 Demo.student).
Defined.

(** ** [attempt_create] does not look at the course *)

Lemma ignores_add_attempt f g test_id uid status :
  ignores (elsewhere f g id id) (add_attempt test_id uid status).
Proof.
  unfold add_attempt.
  repeat first [ apply ignores_statement; intros db; reflexivity | ignores_step ].
Qed.

Lemma ignores_add_attempt_question f g aq :
  ignores (elsewhere f g id id) (add_attempt_question aq).
Proof. unfold add_attempt_question. apply ignores_statement; intros db; reflexivity. Qed.

Lemma ignores_add_answer f g a q v i :
  ignores (elsewhere f g id id) (add_answer a q v i).
Proof.
  unfold add_answer.
  repeat first [ apply ignores_statement; intros db; reflexivity | ignores_step ].
Qed.

Lemma ignores_attempt_create_loop f g attempt_id rows :
  ignores (elsewhere f g id id) (attempt_create_loop attempt_id rows).
Proof.
  induction rows as [|[q p] rows IH]; simpl; [auto with session|].
  repeat first [ apply ignores_add_attempt_question | apply ignores_add_answer
               | exact IH | ignores_step ].
Qed.

Lemma ignores_attempt_create f g test_id current :
  ignores (elsewhere f g id id) (attempt_create test_id current).
Proof.
  unfold attempt_create.
  repeat first [ apply ignores_add_attempt | apply ignores_attempt_create_loop
               | ignores_step ].
Qed.

(** ** [course_delete] *)

Lemma course_delete_Ok course_id current course db :
  select_course course_id db = [course] →
  Course.teacher_id course = user_id current ∨ "course:del" ∈ permissions current →
  courses_ok db →
  get_session (course_delete course_id current) db
  = (Ok [("status", VStr "ok")],
     with_courses (fmap (λ r, if decide (Course.id r = Course.id course)
                              then course_set_is_deleted true r else r)) db).
Proof.
  intros Hc Hwho Hok. unfold get_session, course_delete.
  unfold bind at 1, execute at 1. simpl. rewrite Hc.
  unfold bind at 1. rewrite scalar_one_or_none_single.
  change (is_teacher_of course (user_id current)) with (is_teacher course (user_id current)).
  rewrite (course_gate_open _ _ _ Hwho).
  unfold bind at 1, statement. simpl. rewrite decide_True; [done|].
  unfold courses_ok, unique_on in *. simpl. rewrite <- list_fmap_compose.
  erewrite list_fmap_ext; [exact Hok|]. intros i r _. simpl. by case_decide.
Qed.

Lemma select_course_deleted course_id db :
  select_course course_id
    (with_courses (fmap (λ r, if decide (Course.id r = course_id)
                              then course_set_is_deleted true r else r)) db) = [].
Proof.
  unfold select_course. simpl. rewrite filter_fmap_comm.
  rewrite filter_none; [done|]. intros r. simpl.
  destruct (decide (Course.id r = course_id)); simpl; intros [? ?]; congruence.
Qed.

Lemma get_course_or_404_hidden course_id s :
  select_course course_id (view s) = [] →
  get_course_or_404 course_id s = (Raise (HTTPException 404 "Not found" []), s).
Proof. intros H. unfold get_course_or_404, bind, execute. by rewrite H. Qed.

Lemma select_test_course_of_deleted test_id test db :
  select_test test_id db = [test] →
  select_test_course test_id
    (with_courses (fmap (λ r, if decide (Course.id r = Test.course_id test)
                              then course_set_is_deleted true r else r)) db) = [].
Proof.
  intros Ht. unfold select_test_course. apply filter_none_in.
  intros [t c] Hin (Hcid & Hid & Hdel & Hcdel).
  apply elem_of_list_prod in Hin as [Hin Hc]. simpl in Hin, Hc.
  assert (t ∈ select_test test_id db) as Hsel by (by apply list_elem_of_filter).
  rewrite Ht in Hsel. apply list_elem_of_singleton in Hsel as ->.
  apply list_elem_of_fmap in Hc as (c0 & -> & _).
  destruct (decide (Course.id c0 = Test.course_id test)) as [Heq|Hne]; simpl in *.
  - discriminate.
  - congruence.
Qed.

(** [course_delete] flags the course and touches nothing else: the tests of
    the course keep their rows, active or not.  The teacher's side of them
    is closed from then on (the three reports and the three composition
    handlers answer 404), while [attempt_create], which never looks at the
    course, goes on exactly as before: same result, same rows written. *)
Theorem course_delete_leaves_tests_open str_strip int_of_str course_id current course db :
  select_course course_id db = [course] →
  Course.teacher_id course = user_id current ∨ "course:del" ∈ permissions current →
  courses_ok db →
  let not_found {A} : result A := Raise (HTTPException 404 "Not found" []) in
  let there := elsewhere (fmap (λ r, if decide (Course.id r = course_id)
                                     then course_set_is_deleted true r else r)) id id id in
  get_session (course_delete course_id current) db = (Ok [("status", VStr "ok")], there db)
  ∧ get_session (course_delete course_id current) (there db) = (not_found, there db)
  ∧ (∀ test_id caller,
       get_session (attempt_create test_id caller) (there db)
       = ((get_session (attempt_create test_id caller) db).1,
          there (get_session (attempt_create test_id caller) db).2))
  ∧ (∀ test_id test caller uid question_id csv,
       select_test test_id db = [test] → Test.course_id test = course_id →
       get_session (test_attempts test_id caller) (there db) = (not_found, there db)
       ∧ get_session (test_user_grade test_id uid caller) (there db) = (not_found, there db)
       ∧ get_session (test_user_answers test_id uid caller) (there db) = (not_found, there db)
       ∧ get_session (test_question_add test_id question_id caller) (there db)
         = (not_found, there db)
       ∧ get_session (test_question_del test_id question_id caller) (there db)
         = (not_found, there db)
       ∧ get_session (test_question_order str_strip int_of_str test_id csv caller) (there db)
         = (not_found, there db)).
Proof.
  intros Hc Hwho Hok not_found there.
  assert (Course.id course = course_id) as Hid.
  { assert (course ∈ select_course course_id db) as Hin
      by (rewrite Hc; by apply list_elem_of_singleton).
    by apply list_elem_of_filter in Hin as [[? _] _]. }
  pose proof (select_course_deleted course_id db) as Hgone.
  split_and!.
  - rewrite (course_delete_Ok _ _ _ _ Hc Hwho Hok). by rewrite Hid.
  - unfold get_session, course_delete. unfold bind at 1, execute at 1. simpl.
    change (select_course course_id (there db)) with
      (select_course course_id
         (with_courses (fmap (λ r, if decide (Course.id r = course_id)
                                   then course_set_is_deleted true r else r)) db)).
    by rewrite Hgone.
  - intros test_id caller. apply ignores_get_session, ignores_attempt_create.
  - intros test_id test caller uid question_id csv Ht Hcid. clear Hid. subst course_id.
    assert (select_test_course test_id (there db) = []) as Hjoin
      by exact (select_test_course_of_deleted test_id test db Ht).
    assert (get_test_course test_id (mkSession (there db) (there db))
            = (not_found _, mkSession (there db) (there db))) as Hgetc.
    { unfold get_test_course, bind, execute. simpl. by rewrite Hjoin. }
    assert (select_test test_id (there db) = [test]) as Ht' by exact Ht.
    assert (∀ caller, ensure_can_edit_test caller test (mkSession (there db) (there db))
                      = (not_found _, mkSession (there db) (there db))) as Hedit.
    { intros c. unfold ensure_can_edit_test.
      by rewrite (bind_Raise _ _ _ _ _
        (get_course_or_404_hidden _ (mkSession (there db) (there db)) Hgone)). }
    pose proof (get_test_or_404_found test_id test (mkSession (there db) (there db)) Ht')
      as Hget.
    unfold get_session, test_attempts, test_user_grade, test_user_answers,
      test_question_add, test_question_del, test_question_order.
    rewrite !(bind_Raise _ _ _ _ _ Hgetc).
    rewrite !(bind_Ok _ _ _ _ _ Hget).
    by rewrite !(bind_Raise _ _ _ _ _ (Hedit caller)).
Qed.

Lemma course_delete_leaves_tests_open_witness :
  let not_found {A} : result A := Raise (HTTPException 404 "Not found" []) in
  let there := elsewhere (fmap (λ r, if decide (Course.id r = 1)
                                     then course_set_is_deleted true r else r)) id id id in
  get_session (course_delete 1 Demo.teacher) Demo.db_fresh
  = (Ok [("status", VStr "ok")], there Demo.db_fresh)
  ∧ get_session (course_delete 1 Demo.teacher) (there Demo.db_fresh)
    = (not_found, there Demo.db_fresh)
  ∧ (∀ test_id caller,
       get_session (attempt_create test_id caller) (there Demo.db_fresh)
       = ((get_session (attempt_create test_id caller) Demo.db_fresh).1,
          there (get_session (attempt_create test_id caller) Demo.db_fresh).2))
  ∧ (∀ test_id test caller uid question_id csv,
       select_test test_id Demo.db_fresh = [test] → Test.course_id test = 1 →
       get_session (test_attempts test_id caller) (there Demo.db_fresh)
       = (not_found, there Demo.db_fresh)
       ∧ get_session (test_user_grade test_id uid caller) (there Demo.db_fresh)
         = (not_found, there Demo.db_fresh)
       ∧ get_session (test_user_answers test_id uid caller) (there Demo.db_fresh)
         = (not_found, there Demo.db_fresh)
       ∧ get_session (test_question_add test_id question_id caller) (there Demo.db_fresh)
         = (not_found, there Demo.db_fresh)
       ∧ get_session (test_question_del test_id question_id caller) (there Demo.db_fresh)
         = (not_found, there Demo.db_fresh)
       ∧ get_session (test_question_order Demo.ascii_strip Demo.decimal_int test_id csv caller)
           (there Demo.db_fresh)
         = (not_found, there Demo.db_fresh)).
Proof.
  apply (course_delete_leaves_tests_open Demo.ascii_strip Demo.decimal_int
           1 Demo.teacher (Course.mk 1 10 false) Demo.db_fresh).
  - reflexivity.
  - left. reflexivity.
  - apply (bool_decide_unpack _). vm_compute. exact I.
Defined.

(** ** [question_update]: the numbering of versions *)





(** ** [question_delete] *)

Lemma select_question_deleted id db :
  select_question id
    (with_questions (fmap (λ r, if decide (Question.id r = id)
                                then question_set_is_deleted true r else r)) db) = [].
Proof.
  unfold select_question. simpl. rewrite filter_fmap_comm.
  rewrite filter_none; [done|]. intros r. simpl.
  destruct (decide (Question.id r = id)); simpl; intros [? ?]; congruence.
Qed.

Lemma question_delete_Ok id current q db :
  select_question id db = [q] →
  Question.author_id q = user_id current ∨ "quest:del" ∈ permissions current →
  questions_ok db →
  get_session (question_delete id current) db
  = (Ok [("status", VStr "ok")],
     with_questions (fmap (λ r, if decide (Question.id r = id)
                                then question_set_is_deleted true r else r)) db).
Proof.
  intros Hq Hwho Hok.
  assert (q ∈ select_question id db) as Hin by (rewrite Hq; by apply list_elem_of_singleton).
  apply list_elem_of_filter in Hin as [[Hid Hdel] _].
  unfold get_session, question_delete.
  unfold bind at 1, execute at 1. simpl. rewrite Hq.
  unfold bind at 1. rewrite scalar_one_or_none_single.
  assert (bool_decide (Question.author_id q ≠ user_id current)
          && negb (has_perm current QUEST_DEL) = false) as ->.
  { destruct Hwho as [Ha|Hp].
    - by rewrite bool_decide_false by (intros Hne; by apply Hne).
    - unfold has_perm, QUEST_DEL. rewrite (bool_decide_true (_ ∈ _)) by done.
      by rewrite andb_false_r. }
  unfold update_question_is_deleted. rewrite decide_False by (rewrite Hdel; discriminate).
  unfold bind at 1, statement. simpl. rewrite Hid. rewrite decide_True; [done|].
  unfold questions_ok, unique_on in *. simpl. rewrite <- list_fmap_compose.
  erewrite list_fmap_ext; [exact Hok|]. intros i r _. simpl. by case_decide.
Qed.

Lemma ignores_test_user_grade g k test_id uid grader :
  ignores (elsewhere id g id k) (test_user_grade test_id uid grader).
Proof.
  unfold test_user_grade, get_test_course, ensure_teacher_or_perm. repeat ignores_step.
Qed.

Lemma ignores_test_user_answers g k test_id uid grader :
  ignores (elsewhere id g id k) (test_user_answers test_id uid grader).
Proof.
  unfold test_user_answers, get_test_course, ensure_teacher_or_perm. repeat ignores_step.
Qed.

(** [question_delete], open to the author and to holders of quest:del, is a
    soft delete that asks nothing about where the question is used.  The
    question is gone for [question_get], [question_update] and
    [question_delete] (404 for every caller, its author included), but its
    versions stay: tests that contain it still hand it to new attempts, and
    the teacher's grade and review of every attempt are what they were. *)
Theorem question_delete_soft str_strip question_id current q db :
  select_question question_id db = [q] →
  Question.author_id q = user_id current ∨ "quest:del" ∈ permissions current →
  questions_ok db →
  let not_found {A} : result A := Raise (HTTPException 404 "Not found" []) in
  let there := elsewhere id (fmap (λ r, if decide (Question.id r = question_id)
                                        then question_set_is_deleted true r else r)) id id in
  get_session (question_delete question_id current) db = (Ok [("status", VStr "ok")], there db)
  ∧ (∀ caller version,
       get_session (question_get question_id version caller) (there db) = (not_found, there db))
  ∧ (∀ caller title text optionsCsv correctIndex,
       get_session (question_update str_strip question_id title text optionsCsv correctIndex caller)
         (there db) = (not_found, there db))
  ∧ (∀ caller, get_session (question_delete question_id caller) (there db) = (not_found, there db))
  ∧ (∀ test_id caller,
       get_session (attempt_create test_id caller) (there db)
       = ((get_session (attempt_create test_id caller) db).1,
          there (get_session (attempt_create test_id caller) db).2))
  ∧ (∀ test_id uid grader,
       get_session (test_user_grade test_id uid grader) (there db)
       = ((get_session (test_user_grade test_id uid grader) db).1,
          there (get_session (test_user_grade test_id uid grader) db).2)
       ∧ get_session (test_user_answers test_id uid grader) (there db)
         = ((get_session (test_user_answers test_id uid grader) db).1,
            there (get_session (test_user_answers test_id uid grader) db).2)).
Proof.
  intros Hq Hwho Hok not_found there.
  assert (select_question question_id (there db) = []) as Hgone
    by exact (select_question_deleted question_id db).
  split_and!.
  - exact (question_delete_Ok _ _ _ _ Hq Hwho Hok).
  - intros caller version. unfold get_session, question_get.
    unfold bind at 1, execute at 1. simpl. by rewrite Hgone.
  - intros caller title text optionsCsv correctIndex. unfold get_session, question_update.
    unfold bind at 1, execute at 1. simpl. by rewrite Hgone.
  - intros caller. unfold get_session, question_delete.
    unfold bind at 1, execute at 1. simpl. by rewrite Hgone.
  - intros test_id caller. apply ignores_get_session, ignores_attempt_create.
  - intros test_id uid grader. split.
    + apply ignores_get_session, ignores_test_user_grade.
    + apply ignores_get_session, ignores_test_user_answers.
Qed.

Lemma question_delete_soft_witness :
  let not_found {A} : result A := Raise (HTTPException 404 "Not found" []) in
  let there := elsewhere id (fmap (λ r, if decide (Question.id r = 1)
                                        then question_set_is_deleted true r else r)) id id in
  get_session (question_delete 1 Demo.teacher) Demo.db_answered
  = (Ok [("status", VStr "ok")], there Demo.db_answered)
  ∧ (∀ caller version,
       get_session (question_get 1 version caller) (there Demo.db_answered)
       = (not_found, there Demo.db_answered))
  ∧ (∀ caller title text optionsCsv correctIndex,
       get_session (question_update Demo.ascii_strip 1 title text optionsCsv correctIndex caller)
         (there Demo.db_answered) = (not_found, there Demo.db_answered))
  ∧ (∀ caller, get_session (question_delete 1 caller) (there Demo.db_answered)
               = (not_found, there Demo.db_answered))
  ∧ (∀ test_id caller,
       get_session (attempt_create test_id caller) (there Demo.db_answered)
       = ((get_session (attempt_create test_id caller) Demo.db_answered).1,
          there (get_session (attempt_create test_id caller) Demo.db_answered).2))
  ∧ (∀ test_id uid grader,
       get_session (test_user_grade test_id uid grader) (there Demo.db_answered)
       = ((get_session (test_user_grade test_id uid grader) Demo.db_answered).1,
          there (get_session (test_user_grade test_id uid grader) Demo.db_answered).2)
       ∧ get_session (test_user_answers test_id uid grader) (there Demo.db_answered)
         = ((get_session (test_user_answers test_id uid grader) Demo.db_answered).1,
            there (get_session (test_user_answers test_id uid grader) Demo.db_answered).2)).
Proof.
  apply (question_delete_soft Demo.ascii_strip 1 Demo.teacher (Question.mk 1 10 false)
           Demo.db_answered).
  - reflexivity.
  - left. reflexivity.
  - apply (bool_decide_unpack _). vm_compute. exact I.
Defined.

(** ** [question_get] and the attempt that opens it *)

Lemma question_get_allowed id version current q v s :
  select_question id (view s) = [q] →
  select_version id version (view s) = [v] →
  Question.author_id q = user_id current ∨ "quest:read" ∈ permissions current
  ∨ count_pinning_attempts (user_id current) id version (view s) ≠ 0 →
  question_get id version current s
  = (Ok (JObj [("id", JInt id); ("version", JInt version);
               ("title", JStr (QuestionVersion.title v));
               ("text", JStr (QuestionVersion.body v));
               ("options", JList (JStr <$> QuestionVersion.options v));
               ("correctIndex", JInt (QuestionVersion.correct_index v));
               ("author_id", JInt (Question.author_id q))]), s).
Proof.
  intros Hq Hv Hwho. unfold question_get.
  unfold bind at 1, execute at 1. rewrite Hq.
  unfold bind at 1. rewrite scalar_one_or_none_single.
  assert ((if bool_decide (Question.author_id q ≠ user_id current)
              && negb (has_perm current "quest:read")
           then
             let* cnt := execute (count_pinning_attempts (user_id current) id version) in
             if decide (cnt = 0)
             then http_error 403 "Forbidden" [("required_permission", "quest:read")]
             else ret ()
           else ret ()) s = (Ok (), s)) as Hgate.
  { destruct (bool_decide (Question.author_id q ≠ user_id current)
              && negb (has_perm current "quest:read")) eqn:Hb; [|done].
    apply andb_true_iff in Hb as [Ha Hp].
    apply bool_decide_eq_true in Ha. apply negb_true_iff in Hp.
    unfold has_perm in Hp. apply bool_decide_eq_false in Hp.
    destruct Hwho as [?|[?|Hcnt]]; [done|done|].
    unfold bind, execute. by rewrite decide_False. }
  rewrite (bind_Ok _ _ _ _ _ Hgate).
  unfold bind at 1, execute at 1. rewrite Hv.
  unfold bind at 1. by rewrite scalar_one_or_none_single.
Qed.

Lemma question_get_forbidden id version current q s :
  select_question id (view s) = [q] →
  Question.author_id q ≠ user_id current → "quest:read" ∉ permissions current →
  count_pinning_attempts (user_id current) id version (view s) = 0 →
  question_get id version current s
  = (Raise (HTTPException 403 "Forbidden" [("required_permission", "quest:read")]), s).
Proof.
  intros Hq Ha Hp Hcnt. unfold question_get.
  unfold bind at 1, execute at 1. rewrite Hq.
  unfold bind at 1. rewrite scalar_one_or_none_single.
  rewrite bool_decide_true by done. unfold has_perm. rewrite bool_decide_false by done.
  simpl. unfold bind at 1. unfold bind at 1, execute at 1. rewrite Hcnt.
  by rewrite decide_True.
Qed.

(** Starting an attempt is what opens a question to a student.  After
    [attempt_create] succeeded (under an id no attempt carried), the caller
    can read, with [question_get],
    the version the attempt pins of every question of the test that is not
    soft-deleted: title, text, options and the correct index; somebody who
    is not the author, holds no quest:read and has no attempt that pins the
    version is refused with 403. *)
Theorem attempt_create_opens_pinned_versions test_id current db test tq q :
  db_ok db →
  select_test test_id db = [test] → Test.is_active test = true →
  select_attempt_of test_id (user_id current) db = [] →
  Forall (λ tq, is_Some (max_version (TestQuestion.question_id tq) db))
         (select_test_questions test_id db) →
  tq ∈ select_test_questions test_id db →
  select_question (TestQuestion.question_id tq) db = [q] →
  let qid := TestQuestion.question_id tq in
  let version := pinned_now qid db in
  ∃ new_id db' v,
    get_session (attempt_create test_id current) db = (Ok [("id", VInt new_id)], db')
    ∧ (new_id ∉ Attempt.id <$> attempts db)
    ∧ select_version qid version db = [v]
    ∧ get_session (question_get qid version current) db'
      = (Ok (JObj [("id", JInt qid); ("version", JInt version);
                   ("title", JStr (QuestionVersion.title v));
                   ("text", JStr (QuestionVersion.body v));
                   ("options", JList (JStr <$> QuestionVersion.options v));
                   ("correctIndex", JInt (QuestionVersion.correct_index v));
                   ("author_id", JInt (Question.author_id q))]), db')
    ∧ (∀ other,
         Question.author_id q ≠ user_id other → "quest:read" ∉ permissions other →
         count_pinning_attempts (user_id other) qid version db' = 0 →
         get_session (question_get qid version other) db'
         = (Raise (HTTPException 403 "Forbidden" [("required_permission", "quest:read")]),
            db')).
Proof.
  intros Hok Ht Hact Hnone Hvers Htq Hq qid version.
  assert (select_test_questions test_id db ≠ []) as Hne
    by (intros Hnil; rewrite Hnil in Htq; by apply elem_of_nil in Htq).
  pose proof (attempt_create_succeeds _ _ _ test Hok Ht Hact Hnone Hne Hvers) as Hrun.
  exists (fresh_id (Attempt.id <$> attempts db)),
         (with_new_attempt test_id (user_id current) db).
  set (db' := with_new_attempt test_id (user_id current) db) in *.
  destruct (with_new_attempt_tables test_id (user_id current) db)
    as (Hatt & (aqs & Haq & Hperm) & _ & _ & Hqs & Hvs & _).
  fold db' in Hatt, Haq, Hqs, Hvs.
  rewrite Forall_forall in Hvers. destruct (Hvers _ Htq) as [m Hm].
  assert (version = m) as Hver by (unfold version, pinned_now, qid; by rewrite Hm).
  destruct (max_version_row _ _ _ Hm) as (v & Hvin & Hkey).
  destruct Hok as (_ & _ & (Hu & _) & _).
  assert (select_version qid version db = [v]) as Hsel.
  { unfold select_version.
    rewrite (list_filter_iff _ (λ w, QuestionVersion.key w = QuestionVersion.key v)).
    - by apply unique_row.
    - intros w. rewrite Hkey, Hver. unfold QuestionVersion.key, qid. split.
      + by intros [-> ->].
      + by intros [= -> ->]. }
  exists v. split_and!.
  - exact Hrun.
  - apply fresh_id_fresh.
  - exact Hsel.
  - unfold get_session.
    rewrite (question_get_allowed qid version current q v (mkSession db' db')); [done| | |].
    + simpl. unfold select_question. rewrite Hqs. exact Hq.
    + simpl. unfold select_version. rewrite Hvs. exact Hsel.
    + right. right. simpl. unfold count_pinning_attempts.
      set (a := Attempt.mk (fresh_id (Attempt.id <$> attempts db)) test_id
                  (user_id current) "in_progress").
      set (aq := snapshot_of (fresh_id (Attempt.id <$> attempts db)) db tq).
      assert ((a, aq) ∈ filter
                (λ '(a, aq), AttemptQuestion.attempt_id aq = Attempt.id a
                             ∧ Attempt.user_id a = user_id current
                             ∧ AttemptQuestion.question_id aq = qid
                             ∧ AttemptQuestion.question_version aq = version)
                (list_prod (attempts db') (attempt_questions db'))) as Hin.
      { apply list_elem_of_filter. split; [done|].
        apply elem_of_list_prod. split.
        - rewrite Hatt. apply elem_of_app. right. apply list_elem_of_here.
        - rewrite Haq. apply elem_of_app. right. rewrite Hperm.
          by apply list_elem_of_fmap_2. }
      destruct (filter _ _) as [|x l]; [by apply elem_of_nil in Hin|]. simpl. lia.
  - intros other Ha Hp Hcnt. unfold get_session.
    rewrite (question_get_forbidden qid version other q (mkSession db' db')); try done.
Qed.

Lemma attempt_create_opens_pinned_versions_witness :
  ∃ new_id db' v,
    get_session (attempt_create 1 Demo.student) Demo.db_fresh = (Ok [("id", VInt new_id)], db')
    ∧ (new_id ∉ Attempt.id <$> attempts Demo.db_fresh)
    ∧ select_version 3 (pinned_now 3 Demo.db_fresh) Demo.db_fresh = [v]
    ∧ get_session (question_get 3 (pinned_now 3 Demo.db_fresh) Demo.student) db'
      = (Ok (JObj [("id", JInt 3); ("version", JInt (pinned_now 3 Demo.db_fresh));
                   ("title", JStr (QuestionVersion.title v));
                   ("text", JStr (QuestionVersion.body v));
                   ("options", JList (JStr <$> QuestionVersion.options v));
                   ("correctIndex", JInt (QuestionVersion.correct_index v));
                   ("author_id", JInt 10)]), db')
    ∧ (∀ other,
         10 ≠ user_id other → "quest:read" ∉ permissions other →
         count_pinning_attempts (user_id other) 3 (pinned_now 3 Demo.db_fresh) db' = 0 →
         get_session (question_get 3 (pinned_now 3 Demo.db_fresh) other) db'
         = (Raise (HTTPException 403 "Forbidden" [("required_permission", "quest:read")]),
            db')).
Proof.
  apply (attempt_create_opens_pinned_versions 1 Demo.student Demo.db_fresh
           (Test.mk 1 1 true false) (TestQuestion.mk 1 3 2) (Question.mk 3 10 false)).
  - apply (bool_decide_unpack _). vm_compute. exact I.
  - reflexivity.
  - reflexivity.
  - reflexivity.
  - apply (bool_decide_unpack _). vm_compute. exact I.
  - apply (bool_decide_unpack _). vm_compute. exact I.
  - reflexivity.
Defined.

(** * The constraints are an invariant of the handlers *)

Lemma keeps_ok_ret {A : Type} (a : A) : keeps_ok (ret a).
Proof. intros s r s' H. unfold ret in H. by simplify_eq. Qed.

Lemma keeps_ok_raise {A : Type} e : keeps_ok (@raise A e).
Proof. intros s r s' H. unfold raise in H. by simplify_eq. Qed.

Lemma keeps_ok_http_error {A : Type} c m d : keeps_ok (@http_error A c m d).
Proof. apply keeps_ok_raise. Qed.

Lemma keeps_ok_execute {A : Type} (q : DB → A) : keeps_ok (execute q).
Proof. intros s r s' H. unfold execute in H. by simplify_eq. Qed.

Lemma keeps_ok_scalar_one_or_none {A : Type} (rows : list A) :
  keeps_ok (scalar_one_or_none rows).
Proof.
  destruct rows as [|r [|r' rows]]; unfold scalar_one_or_none;
    auto using keeps_ok_ret, keeps_ok_raise.
Qed.

Lemma keeps_ok_commit : keeps_ok commit.
Proof. intros s r s' H. unfold commit in H. by simplify_eq. Qed.

Lemma keeps_ok_rollback : keeps_ok rollback.
Proof. intros s r s' H. unfold rollback in H. by simplify_eq. Qed.

Lemma keeps_ok_bind {A B : Type} (m : M A) (k : A → M B) :
  keeps_ok m → (∀ a, keeps_ok (k a)) → keeps_ok (bind m k).
Proof.
  intros Hm Hk s r s' H Hc Hv. unfold bind in H.
  destruct (m s) as [[a|e] s1] eqn:E.
  - destruct (Hm _ _ _ E Hc Hv) as [Hc1 Hv1]. by apply (Hk a s1 r s').
  - simplify_eq. by apply (Hm _ _ _ E).
Qed.

Lemma keeps_ok_try_except {A : Type} (m handler : M A) :
  keeps_ok m → keeps_ok handler → keeps_ok (try_except m handler).
Proof.
  intros Hm Hh s r s' H Hc Hv. unfold try_except in H.
  destruct (m s) as [[a|e] s1] eqn:E.
  - simplify_eq. by apply (Hm _ _ _ E).
  - destruct (Hm _ _ _ E Hc Hv) as [Hc1 Hv1]. by apply (Hh s1 r s').
Qed.

Lemma keeps_ok_statement (ok : DB → Prop) `{!∀ db, Decision (ok db)} write :
  (∀ db, db_ok db → ok (write db) → db_ok (write db)) →
  keeps_ok (statement ok write).
Proof.
  intros Hw s r s' Hs Hc Hv. unfold statement in Hs.
  case_decide; simplify_eq; simpl; auto.
Qed.

Lemma keeps_ok_get_session {A : Type} (h : M A) db :
  keeps_ok h → db_ok db → db_ok (get_session h db).2.
Proof.
  intros Hh Hok. unfold get_session.
  destruct (h (mkSession db db)) as [r s] eqn:E. simpl.
  by apply (Hh _ _ _ E).
Qed.

#[global] Hint Resolve keeps_ok_ret keeps_ok_raise keeps_ok_http_error keeps_ok_execute
  keeps_ok_scalar_one_or_none keeps_ok_commit keeps_ok_rollback : session.

(** What a write to one table leaves of the constraints of the others. *)

Lemma references_same_keys {A B K : Type} (fk : A → K) rows (pk : B → K) target target' :
  pk <$> target' = pk <$> target →
  references fk rows pk target → references fk rows pk target'.
Proof. unfold references. by intros ->. Qed.

Lemma db_ok_answers F db :
  db_ok db → answers_ok (with_answers F db) → db_ok (with_answers F db).
Proof. intros (?&?&?&?&?&?&?&?) ?. by split_and!. Qed.

Lemma db_ok_attempt_questions F db :
  db_ok db → attempt_questions_ok (with_attempt_questions F db) →
  db_ok (with_attempt_questions F db).
Proof. intros (?&?&?&?&?&?&?&?) ?. by split_and!. Qed.

Lemma db_ok_test_questions F db :
  db_ok db → test_questions_ok (with_test_questions F db) →
  db_ok (with_test_questions F db).
Proof. intros (?&?&?&?&?&?&?&?) ?. by split_and!. Qed.

Lemma db_ok_attempts_insert a db :
  db_ok db → attempts_ok (with_attempts (λ rows, rows ++ [a]) db) →
  db_ok (with_attempts (λ rows, rows ++ [a]) db).
Proof.
  intros (?&?&?&?&?&?&Haq&Hans) ?. split_and!; try done.
  - destruct Haq as (?&?&Hfk&?&?). split_and!; try done. by apply references_grow.
  - destruct Hans as (?&?&Hfk&?&?). split_and!; try done. by apply references_grow.
Qed.

Lemma db_ok_attempts_update (u : Attempt.row → Attempt.row) db :
  (∀ r, Attempt.id (u r) = Attempt.id r) →
  db_ok db → attempts_ok (with_attempts (fmap u) db) → db_ok (with_attempts (fmap u) db).
Proof.
  intros Hu (?&?&?&?&?&?&Haq&Hans) ?.
  assert (Attempt.id <$> (u <$> attempts db) = Attempt.id <$> attempts db) as Hids.
  { rewrite <- list_fmap_compose. apply list_fmap_ext. intros i r _. apply Hu. }
  split_and!; try done.
  - destruct Haq as (?&?&Hfk&?&?). split_and!; try done.
    by apply (references_same_keys _ _ _ (attempts db)).
  - destruct Hans as (?&?&Hfk&?&?). split_and!; try done.
    by apply (references_same_keys _ _ _ (attempts db)).
Qed.

Lemma db_ok_question_versions_insert v db :
  db_ok db → question_versions_ok (with_question_versions (λ rows, rows ++ [v]) db) →
  db_ok (with_question_versions (λ rows, rows ++ [v]) db).
Proof.
  intros (?&?&?&?&?&?&Haq&Hans) ?. split_and!; try done.
  - destruct Haq as (?&?&?&Hfk&?). split_and!; try done. by apply references_grow.
  - destruct Hans as (?&?&?&Hfk&?). split_and!; try done. by apply references_grow.
Qed.

Lemma db_ok_questions_insert q db :
  db_ok db → questions_ok (with_questions (λ rows, rows ++ [q]) db) →
  db_ok (with_questions (λ rows, rows ++ [q]) db).
Proof.
  intros (?&?&Hv&?&Htq&?&?&?) ?. split_and!; try done.
  - destruct Hv as (?&Hfk&?). split_and!; try done. by apply references_grow.
  - destruct Htq as (?&?&?&Hfk&?). split_and!; try done. by apply references_grow.
Qed.

Lemma db_ok_questions_update (u : Question.row → Question.row) db :
  (∀ r, Question.id (u r) = Question.id r) →
  db_ok db → questions_ok (with_questions (fmap u) db) → db_ok (with_questions (fmap u) db).
Proof.
  intros Hu (?&?&Hv&?&Htq&?&?&?) ?.
  assert (Question.id <$> (u <$> questions db) = Question.id <$> questions db) as Hids.
  { rewrite <- list_fmap_compose. apply list_fmap_ext. intros i r _. apply Hu. }
  split_and!; try done.
  - destruct Hv as (?&Hfk&?). split_and!; try done.
    by apply (references_same_keys _ _ _ (questions db)).
  - destruct Htq as (?&?&?&Hfk&?). split_and!; try done.
    by apply (references_same_keys _ _ _ (questions db)).
Qed.

Lemma db_ok_tests_update (u : Test.row → Test.row) db :
  (∀ r, Test.id (u r) = Test.id r) →
  db_ok db → tests_ok (with_tests (fmap u) db) → db_ok (with_tests (fmap u) db).
Proof.
  intros Hu (?&?&?&?&Htq&Hatt&?&?) ?.
  assert (Test.id <$> (u <$> tests db) = Test.id <$> tests db) as Hids.
  { rewrite <- list_fmap_compose. apply list_fmap_ext. intros i r _. apply Hu. }
  split_and!; try done.
  - destruct Htq as (?&?&Hfk&?&?). split_and!; try done.
    by apply (references_same_keys _ _ _ (tests db)).
  - destruct Hatt as (?&?&Hfk&?). split_and!; try done.
    by apply (references_same_keys _ _ _ (tests db)).
Qed.

Lemma db_ok_courses_update (u : Course.row → Course.row) db :
  (∀ r, Course.id (u r) = Course.id r) →
  db_ok db → courses_ok (with_courses (fmap u) db) → db_ok (with_courses (fmap u) db).
Proof.
  intros Hu (?&?&?&Ht&?&?&?&?) ?.
  assert (Course.id <$> (u <$> courses db) = Course.id <$> courses db) as Hids.
  { rewrite <- list_fmap_compose. apply list_fmap_ext. intros i r _. apply Hu. }
  split_and!; try done.
  destruct Ht as (?&Hfk). split_and!; try done.
  by apply (references_same_keys _ _ _ (courses db)).
Qed.

Ltac ok_write :=
  first [ by apply db_ok_answers
        | by apply db_ok_attempt_questions
        | by apply db_ok_test_questions
        | by apply db_ok_attempts_insert
        | by apply db_ok_question_versions_insert
        | by apply db_ok_questions_insert
        | apply db_ok_attempts_update; [intros ?; simpl; by case_decide|done|done]
        | apply db_ok_questions_update; [intros ?; simpl; by case_decide|done|done]
        | apply db_ok_courses_update; [intros ?; simpl; by case_decide|done|done]
        | apply db_ok_tests_update;
          [intros ?; simpl; case_decide; simpl; congruence|done|done] ].

Ltac ok_step :=
  first [ apply keeps_ok_bind; [|intros ?]
        | apply keeps_ok_try_except
        | apply keeps_ok_statement; intros ? ? ?; ok_write
        | match goal with |- keeps_ok (match ?x with _ => _ end) => destruct x end
        | match goal with |- keeps_ok (if ?b then _ else _) => destruct b end
        | solve [auto with session] ].

Lemma keeps_ok_attempt_create_loop attempt_id rows :
  keeps_ok (attempt_create_loop attempt_id rows).
Proof.
  induction rows as [|[q p] rows IH]; simpl; [auto with session|].
  unfold add_attempt_question, add_answer. repeat first [exact IH | ok_step].
Qed.

Lemma keeps_ok_attempt_create test_id current : keeps_ok (attempt_create test_id current).
Proof.
  unfold attempt_create, add_attempt.
  repeat first [apply keeps_ok_attempt_create_loop | ok_step].
Qed.

Lemma keeps_ok_attempt_finish attempt_id current : keeps_ok (attempt_finish attempt_id current).
Proof. unfold attempt_finish, update_attempt_status. repeat ok_step. Qed.

Lemma keeps_ok_answer_update answer_id index current :
  keeps_ok (answer_update answer_id index current).
Proof. unfold answer_update, get_attempt_or_404, update_answer_index. repeat ok_step. Qed.

Lemma keeps_ok_answer_delete answer_id current : keeps_ok (answer_delete answer_id current).
Proof. unfold answer_delete, get_attempt_or_404, update_answer_index. repeat ok_step. Qed.

Lemma keeps_ok_ensure_can_edit_test current test : keeps_ok (ensure_can_edit_test current test).
Proof. unfold ensure_can_edit_test, get_course_or_404. repeat ok_step. Qed.

Lemma keeps_ok_test_question_add test_id question_id current :
  keeps_ok (test_question_add test_id question_id current).
Proof.
  unfold test_question_add, get_test_or_404, get_course_or_404.
  repeat first [apply keeps_ok_ensure_can_edit_test | ok_step].
Qed.

Lemma keeps_ok_test_question_del test_id question_id current :
  keeps_ok (test_question_del test_id question_id current).
Proof.
  unfold test_question_del, get_test_or_404, get_course_or_404.
  repeat first [apply keeps_ok_ensure_can_edit_test | ok_step].
Qed.

Lemma keeps_ok_test_question_order_loop test_id new_order pos :
  keeps_ok (test_question_order_loop test_id pos new_order).
Proof.
  revert pos. induction new_order as [|qid rest IH]; intros pos; simpl;
    [auto with session|].
  unfold update_position. repeat first [apply IH | ok_step].
Qed.

Lemma keeps_ok_test_question_order str_strip int_of_str test_id csv current :
  keeps_ok (test_question_order str_strip int_of_str test_id csv current).
Proof.
  unfold test_question_order, get_test_or_404, get_course_or_404, parse_csv_ids.
  repeat first [apply keeps_ok_ensure_can_edit_test
               | apply keeps_ok_test_question_order_loop | ok_step].
Qed.

Lemma keeps_ok_question_create str_strip title text optionsCsv correctIndex current :
  keeps_ok (question_create str_strip title text optionsCsv correctIndex current).
Proof. unfold question_create. repeat ok_step. Qed.

Lemma keeps_ok_question_update str_strip id title text optionsCsv correctIndex current :
  keeps_ok (question_update str_strip id title text optionsCsv correctIndex current).
Proof. unfold question_update. repeat ok_step. Qed.

Lemma keeps_ok_question_delete id current : keeps_ok (question_delete id current).
Proof. unfold question_delete, update_question_is_deleted. repeat ok_step. Qed.

Lemma keeps_ok_course_test_active course_id test_id active current :
  keeps_ok (course_test_active course_id test_id active current).
Proof. unfold course_test_active, get_course_or_404, update_test. repeat ok_step. Qed.

Lemma keeps_ok_course_test_del course_id test_id current :
  keeps_ok (course_test_del course_id test_id current).
Proof. unfold course_test_del, get_course_or_404, update_test. repeat ok_step. Qed.

Lemma keeps_ok_course_delete course_id current : keeps_ok (course_delete course_id current).
Proof. unfold course_delete. repeat ok_step. Qed.

(** On a store that satisfies every constraint declared in the models
    (keys, foreign keys, checks), each of the thirteen handlers that write
    leaves one that does, whatever its arguments, whoever calls it and
    whether it returns or raises: a statement checks the table it writes,
    and no handler removes or renumbers a row another table points to. *)
Theorem handlers_keep_constraints str_strip int_of_str db :
  db_ok db →
  (∀ test_id current, db_ok (get_session (attempt_create test_id current) db).2)
  ∧ (∀ attempt_id current, db_ok (get_session (attempt_finish attempt_id current) db).2)
  ∧ (∀ answer_id index current,
       db_ok (get_session (answer_update answer_id index current) db).2)
  ∧ (∀ answer_id current, db_ok (get_session (answer_delete answer_id current) db).2)
  ∧ (∀ test_id question_id current,
       db_ok (get_session (test_question_add test_id question_id current) db).2)
  ∧ (∀ test_id question_id current,
       db_ok (get_session (test_question_del test_id question_id current) db).2)
  ∧ (∀ test_id csv current,
       db_ok (get_session (test_question_order str_strip int_of_str test_id csv current) db).2)
  ∧ (∀ title text optionsCsv correctIndex current,
       db_ok (get_session
                (question_create str_strip title text optionsCsv correctIndex current) db).2)
  ∧ (∀ question_id title text optionsCsv correctIndex current,
       db_ok (get_session
                (question_update str_strip question_id title text optionsCsv correctIndex
                   current) db).2)
  ∧ (∀ question_id current, db_ok (get_session (question_delete question_id current) db).2)
  ∧ (∀ course_id test_id active current,
       db_ok (get_session (course_test_active course_id test_id active current) db).2)
  ∧ (∀ course_id test_id current,
       db_ok (get_session (course_test_del course_id test_id current) db).2)
  ∧ (∀ course_id current, db_ok (get_session (course_delete course_id current) db).2).
Proof.
  intros Hok. split_and!; intros; apply keeps_ok_get_session; try done.
  - apply keeps_ok_attempt_create.
  - apply keeps_ok_attempt_finish.
  - apply keeps_ok_answer_update.
  - apply keeps_ok_answer_delete.
  - apply keeps_ok_test_question_add.
  - apply keeps_ok_test_question_del.
  - apply keeps_ok_test_question_order.
  - apply keeps_ok_question_create.
  - apply keeps_ok_question_update.
  - apply keeps_ok_question_delete.
  - apply keeps_ok_course_test_active.
  - apply keeps_ok_course_test_del.
  - apply keeps_ok_course_delete.
Qed.

Lemma handlers_keep_constraints_witness :
  db_ok (get_session (attempt_create 1 Demo.student) Demo.db_fresh).2
  ∧ db_ok (get_session (question_delete 1 Demo.teacher) Demo.db_fresh).2.
Proof.
  destruct (handlers_keep_constraints Demo.ascii_strip Demo.decimal_int Demo.db_fresh)
    as (Hcreate & _ & _ & _ & _ & _ & _ & _ & _ & Hdelete & _).
  - apply (bool_decide_unpack _). vm_compute. exact I.
  - split; [apply Hcreate|apply Hdelete].
Defined.

(** * Reading the attempt back *)

Lemma aq_by_position_total : Total aq_by_position.
Proof. intros a b. unfold aq_by_position. lia. Qed.

Lemma filter_all {A : Type} (P : A → Prop) `{!∀ x, Decision (P x)} (l : list A) :
  (∀ x, x ∈ l → P x) → filter P l = l.
Proof.
  induction l as [|a l IH]; intros HP; [done|].
  rewrite filter_cons. rewrite decide_True by (apply HP, list_elem_of_here).
  f_equal. apply IH. intros x Hx. apply HP. by apply list_elem_of_further.
Qed.

(** [attempt_get] on an attempt [attempt_create] has just made, under the
    id the response names (one no attempt carried): the owner gets the
    attempt in progress, one snapshot entry per question of the
    test with the version pinned and the position the test gives it, in the
    order of the positions, and one answer per question, all blank (-1);
    anyone else gets 403. *)
Theorem attempt_get_after_create test_id current db test :
  db_ok db →
  select_test test_id db = [test] → Test.is_active test = true →
  select_attempt_of test_id (user_id current) db = [] →
  select_test_questions test_id db ≠ [] →
  Forall (λ tq, is_Some (max_version (TestQuestion.question_id tq) db))
         (select_test_questions test_id db) →
  ∃ new_id db' snapshot blanks,
    get_session (attempt_create test_id current) db = (Ok [("id", VInt new_id)], db')
    ∧ (new_id ∉ Attempt.id <$> attempts db)
    ∧ get_session (attempt_get new_id current) db'
      = (Ok (JObj [("id", JInt new_id); ("test_id", JInt test_id);
                   ("user_id", JInt (user_id current)); ("status", JStr "in_progress");
                   ("questions", JList
                      ((λ r, JObj [("question_id", JInt (AttemptQuestion.question_id r));
                                   ("version", JInt (AttemptQuestion.question_version r));
                                   ("position", JInt (AttemptQuestion.position r))])
                         <$> snapshot));
                   ("answers", JList
                      ((λ r, JObj [("answer_id", JInt (Answer.id r));
                                   ("question_id", JInt (Answer.question_id r));
                                   ("answer_index", JInt (Answer.answer_index r))])
                         <$> blanks))]), db')
    ∧ snapshot ≡ₚ snapshot_of new_id db <$> select_test_questions test_id db
    ∧ Sorted aq_by_position snapshot
    ∧ answer_content <$> blanks ≡ₚ blank_of new_id db <$> select_test_questions test_id db
    ∧ Sorted answer_by_id blanks
    ∧ (∀ other, user_id other ≠ user_id current →
         get_session (attempt_get new_id other) db'
         = (Raise (HTTPException 403 "Forbidden" []), db')).
Proof.
  intros Hok Ht Hact Hnone Hne Hvers.
  set (new_id := fresh_id (Attempt.id <$> attempts db)).
  pose proof (attempt_create_succeeds _ _ _ test Hok Ht Hact Hnone Hne Hvers) as Hrun.
  set (db' := with_new_attempt test_id (user_id current) db) in *.
  destruct (with_new_attempt_tables test_id (user_id current) db)
    as (Hatt & (aqs & Haq & Hperm) & (new_answers & Hans & Hblank) & _).
  fold db' new_id in Hatt, Haq, Hans, Hperm, Hblank.
  destruct Hok as (_ & _ & _ & _ & _ & _ & (_ & _ & Hfk_aq & _) & (_ & _ & Hfk_ans & _)).
  assert (select_attempt new_id db'
          = [Attempt.mk new_id test_id (user_id current) "in_progress"]) as Hsel.
  { unfold select_attempt. rewrite Hatt, filter_app. rewrite filter_none_in.
    - rewrite filter_cons, filter_nil. by rewrite decide_True.
    - intros a Hin Hid. apply (fresh_id_fresh (Attempt.id <$> attempts db)).
      fold new_id. rewrite <- Hid. by apply list_elem_of_fmap_2. }
  assert (filter (λ r, AttemptQuestion.attempt_id r = new_id) (attempt_questions db') = aqs)
    as Hsnap.
  { rewrite Haq, filter_app. rewrite filter_none_in.
    - simpl. apply filter_all. intros r Hr. rewrite Hperm in Hr.
      by apply list_elem_of_fmap in Hr as (tq & -> & _).
    - intros r Hin Hid. apply (fresh_id_fresh (Attempt.id <$> attempts db)).
      fold new_id. rewrite <- Hid.
      unfold references in Hfk_aq. rewrite Forall_forall in Hfk_aq. by apply Hfk_aq. }
  assert (filter (λ a, Answer.attempt_id a = new_id) (answers db') = new_answers) as Hnew.
  { rewrite Hans, filter_app. rewrite filter_none_in.
    - simpl. apply filter_all. intros a Ha.
      assert (answer_content a ∈ blank_of new_id db <$> select_test_questions test_id db)
        as Hc by (rewrite <- Hblank; by apply list_elem_of_fmap_2).
      apply list_elem_of_fmap in Hc as (tq & Hc & _).
      unfold answer_content, blank_of in Hc. by simplify_eq.
    - intros a Hin Hid. apply (fresh_id_fresh (Attempt.id <$> attempts db)).
      fold new_id. rewrite <- Hid.
      unfold references in Hfk_ans. rewrite Forall_forall in Hfk_ans. by apply Hfk_ans. }
  exists new_id, db', (select_snapshot new_id db'), (select_answers new_id db').
  split_and!.
  - exact Hrun.
  - apply fresh_id_fresh.
  - unfold get_session, attempt_get.
    unfold bind at 1, execute at 1. simpl. rewrite Hsel.
    unfold bind at 1. rewrite scalar_one_or_none_single. simpl.
    by rewrite decide_False by (intros Hbad; by apply Hbad).
  - unfold select_snapshot. rewrite merge_sort_Permutation, Hsnap. exact Hperm.
  - apply (@Sorted_merge_sort _ aq_by_position _ aq_by_position_total).
  - unfold select_answers. rewrite merge_sort_Permutation, Hnew. exact Hblank.
  - apply (@Sorted_merge_sort _ answer_by_id _ answer_by_id_total).
  - intros other Hother. unfold get_session, attempt_get.
    unfold bind at 1, execute at 1. simpl. rewrite Hsel.
    unfold bind at 1. rewrite scalar_one_or_none_single. simpl.
    by rewrite decide_True by (intros Hbad; by apply Hother).
Qed.

Lemma attempt_get_after_create_witness :
  ∃ new_id db' snapshot blanks,
    get_session (attempt_create 1 Demo.student) Demo.db_fresh = (Ok [("id", VInt new_id)], db')
    ∧ (new_id ∉ Attempt.id <$> attempts Demo.db_fresh)
    ∧ get_session (attempt_get new_id Demo.student) db'
      = (Ok (JObj [("id", JInt new_id); ("test_id", JInt 1);
                   ("user_id", JInt (user_id Demo.student)); ("status", JStr "in_progress");
                   ("questions", JList
                      ((λ r, JObj [("question_id", JInt (AttemptQuestion.question_id r));
                                   ("version", JInt (AttemptQuestion.question_version r));
                                   ("position", JInt (AttemptQuestion.position r))])
                         <$> snapshot));
                   ("answers", JList
                      ((λ r, JObj [("answer_id", JInt (Answer.id r));
                                   ("question_id", JInt (Answer.question_id r));
                                   ("answer_index", JInt (Answer.answer_index r))])
                         <$> blanks))]), db')
    ∧ snapshot ≡ₚ snapshot_of new_id Demo.db_fresh <$> select_test_questions 1 Demo.db_fresh
    ∧ Sorted aq_by_position snapshot
    ∧ answer_content <$> blanks
      ≡ₚ blank_of new_id Demo.db_fresh <$> select_test_questions 1 Demo.db_fresh
    ∧ Sorted answer_by_id blanks
    ∧ (∀ other, user_id other ≠ user_id Demo.student →
         get_session (attempt_get new_id other) db'
         = (Raise (HTTPException 403 "Forbidden" []), db')).
Proof.
  apply (attempt_get_after_create 1 Demo.student Demo.db_fresh (Test.mk 1 1 true false)).
  - apply (bool_decide_unpack _). vm_compute. exact I.
  - reflexivity.
  - reflexivity.
  - reflexivity.
  - vm_compute. discriminate.
  - apply (bool_decide_unpack _). vm_compute. exact I.
Defined.

(** * Every attempt has one answer per question of its snapshot *)

Lemma keeps_inv_ret {A : Type} I (a : A) : keeps_inv I (ret a).
Proof. intros s r s' H. unfold ret in H. by simplify_eq. Qed.

Lemma keeps_inv_raise {A : Type} I e : keeps_inv I (@raise A e).
Proof. intros s r s' H. unfold raise in H. by simplify_eq. Qed.

Lemma keeps_inv_http_error {A : Type} I c m d : keeps_inv I (@http_error A c m d).
Proof. apply keeps_inv_raise. Qed.

Lemma keeps_inv_execute {A : Type} I (q : DB → A) : keeps_inv I (execute q).
Proof. intros s r s' H. unfold execute in H. by simplify_eq. Qed.

Lemma keeps_inv_scalar_one_or_none {A : Type} I (rows : list A) :
  keeps_inv I (scalar_one_or_none rows).
Proof.
  destruct rows as [|r [|r' rows]]; unfold scalar_one_or_none;
    auto using keeps_inv_ret, keeps_inv_raise.
Qed.

Lemma keeps_inv_commit I : keeps_inv I commit.
Proof. intros s r s' H. unfold commit in H. by simplify_eq. Qed.

Lemma keeps_inv_bind {A B : Type} I (m : M A) (k : A → M B) :
  keeps_inv I m → (∀ a, keeps_inv I (k a)) → keeps_inv I (bind m k).
Proof.
  intros Hm Hk s r s' H Hc Hv. unfold bind in H.
  destruct (m s) as [[a|e] s1] eqn:E.
  - destruct (Hm _ _ _ E Hc Hv) as [Hc1 Hv1]. by apply (Hk a s1 r s').
  - simplify_eq. by apply (Hm _ _ _ E).
Qed.

Lemma keeps_inv_statement I (ok : DB → Prop) `{!∀ db, Decision (ok db)} write :
  (∀ db, I db → I (write db)) → keeps_inv I (statement ok write).
Proof.
  intros Hw s r s' Hs Hc Hv. unfold statement in Hs.
  case_decide; simplify_eq; simpl; auto.
Qed.

Lemma keeps_inv_get_session {A : Type} I (h : M A) db :
  keeps_inv I h → I db → I (get_session h db).2.
Proof.
  intros Hh Hok. unfold get_session.
  destruct (h (mkSession db db)) as [r s] eqn:E. simpl.
  by apply (Hh _ _ _ E).
Qed.

#[global] Hint Resolve keeps_inv_ret keeps_inv_raise keeps_inv_http_error keeps_inv_execute
  keeps_inv_scalar_one_or_none keeps_inv_commit : session.

Lemma match_set_answer_index id i db :
  answers_match_snapshot db →
  answers_match_snapshot
    (with_answers (fmap (λ r, if decide (Answer.id r = id)
                              then Answer.set_answer_index i r else r)) db).
Proof.
  intros Hm attempt_id. simpl. rewrite <- (Hm attempt_id).
  rewrite filter_fmap_comm, <- list_fmap_compose.
  rewrite (list_filter_iff _ (λ a, Answer.attempt_id a = attempt_id))
    by (intros r; simpl; by case_decide).
  erewrite list_fmap_ext; [reflexivity|]. intros k r _. simpl. by case_decide.
Qed.

Lemma match_new_attempt test_id uid db :
  answers_match_snapshot db → answers_match_snapshot (with_new_attempt test_id uid db).
Proof.
  intros Hm attempt_id.
  destruct (with_new_attempt_tables test_id uid db)
    as (_ & (aqs & -> & Hperm) & (new_answers & -> & Hblank) & _).
  rewrite !filter_app, !fmap_app. apply Permutation_app; [apply Hm|].
  assert ((λ a, (Answer.question_id a, Answer.question_version a)) <$> new_answers
          ≡ₚ (λ r, (AttemptQuestion.question_id r, AttemptQuestion.question_version r))
               <$> aqs) as Hkeys.
  { rewrite Hperm, <- list_fmap_compose.
    transitivity ((λ c : Z * Z * Z * Z, (c.1.1.2, c.1.2)) <$> (answer_content <$> new_answers)).
    - by rewrite <- list_fmap_compose.
    - rewrite Hblank. by rewrite <- list_fmap_compose. }
  set (new_id := fresh_id (Attempt.id <$> attempts db)) in *.
  assert (∀ a, a ∈ new_answers → Answer.attempt_id a = new_id) as Hnew.
  { intros a Ha.
    assert (answer_content a ∈ blank_of new_id db <$> select_test_questions test_id db)
      as Hc by (rewrite <- Hblank; by apply list_elem_of_fmap_2).
    apply list_elem_of_fmap in Hc as (tq & Hc & _).
    unfold answer_content, blank_of in Hc. by simplify_eq. }
  assert (∀ r, r ∈ aqs → AttemptQuestion.attempt_id r = new_id) as Haq.
  { intros r Hr. rewrite Hperm in Hr. by apply list_elem_of_fmap in Hr as (tq & -> & _). }
  destruct (decide (attempt_id = new_id)) as [->|Hne].
  - by rewrite !filter_all.
  - rewrite !filter_none_in; [done| |].
    + intros r Hr Hid. apply Haq in Hr. congruence.
    + intros a Ha Hid. apply Hnew in Ha. congruence.
Qed.

Lemma keeps_match_answer_update answer_id index current :
  keeps_inv answers_match_snapshot (answer_update answer_id index current).
Proof.
  unfold answer_update, get_attempt_or_404, update_answer_index.
  repeat first [ apply keeps_inv_bind; [|intros ?]
               | apply keeps_inv_statement; intros ?; apply match_set_answer_index
               | match goal with |- keeps_inv _ (match ?x with _ => _ end) => destruct x end
               | match goal with |- keeps_inv _ (if ?b then _ else _) => destruct b end
               | solve [auto with session] ].
Qed.

Lemma keeps_match_answer_delete answer_id current :
  keeps_inv answers_match_snapshot (answer_delete answer_id current).
Proof.
  unfold answer_delete, get_attempt_or_404, update_answer_index.
  repeat first [ apply keeps_inv_bind; [|intros ?]
               | apply keeps_inv_statement; intros ?; apply match_set_answer_index
               | match goal with |- keeps_inv _ (match ?x with _ => _ end) => destruct x end
               | match goal with |- keeps_inv _ (if ?b then _ else _) => destruct b end
               | solve [auto with session] ].
Qed.

Lemma keeps_match_attempt_finish attempt_id current :
  keeps_inv answers_match_snapshot (attempt_finish attempt_id current).
Proof.
  unfold attempt_finish, update_attempt_status.
  repeat first [ apply keeps_inv_bind; [|intros ?]
               | apply keeps_inv_statement; intros ? Hm; exact Hm
               | match goal with |- keeps_inv _ (match ?x with _ => _ end) => destruct x end
               | match goal with |- keeps_inv _ (if ?b then _ else _) => destruct b end
               | solve [auto with session] ].
Qed.

(** The attempts keep one answer per question of their snapshot, pinned to
    the version the snapshot pins: [attempt_create] writes them so, and
    [answer_update], [answer_delete] and [attempt_finish] neither add nor
    drop an answer nor change what it pins.  So the total of a grade is the
    number of questions the attempt was started with. *)
Theorem answers_match_snapshot_invariant db :
  answers_match_snapshot db →
  (∀ test_id current,
     answers_match_snapshot (get_session (attempt_create test_id current) db).2)
  ∧ (∀ answer_id index current,
       answers_match_snapshot (get_session (answer_update answer_id index current) db).2)
  ∧ (∀ answer_id current,
       answers_match_snapshot (get_session (answer_delete answer_id current) db).2)
  ∧ (∀ attempt_id current,
       answers_match_snapshot (get_session (attempt_finish attempt_id current) db).2)
  ∧ (∀ attempt_id,
       count_answers attempt_id db
       = Z.of_nat (length (filter (λ r, AttemptQuestion.attempt_id r = attempt_id)
                                  (attempt_questions db)))).
Proof.
  intros Hm. split_and!.
  - intros test_id current.
    destruct (get_session (attempt_create test_id current) db) as [[r|e] db'] eqn:E; simpl.
    + apply attempt_create_inv in E as (test & _ & _ & [(a & _ & _ & ->)|(_ & _ & _ & _ & ->)]).
      * exact Hm.
      * by apply match_new_attempt.
    + apply get_session_raise in E as ->; [exact Hm|apply uncommitted_attempt_create].
  - intros. by apply keeps_inv_get_session; [apply keeps_match_answer_update|].
  - intros. by apply keeps_inv_get_session; [apply keeps_match_answer_delete|].
  - intros. by apply keeps_inv_get_session; [apply keeps_match_attempt_finish|].
  - intros attempt_id. unfold count_answers. f_equal.
    rewrite <- (length_fmap (λ a, (Answer.question_id a, Answer.question_version a))).
    rewrite (Hm attempt_id). by rewrite length_fmap.
Qed.

Lemma answers_match_snapshot_invariant_witness :
  answers_match_snapshot (get_session (attempt_create 1 Demo.student) Demo.db_fresh).2
  ∧ count_answers 1 Demo.db_fresh
    = Z.of_nat (length (filter (λ r, AttemptQuestion.attempt_id r = 1)
                               (attempt_questions Demo.db_fresh))).
Proof.
  destruct (answers_match_snapshot_invariant Demo.db_fresh) as (Hcreate & _ & _ & _ & Hcount).
  - intros attempt_id. reflexivity.
  - split; [apply Hcreate|apply Hcount].
Defined.

(** * An answer and the grade *)

Lemma count_flip {A : Type} (P Q : A → Prop)
    `{!∀ x, Decision (P x), !∀ x, Decision (Q x)} (l : list A) (x : A) :
  NoDup l → x ∈ l → (∀ y, y ∈ l → y ≠ x → (Q y ↔ P y)) →
  Z.of_nat (length (filter Q l))
  = Z.of_nat (length (filter P l))
    + (if decide (Q x) then 1 else 0) - (if decide (P x) then 1 else 0).
Proof.
  induction l as [|a l IH]; intros Hnd Hx Hsame; [by apply elem_of_nil in Hx|].
  apply NoDup_cons in Hnd as [Hnotin Hnd].
  rewrite !filter_cons.
  apply elem_of_cons in Hx as [->|Hx].
  - assert (filter Q l = filter P l) as ->.
    { apply filter_ext_Forall, Forall_forall. intros y Hy. apply Hsame.
      - by apply list_elem_of_further.
      - intros ->. done. }
    destruct (decide (Q a)), (decide (P a)); simpl; lia.
  - assert (a ≠ x) as Hne by (intros ->; done).
    assert (Q a ↔ P a) as Ha by (apply Hsame; [apply list_elem_of_here|done]).
    specialize (IH Hnd Hx (λ y Hy, Hsame y (list_elem_of_further _ _ _ Hy))).
    destruct (decide (Q a)) as [Hq|Hq], (decide (P a)) as [Hp|Hp]; simpl; try tauto; lia.
Qed.

(** What one [answer_update] does to the grade.  The total stays; the
    correct count loses one if the answer was correct before and gains one
    if the new index is the correct index of the version the answer pins.
    No other answer counts differently. *)
Theorem answer_update_moves_grade answer_id index current ans attempt v db :
  select_answer answer_id db = [ans] →
  select_attempt (Answer.attempt_id ans) db = [attempt] →
  Attempt.user_id attempt = user_id current →
  Attempt.status attempt = "in_progress" →
  answers_ok db →
  unique_on QuestionVersion.key (question_versions db) →
  pinned_version ans db = Some v →
  0 ≤ index → int4 index →
  ∃ db',
    get_session (answer_update answer_id index current) db = (Ok [("status", VStr "ok")], db')
    ∧ count_answers (Answer.attempt_id ans) db' = count_answers (Answer.attempt_id ans) db
    ∧ count_correct (Answer.attempt_id ans) db'
      = count_correct (Answer.attempt_id ans) db
        + (if decide (index = QuestionVersion.correct_index v) then 1 else 0)
        - (if decide (answered_correctly db ans) then 1 else 0).
Proof.
  intros Hans Hatt Hown Hprog Hok Hu Hpin Hi H4.
  eexists. split; [by apply (answer_update_Ok _ _ _ ans attempt)|].
  set (u := λ r, if decide (Answer.id r = answer_id)
                 then Answer.set_answer_index index r else r).
  set (db' := with_answers (fmap u) db).
  set (aid := Answer.attempt_id ans).
  assert (ans ∈ answers db ∧ Answer.id ans = answer_id) as [Hin Hid].
  { assert (ans ∈ select_answer answer_id db) as H
      by (rewrite Hans; by apply list_elem_of_singleton).
    by apply list_elem_of_filter in H as [? ?]. }
  assert (answers_of aid db' = u <$> answers_of aid db) as Hof.
  { unfold answers_of, db'. simpl. rewrite filter_fmap_comm. f_equal.
    apply list_filter_iff. intros r. unfold u. by case_decide. }
  split.
  - unfold count_answers. f_equal.
    change (length (answers_of aid db') = length (answers_of aid db)).
    by rewrite Hof, length_fmap.
  - rewrite (count_correct_spec aid db' Hu), (count_correct_spec aid db Hu).
    unfold spec_correct. rewrite Hof, filter_fmap_comm, length_fmap.
    destruct Hok as (Hids & _).
    rewrite (count_flip (answered_correctly db) (λ a, answered_correctly db' (u a))
               (answers_of aid db) ans).
    + f_equal. f_equal. apply decide_ext.
      unfold answered_correctly, u. rewrite decide_True by done.
      change (pinned_version (Answer.set_answer_index index ans) db')
        with (pinned_version ans db).
      rewrite Hpin. simpl. split.
      * intros [_ [= ->]]. done.
      * intros ->. split; [lia|done].
    + apply (NoDup_fmap_1 Answer.id). by apply NoDup_fmap_filter.
    + by apply list_elem_of_filter.
    + intros y Hy Hne. apply list_elem_of_filter in Hy as [_ Hy].
      assert (Answer.id y ≠ answer_id) as Hyid.
      { intros Heq. apply Hne. apply (NoDup_fmap_eq Answer.id (answers db)); try done.
        congruence. }
      unfold u. by rewrite decide_False.
Qed.

Lemma answer_update_moves_grade_witness :
  ∃ db',
    get_session (answer_update 2 0 Demo.student) Demo.db_answered
    = (Ok [("status", VStr "ok")], db')
    ∧ count_answers 1 db' = count_answers 1 Demo.db_answered
    ∧ count_correct 1 db'
      = count_correct 1 Demo.db_answered
        + (if decide (0 = QuestionVersion.correct_index
                             (QuestionVersion.mk 2 1 "q2" "second" Demo.abc 0))
           then 1 else 0)
        - (if decide (answered_correctly Demo.db_answered (Answer.mk 2 1 2 1 (-1)))
           then 1 else 0).
Proof.
  apply (answer_update_moves_grade 2 0 Demo.student (Answer.mk 2 1 2 1 (-1))
           (Attempt.mk 1 1 20 "in_progress")
           (QuestionVersion.mk 2 1 "q2" "second" Demo.abc 0) Demo.db_answered).
  - reflexivity.
  - reflexivity.
  - reflexivity.
  - reflexivity.
  - apply (bool_decide_unpack _). vm_compute. exact I.
  - apply (bool_decide_unpack _). vm_compute. exact I.
  - reflexivity.
  - lia.
  - unfold int4. lia.
Defined.
